(** * Solana MCP server: tool dispatch and session state

    A shallow embedding of the server's entry file (the one that defines
    [NETWORKS], [wallets], [ensureConnection], [withTimeout], the
    [handle...] functions and the [CallToolRequestSchema] handler).

    - JavaScript numbers are IEEE-754 binary64 values ([spec_float] of the
      standard library, precision 53, maximal exponent 1024).
    - The ledger client (web3.js, spl-token, bs58) and the host are an
      interface ([SolanaLib]); the asynchronous calls are the events of a
      small free monad, answered by a [World].
    - The module-level variables ([wallets], [currentNetwork],
      [connection], [connectionInitialized]) form the [State] record that
      every handler threads. *)

From Stdlib Require Import ZArith String List Bool Lia.
From Stdlib Require Import Floats.SpecFloat.
From stdpp Require Import base option list strings pretty.

Set Default Proof Using "Type".
Set Warnings "-register-all".

(** ** JavaScript numbers *)

Module Number.

Local Open Scope Z_scope.

Definition prec : Z := 53.
Definition emax : Z := 1024.

Abbreviation t := spec_float.

Definition NaN : t := S754_nan.

(** [x * y] and [x / y] on Numbers: correctly rounded binary64. *)
Definition mul : t -> t -> t := SFmul prec emax.
Definition div : t -> t -> t := SFdiv prec emax.

(** [Number(n)] for a mathematical integer [n] (rounds to nearest). *)
Definition of_Z (n : Z) : t := binary_normalize prec emax n 0 false.

(** The decimal literal [a / 10^k], as the parser reads it: the binary64
    value nearest to the quotient (both operands are exact below 2^53). *)
Definition decimal (a : Z) (k : Z) : t := div (of_Z a) (of_Z (10 ^ k)).

Definition is_finite (x : t) : bool :=
  match x with
  | S754_zero _ | S754_finite _ _ _ => true
  | _ => false
  end.

Definition is_nonneg (x : t) : bool :=
  match x with
  | S754_zero _ | S754_finite false _ _ => true
  | _ => false
  end.

(** The exact value of a finite Number is [num x / den x]. *)
Definition num (x : t) : Z :=
  match x with
  | S754_finite s m e => cond_Zopp s (Zpos m) * 2 ^ Z.max e 0
  | _ => 0
  end.

Definition den (x : t) : Z :=
  match x with
  | S754_finite _ _ e => 2 ^ Z.max (- e) 0
  | _ => 1
  end.

(** The integer a finite Number truncates down to. *)
Definition floorZ (x : t) : option Z :=
  match x with
  | S754_zero _ => Some 0
  | S754_finite _ _ _ => Some (num x / den x)
  | _ => None
  end.

(** An integer as a Number, without rounding: the mantissa is shifted
    left to 53 bits when it has fewer, which is the normal form of every
    integer below 2^53. *)
Definition of_Z_exact (n : Z) : t :=
  let k (p : positive) := Z.max 0 (prec - Zpos (digits2_pos p)) in
  match n with
  | Z0 => S754_zero false
  | Zpos p => S754_finite false (Z.to_pos (Z.shiftl (Zpos p) (k p))) (- k p)
  | Zneg p => S754_finite true (Z.to_pos (Z.shiftl (Zpos p) (k p))) (- k p)
  end.

(** [Math.floor]: NaN, the infinities, the zeros and every Number with a
    non-negative exponent are returned as they are. *)
Definition Math_floor (x : t) : t :=
  match x with
  | S754_finite _ _ e =>
      if 0 <=? e then x else of_Z_exact (num x / den x)
  | _ => x
  end.

(** [BigInt(x)]: the integer [x] denotes; [None] stands for the
    RangeError raised on NaN, an infinity or a non-integer. *)
Definition BigInt (x : t) : option Z :=
  match x with
  | S754_zero _ => Some 0
  | S754_finite _ _ _ =>
      if num x mod den x =? 0 then Some (num x / den x) else None
  | _ => None
  end.

(** [x > y] and [x === y] on Numbers. *)
Definition gt (x y : t) : bool := SFltb y x.
Definition strict_eq (x y : t) : bool := SFeqb x y.

(** [Math.min(x, y)]. *)
Definition Math_min (x y : t) : t :=
  match SFcompare x y with
  | None => NaN
  | Some Lt => x
  | Some Gt => y
  | Some Eq => match x with S754_zero true => x | _ => y end
  end.

(** Truthiness of a Number: everything but the zeros and NaN. *)
Definition truthy (x : t) : bool :=
  match x with
  | S754_zero _ | S754_nan => false
  | _ => true
  end.

End Number.

Abbreviation JSNumber := spec_float.

Definition LAMPORTS_PER_SOL : JSNumber := Number.of_Z 1000000000.

(** ** JavaScript values, thrown values, maps and objects *)

(** Values that reach a JSON payload.  [VNative] is a function or host
    object (for instance a member inherited from [Object.prototype]). *)
Inductive JSVal :=
| VUndefined
| VNull
| VBool (b : bool)
| VNum (x : JSNumber)
| VStr (s : string)
| VArr (items : list JSVal)
| VObj (fields : list (string * JSVal))
| VNative (what : string).

Definition truthy (v : JSVal) : bool :=
  match v with
  | VUndefined | VNull => false
  | VBool b => b
  | VNum x => Number.truthy x
  | VStr s => negb (String.eqb s "")
  | VArr _ | VObj _ | VNative _ => true
  end.

(** A caller-supplied string that may be absent ([undefined]). *)
Definition opt_str (o : option string) : JSVal :=
  match o with Some s => VStr s | None => VUndefined end.

Definition opt_num (o : option JSNumber) : JSVal :=
  match o with Some x => VNum x | None => VUndefined end.

(** How a template literal renders such a string. *)
Definition show (o : option string) : string := default "undefined" o.

(** [a || b] on strings: the empty string and [undefined] are falsy. *)
Definition or_else (o : option string) (d : string) : string :=
  match o with
  | Some s => if String.eqb s "" then d else s
  | None => d
  end.

(** What a [throw] carries: an [Error] object (constructor name and
    message) or some other value, kept as [String(value)]. *)
Inductive Thrown :=
| ErrorObj (name message : string)
| NonError (rendered : string).

Definition Error (message : string) : Thrown := ErrorObj "Error" message.

(** [error instanceof Error ? error.message : other] *)
Definition message_or (t : Thrown) (other : string -> string) : string :=
  match t with
  | ErrorObj _ m => m
  | NonError s => other s
  end.

(** [`${error}`] *)
Definition Thrown_toString (t : Thrown) : string :=
  match t with
  | ErrorObj n m =>
      if String.eqb m "" then n
      else if String.eqb n "" then m
      else n +:+ ": " +:+ m
  | NonError s => s
  end.

Inductive Completion (A : Type) :=
| Normal (a : A)
| Abrupt (t : Thrown).
Arguments Normal {A} a.
Arguments Abrupt {A} t.

(** A JavaScript [Map]: keys in insertion order, [set] on a present key
    replaces the value in place. *)
Section JSMap.
Context {K V : Type} `{EqDecision K}.

Definition JSMap : Type := list (K * V).

Fixpoint Map_get (m : JSMap) (k : K) : option V :=
  match m with
  | [] => None
  | (k', v) :: m' => if decide (k' = k) then Some v else Map_get m' k
  end.

Definition Map_has (m : JSMap) (k : K) : bool :=
  match Map_get m k with Some _ => true | None => false end.

Fixpoint Map_set (m : JSMap) (k : K) (v : V) : JSMap :=
  match m with
  | [] => [(k, v)]
  | (k', v') :: m' =>
      if decide (k' = k) then (k', v) :: m' else (k', v') :: Map_set m' k v
  end.

Definition Map_values (m : JSMap) : list V := snd <$> m.
Definition Map_size (m : JSMap) : nat := length m.
End JSMap.
Arguments JSMap K V : clear implicits.

(** Property access [obj[key]] on an object literal: own properties
    first, then the members every object inherits from
    [Object.prototype]. *)
Definition Object_prototype_members : list string :=
  [ "constructor"; "__defineGetter__"; "__defineSetter__"; "hasOwnProperty";
    "__lookupGetter__"; "__lookupSetter__"; "isPrototypeOf";
    "propertyIsEnumerable"; "toString"; "valueOf"; "__proto__";
    "toLocaleString" ].

Inductive Property (A : Type) :=
| Own (a : A)
| Inherited (member : string)
| Absent.
Arguments Own {A} a.
Arguments Inherited {A} member.
Arguments Absent {A}.

Definition get_property {A} (own : list (string * A)) (key : string) : Property A :=
  match Map_get own key with
  | Some a => Own a
  | None =>
      if bool_decide (key ∈ Object_prototype_members) then Inherited key else Absent
  end.

(** ** Network registry *)

(** The variables of [process.env] the module reads when it is loaded. *)
Record Env := {
  SOLANA_MAINNET_RPC : option string;
  SOLANA_DEVNET_RPC : option string;
  SOLANA_TESTNET_RPC : option string;
  SOLANA_LOCALHOST_RPC : option string;
  SOLANA_CUSTOM_RPC : option string
}.

Definition NETWORKS (env : Env) : list (string * string) :=
  [ ("mainnet", or_else (SOLANA_MAINNET_RPC env) "https://api.mainnet-beta.solana.com");
    ("devnet", or_else (SOLANA_DEVNET_RPC env) "https://api.devnet.solana.com");
    ("testnet", or_else (SOLANA_TESTNET_RPC env) "https://api.testnet.solana.com");
    ("localhost", or_else (SOLANA_LOCALHOST_RPC env) "http://127.0.0.1:8899");
    ("custom", or_else (SOLANA_CUSTOM_RPC env) "") ].

(** [NETWORKS.devnet] *)
Definition NETWORKS_devnet (env : Env) : string :=
  or_else (SOLANA_DEVNET_RPC env) "https://api.devnet.solana.com".

(** [NETWORKS[network]] as a payload value. *)
Definition NETWORKS_at (env : Env) (network : string) : JSVal :=
  match get_property (NETWORKS env) network with
  | Own url => VStr url
  | Inherited member => VNative member
  | Absent => VUndefined
  end.

(** ** Requests *)

(** The argument bag of a tool call.  Each property has the type its
    input schema declares; [None] is a property the caller left out
    ([undefined] after destructuring). *)
Module Args.
Record t := {
  name : option string;
  privateKey : option string;
  walletName : option string;
  tokenMint : option string;
  fromWallet : option string;
  toAddress : option string;
  amount : option JSNumber;
  address : option string;
  signature : option string;
  network : option string;
  decimals : option JSNumber;
  freezeAuthority : option bool;
  destinationAddress : option string;
  accountAddress : option string;
  authorityType : option string;
  newAuthority : option string;
  delegateAddress : option string;
  limit : option JSNumber;
  before : option string;
  includeZeroBalances : option bool
}.

(** [{}] *)
Definition empty : t :=
  {| name := None; privateKey := None; walletName := None; tokenMint := None;
     fromWallet := None; toAddress := None; amount := None; address := None;
     signature := None; network := None; decimals := None;
     freezeAuthority := None; destinationAddress := None;
     accountAddress := None; authorityType := None; newAuthority := None;
     delegateAddress := None; limit := None; before := None;
     includeZeroBalances := None |}.
End Args.

(** [request.params] of a tools/call request. *)
Record Request := {
  req_name : string;
  req_arguments : option Args.t
}.

(** The result of a tools/call request. *)
Record Content := {
  type : string;
  text : string
}.

Record Response := {
  content : list Content;
  isError : option bool
}.

(** ** The ledger client *)

(** What the server imports from web3.js, spl-token and bs58, and the
    parts of the host it relies on (the process environment, JSON,
    [Math.pow], the messages of the engine's own errors).  Functions that
    can throw return a [Completion].  The environment is taken to be
    well configured: the endpoints it gives the registry are URLs that
    [new Connection] accepts. *)
Class SolanaLib := {
  (** [process.env], as it is when the module is loaded *)
  process_env : Env;
  (** what [new Connection(endpoint, commitment)] throws when it refuses
      the endpoint: web3.js accepts http(s) URLs only *)
  Connection_refusal : JSVal -> option Thrown;
  Connection_accepts :
    forall network url,
      Map_get (NETWORKS process_env) network = Some url -> url <> "" ->
      Connection_refusal (VStr url) = None;
  (** a function or a host object is no URL *)
  Connection_refuses :
    forall member, Connection_refusal (VNative member) <> None;
  PublicKey : Type;
  Keypair : Type;
  Uint8Array : Type;
  (** [new PublicKey(value)] *)
  PublicKey_new : option string -> Completion PublicKey;
  PublicKey_toString : PublicKey -> string;
  publicKey : Keypair -> PublicKey;
  secretKey : Keypair -> Uint8Array;
  Keypair_fromSecretKey : Uint8Array -> Completion Keypair;
  bs58_encode : Uint8Array -> string;
  bs58_decode : option string -> Completion Uint8Array;
  (** [await getAssociatedTokenAddress(mint, owner)]: a local derivation *)
  getAssociatedTokenAddress : PublicKey -> PublicKey -> Completion PublicKey;
  (** [JSON.stringify(value, null, 2)] *)
  JSON_stringify : JSVal -> string;
  (** [Math.pow(x, y)], an implementation-approximated function *)
  Math_pow : JSNumber -> JSNumber -> JSNumber;
  (** messages of the engine's own errors *)
  destructure_message : string -> string;
  undefined_property_message : string -> string;
  not_a_function_message : string -> string;
  BigInt_message : JSNumber -> string;
  (** the message of the RangeError raised when an amount is written
      into the 64-bit unsigned field of an instruction *)
  u64_message : Z -> string
}.

Inductive AuthorityType := MintTokens | FreezeAccount | AccountOwner | CloseAccount.

Section Model.
Context `{lib : SolanaLib}.

(** [new Connection(endpoint, commitment)] *)
Record Connection := {
  rpcEndpoint : JSVal;
  commitment : string
}.

Inductive Instruction :=
| SystemProgram_transfer (fromPubkey toPubkey : PublicKey) (lamports : JSNumber)
| createAssociatedTokenAccountInstruction (payer associatedToken owner mint : PublicKey)
| createTransferInstruction (source destination owner : PublicKey) (amount : Z).

Record Transaction := {
  instructions : list Instruction;
  recentBlockhash : option string;
  feePayer : option PublicKey;
  signers : list Keypair
}.

(** [new Connection(endpoint, commitment)] *)
Definition Connection_new (endpoint : JSVal) (commitment : string)
  : Completion Connection :=
  match Connection_refusal endpoint with
  | Some error => Abrupt error
  | None => Normal {| rpcEndpoint := endpoint; commitment := commitment |}
  end.

(** An amount that fits the 64-bit unsigned field of an instruction. *)
Definition is_u64 (n : Z) : bool := (0 <=? n)%Z && (n <? 2 ^ 64)%Z.

(** [SystemProgram.transfer({ fromPubkey, toPubkey, lamports })]: the
    lamports are turned into a BigInt and encoded as a u64; either step
    throws a RangeError when it cannot be done. *)
Definition SystemProgram_transfer_of (fromPubkey toPubkey : PublicKey)
    (lamports : JSNumber) : Completion Instruction :=
  match Number.BigInt lamports with
  | None => Abrupt (ErrorObj "RangeError" (BigInt_message lamports))
  | Some n =>
      if is_u64 n then Normal (SystemProgram_transfer fromPubkey toPubkey lamports)
      else Abrupt (ErrorObj "RangeError" (u64_message n))
  end.

(** [createTransferInstruction(source, destination, owner, amount)]:
    the amount is encoded as a u64. *)
Definition createTransferInstruction_of (source destination owner : PublicKey)
    (amount : Z) : Completion Instruction :=
  if is_u64 amount then Normal (createTransferInstruction source destination owner amount)
  else Abrupt (ErrorObj "RangeError" (u64_message amount)).

Definition Transaction_new : Transaction :=
  {| instructions := []; recentBlockhash := None; feePayer := None; signers := [] |}.

Definition Transaction_add (tx : Transaction) (ix : Instruction) : Transaction :=
  {| instructions := instructions tx ++ [ix];
     recentBlockhash := recentBlockhash tx;
     feePayer := feePayer tx;
     signers := signers tx |}.

Definition set_recentBlockhash (tx : Transaction) (blockhash : string) : Transaction :=
  {| instructions := instructions tx;
     recentBlockhash := Some blockhash;
     feePayer := feePayer tx;
     signers := signers tx |}.

Definition set_feePayer (tx : Transaction) (payer : PublicKey) : Transaction :=
  {| instructions := instructions tx;
     recentBlockhash := recentBlockhash tx;
     feePayer := Some payer;
     signers := signers tx |}.

Definition Transaction_sign (tx : Transaction) (signer : Keypair) : Transaction :=
  {| instructions := instructions tx;
     recentBlockhash := recentBlockhash tx;
     feePayer := feePayer tx;
     signers := signers tx ++ [signer] |}.

(** *** Replies of the ledger *)

Record AccountInfo := {
  ai_lamports : JSNumber;
  ai_owner : PublicKey;
  ai_executable : bool;
  ai_rentEpoch : option JSNumber;
  ai_dataLength : nat
}.

Record TransactionMeta := {
  meta_fee : JSNumber;
  meta_err : JSVal
}.

Record TransactionResponse := {
  tx_slot : JSNumber;
  tx_blockTime : JSVal;
  tx_meta : option TransactionMeta
}.

(** The reply of [getVersion]; the handlers read ["solana-core"]. *)
Record Version := { solana_core : string }.

Record EpochInfo := {
  epoch : JSNumber;
  slotIndex : JSNumber;
  slotsInEpoch : JSNumber
}.

(** An entry of [getTokenAccountsByOwner]: the account key and what
    [data.parsed?.info] holds, when the data has that shape. *)
Record KeyedTokenAccount := {
  kta_pubkey : PublicKey;
  kta_mint : JSVal;
  kta_uiAmount : JSVal;
  kta_decimals : JSVal
}.

(** An entry of [getParsedTokenAccountsByOwner]: the account key and
    [data.parsed.info]; [uiAmount] is a Number or [null]. *)
Record ParsedTokenAccount := {
  pta_pubkey : PublicKey;
  pta_mint : string;
  pta_uiAmount : option JSNumber;
  pta_decimals : JSNumber;
  pta_amount : string
}.

Record SignatureInfo := {
  sig_signature : string;
  sig_slot : JSNumber;
  sig_blockTime : JSVal;
  sig_err : JSVal
}.

(** spl-token's [Account] and [Mint] *)
Record TokenAccount := {
  ta_amount : Z;
  ta_mint : PublicKey
}.

Record Mint := {
  mint_supply : Z;
  mint_decimals : JSNumber;
  mint_mintAuthority : option PublicKey;
  mint_freezeAuthority : option PublicKey;
  mint_isInitialized : bool
}.

Record SignaturesOptions := {
  opt_limit : JSNumber;
  opt_before : option string
}.

(** An HTTP response object, known by the URL it answers. *)
Record HttpResponse := { response_url : string }.

(** What [response.json()] yields: the token list (an array of token
    objects) or the price document, for which [price id] is
    [data?.[id]?.price]. *)
Record TokenEntry := {
  te_address : JSVal;
  te_name : JSVal;
  te_symbol : JSVal;
  te_decimals : JSVal;
  te_logoURI : JSVal
}.

Inductive JsonBody :=
| TokenList (tokens : list TokenEntry)
| PriceData (price : string -> JSVal).

(** *** Asynchronous calls *)

(** Every call that returns a promise the handlers await.  The index is
    the type of the value the promise is fulfilled with. *)
Inductive Call : Type -> Type :=
| getBalance (c : Connection) (key : PublicKey) : Call JSNumber
| getLatestBlockhash (c : Connection) : Call string
| sendTransaction (c : Connection) (tx : Transaction) (sgn : list Keypair) : Call string
| requestAirdrop (c : Connection) (key : PublicKey) (lamports : JSNumber) : Call string
| getAccountInfo (c : Connection) (key : PublicKey) : Call (option AccountInfo)
| getTransaction (c : Connection) (signature : option string) : Call (option TransactionResponse)
| getVersion (c : Connection) : Call Version
| getEpochInfo (c : Connection) : Call EpochInfo
| getTokenAccountsByOwner (c : Connection) (owner : PublicKey) (programId : PublicKey)
    : Call (list KeyedTokenAccount)
| getParsedTokenAccountsByOwner (c : Connection) (owner : PublicKey) (programId : PublicKey)
    : Call (list ParsedTokenAccount)
| getSignaturesForAddress (c : Connection) (key : PublicKey) (options : SignaturesOptions)
    : Call (list SignatureInfo)
| getAccount (c : Connection) (address : PublicKey) : Call TokenAccount
| getMint (c : Connection) (mint : PublicKey) : Call Mint
| createMint (c : Connection) (payer : Keypair) (mintAuthority : PublicKey)
    (freezeAuthority : option PublicKey) (decimals : JSNumber) : Call PublicKey
| mintTo (c : Connection) (payer : Keypair) (mint destination : PublicKey)
    (authority : Keypair) (amount : Z) : Call string
| burn (c : Connection) (payer : Keypair) (account mint : PublicKey)
    (owner : Keypair) (amount : Z) : Call string
| freezeAccount (c : Connection) (payer : Keypair) (account mint : PublicKey)
    (authority : Keypair) : Call string
| thawAccount (c : Connection) (payer : Keypair) (account mint : PublicKey)
    (authority : Keypair) : Call string
| setAuthority (c : Connection) (payer : Keypair) (account : PublicKey)
    (currentAuthority : Keypair) (authorityType : Property AuthorityType)
    (newAuthority : option PublicKey) : Call string
| closeAccount (c : Connection) (payer : Keypair) (account destination : PublicKey)
    (authority : Keypair) : Call string
| approve (c : Connection) (payer : Keypair) (account delegate : PublicKey)
    (owner : Keypair) (amount : Z) : Call string
| revoke (c : Connection) (payer : Keypair) (account : PublicKey)
    (owner : Keypair) : Call string
| fetch (url : string) : Call HttpResponse
| Response_json (r : HttpResponse) : Call JsonBody
| setTimeout_resolve (ms : N) : Call unit.

(** Synchronous effects of the host. *)
Inductive Effect : Type -> Type :=
| Keypair_generate : Effect Keypair
| Date_toISOString : Effect string.

(** *** Promises *)

Inductive Settled (X : Type) :=
| Fulfilled (x : X)
| Rejected (t : Thrown).
Arguments Fulfilled {X} x.
Arguments Rejected {X} t.

(** A promise settles some milliseconds after it was created, or never. *)
Inductive Promise (X : Type) :=
| Never
| SettlesAt (ms : N) (o : Settled X).
Arguments Never {X}.
Arguments SettlesAt {X} ms o.

(** [Promise.race([p, q])]: whichever settles first; [p], listed first,
    when both settle in the same millisecond. *)
Definition Promise_race {X} (p q : Promise X) : Promise X :=
  match p, q with
  | Never, _ => q
  | _, Never => p
  | SettlesAt tp _, SettlesAt tq _ => if (tp <=? tq)%N then p else q
  end.

Definition withTimeout {X} (promise : Promise X) (timeoutMs : option N) : Promise X :=
  let timeoutMs := default 10000%N timeoutMs in
  let timeoutPromise := SettlesAt timeoutMs (Rejected (Error "Operation timed out")) in
  Promise_race promise timeoutPromise.

(** *** Handler programs *)

(** How a call is awaited: bare ([await call]) or through the timeout
    guard ([await withTimeout(call, timeoutMs)], where [timeoutMs] may be
    left out). *)
Inductive Guard :=
| Bare
| WithTimeout (timeoutMs : option N).

Definition guarded {X} (g : Guard) (promise : Promise X) : Promise X :=
  match g with
  | Bare => promise
  | WithTimeout timeoutMs => withTimeout promise timeoutMs
  end.

(** What an [async] function does: it returns, performs a host effect,
    or awaits a call; the continuation receives how the awaited promise
    settled. *)
Inductive Prog (R : Type) : Type :=
| Ret (r : R)
| Perform {X : Type} (e : Effect X) (k : X -> Prog R)
| Await {X : Type} (c : Call X) (g : Guard) (k : Settled X -> Prog R).
Arguments Ret {R} r.
Arguments Perform {R X} e k.
Arguments Await {R X} c g k.

Fixpoint Prog_bind {R S} (p : Prog R) (f : R -> Prog S) : Prog S :=
  match p with
  | Ret r => f r
  | Perform e k => Perform e (fun x => Prog_bind (k x) f)
  | Await c g k => Await c g (fun o => Prog_bind (k o) f)
  end.

(** *** Module state *)

Record Wallet := {
  keypair : Keypair;
  name : option string
}.

Record State := {
  wallets : JSMap (option string) Wallet;
  currentNetwork : string;
  connection : option Connection;
  connectionInitialized : bool
}.

(** The state right after the module is loaded. *)
Definition initial_state : State :=
  {| wallets := [];
     currentNetwork := "devnet";
     connection := None;
     connectionInitialized := false |}.

(** A computation over the module state that may throw and may await. *)
Definition M (A : Type) : Type := State -> Prog (Completion A * State).

Definition ret {A} (a : A) : M A := fun st => Ret (Normal a, st).

Definition throw {A} (t : Thrown) : M A := fun st => Ret (Abrupt t, st).

Definition bind {A B} (m : M A) (f : A -> M B) : M B :=
  fun st =>
    Prog_bind (m st) (fun '(r, st') =>
      match r with
      | Normal a => f a st'
      | Abrupt t => Ret (Abrupt t, st')
      end).

(** [try { m } catch (error) { handler error }] *)
Definition try_catch {A} (m : M A) (handler : Thrown -> M A) : M A :=
  fun st =>
    Prog_bind (m st) (fun '(r, st') =>
      match r with
      | Normal a => Ret (Normal a, st')
      | Abrupt t => handler t st'
      end).

Definition get_state : M State := fun st => Ret (Normal st, st).
Definition put_state (st : State) : M unit := fun _ => Ret (Normal tt, st).

Definition perform {X} (e : Effect X) : M X :=
  fun st => Perform e (fun x => Ret (Normal x, st)).

Definition await_guarded {X} (g : Guard) (c : Call X) : M X :=
  fun st =>
    Await c g (fun o =>
      match o with
      | Fulfilled x => Ret (Normal x, st)
      | Rejected t => Ret (Abrupt t, st)
      end).

(** [await call] *)
Definition await {X} (c : Call X) : M X := await_guarded Bare c.

(** [await withTimeout(call, timeoutMs)] *)
Definition await_withTimeout {X} (c : Call X) (timeoutMs : option N) : M X :=
  await_guarded (WithTimeout timeoutMs) c.

(** A library function that may throw. *)
Definition lift {A} (r : Completion A) : M A :=
  match r with
  | Normal a => ret a
  | Abrupt t => throw t
  end.

Notation "'let*' x ':=' m 'in' k" := (bind m (fun x => k))
  (at level 10, x pattern, m at level 100, k at level 200).
Notation "m ;; k" := (bind m (fun _ => k))
  (at level 100, k at level 200, right associativity).

(** *** Running a program against the world *)

Inductive Event : Type :=
| Performed {X : Type} (e : Effect X) (x : X)
| Called {X : Type} (c : Call X) (o : option (Settled X)).

(** The world outside the process: how each call settles and what each
    host effect yields, given everything that happened before. *)
Record World := {
  answer : forall X, list Event -> Call X -> Promise X;
  host : forall X, list Event -> Effect X -> X
}.

(** A timer always fires; every other promise is the world's. *)
Definition promise_of (w : World) (tr : list Event) {X} (c : Call X) : Promise X :=
  match c in Call T return Promise T -> Promise T with
  | setTimeout_resolve ms => fun _ => SettlesAt ms (Fulfilled tt)
  | _ => fun p => p
  end (answer w X tr c).

Inductive Run (R : Type) :=
| Finished (r : R) (tr : list Event)
| Hung (tr : list Event).
Arguments Finished {R} r tr.
Arguments Hung {R} tr.

(** An awaited promise that never settles leaves the program suspended
    for ever. *)
Fixpoint run {R} (w : World) (p : Prog R) (tr : list Event) : Run R :=
  match p with
  | Ret r => Finished r tr
  | Perform e k =>
      let x := host w _ tr e in
      run w (k x) (tr ++ [Performed e x])
  | Await c g k =>
      match guarded g (promise_of w tr c) with
      | Never => Hung (tr ++ [Called c None])
      | SettlesAt _ o => run w (k o) (tr ++ [Called c (Some o)])
      end
  end.

(** *** Connection manager *)

Definition js_or (a b : JSVal) : JSVal := if truthy a then a else b.

(** [initializeConnection(network = "devnet")]: the current network is
    assigned first, so it keeps the new name when [new Connection]
    throws, and the connection is then the one there was. *)
Definition initializeConnection (network : option string) : M unit :=
  let network := default "devnet" network in
  let* st := get_state in
  put_state
    {| wallets := wallets st;
       currentNetwork := network;
       connection := connection st;
       connectionInitialized := connectionInitialized st |} ;;
  let rpcUrl := js_or (NETWORKS_at process_env network) (VStr (NETWORKS_devnet process_env)) in
  let* c := lift (Connection_new rpcUrl "confirmed") in
  let* st := get_state in
  put_state
    {| wallets := wallets st;
       currentNetwork := currentNetwork st;
       connection := Some c;
       connectionInitialized := connectionInitialized st |}.

Definition ensureConnection : M unit :=
  let* st := get_state in
  if negb (connectionInitialized st) then
    initializeConnection None ;;
    let* st := get_state in
    put_state
      {| wallets := wallets st;
         currentNetwork := currentNetwork st;
         connection := connection st;
         connectionInitialized := true |}
  else ret tt.

(** Reading the module variable [connection] to call [method] on it, or
    to pass it to spl-token; it is [undefined] until the first
    [initializeConnection]. *)
Definition the_connection (method : string) : M Connection :=
  let* st := get_state in
  match connection st with
  | Some c => ret c
  | None => throw (ErrorObj "TypeError" (undefined_property_message method))
  end.

(** *** Pieces shared by the handlers *)

(** [const { first, ... } = args] *)
Definition destructure (first : string) (args : option Args.t) : M Args.t :=
  match args with
  | Some a => ret a
  | None => throw (ErrorObj "TypeError" (destructure_message first))
  end.

(** [const wallet = wallets.get(n); if (!wallet) throw ...] *)
Definition get_wallet (walletName : option string) : M Wallet :=
  let* st := get_state in
  match Map_get (wallets st) walletName with
  | Some wallet => ret wallet
  | None => throw (Error ("Wallet '" +:+ show walletName +:+ "' not found"))
  end.

Definition wallets_set (key : option string) (w : Wallet) : M unit :=
  let* st := get_state in
  put_state
    {| wallets := Map_set (wallets st) key w;
       currentNetwork := currentNetwork st;
       connection := connection st;
       connectionInitialized := connectionInitialized st |}.

(** [`https://explorer.solana.com/${kind}/${id}?cluster=${currentNetwork}`] *)
Definition explorerUrl (kind id : string) : M JSVal :=
  let* st := get_state in
  ret (VStr ("https://explorer.solana.com/" +:+ kind +:+ "/" +:+ id
             +:+ "?cluster=" +:+ currentNetwork st)).

(** An absent Number in arithmetic is NaN. *)
Definition to_number (o : option JSNumber) : JSNumber := default Number.NaN o.

(** [BigInt(x)] *)
Definition to_BigInt (x : JSNumber) : M Z :=
  match Number.BigInt x with
  | Some n => ret n
  | None => throw (ErrorObj "RangeError" (BigInt_message x))
  end.

(** [list.length] as a Number *)
Definition length_number {A} (l : list A) : JSNumber :=
  Number.of_Z (Z.of_nat (length l)).

Definition key_string (k : PublicKey) : JSVal := VStr (PublicKey_toString k).

(** [key ? key.toString() : null] *)
Definition key_or_null (k : option PublicKey) : JSVal :=
  match k with Some k => key_string k | None => VNull end.

Fixpoint mapM {A B} (f : A -> M B) (l : list A) : M (list B) :=
  match l with
  | [] => ret []
  | a :: l' =>
      let* b := f a in
      let* bs := mapM f l' in
      ret (b :: bs)
  end.

(** *** Tool handlers *)

Definition handleCreateWallet (args : option Args.t) : M JSVal :=
  let* a := destructure "name" args in
  let name := Args.name a in
  let* st := get_state in
  if Map_has (wallets st) name then
    throw (Error ("Wallet with name '" +:+ show name +:+ "' already exists"))
  else
    let* keypair := perform Keypair_generate in
    wallets_set name {| keypair := keypair; name := name |} ;;
    ret (VObj [ ("success", VBool true);
                ("wallet", VObj [ ("name", opt_str name);
                                  ("address", key_string (publicKey keypair));
                                  ("privateKey", VStr (bs58_encode (secretKey keypair))) ]) ]).

Definition handleImportWallet (args : option Args.t) : M JSVal :=
  let* a := destructure "name" args in
  let name := Args.name a in
  let privateKey := Args.privateKey a in
  let* st := get_state in
  if Map_has (wallets st) name then
    throw (Error ("Wallet with name '" +:+ show name +:+ "' already exists"))
  else
    try_catch
      (let* secretKey := lift (bs58_decode privateKey) in
       let* keypair := lift (Keypair_fromSecretKey secretKey) in
       wallets_set name {| keypair := keypair; name := name |} ;;
       ret (VObj [ ("success", VBool true);
                   ("wallet", VObj [ ("name", opt_str name);
                                     ("address", key_string (publicKey keypair)) ]) ]))
      (fun error => throw (Error ("Invalid private key: " +:+ Thrown_toString error))).

Definition handleListWallets : M JSVal :=
  let* st := get_state in
  let walletList :=
    (fun wallet => VObj [ ("name", opt_str (name wallet));
                          ("address", key_string (publicKey (keypair wallet))) ])
      <$> Map_values (wallets st) in
  ret (VObj [ ("wallets", VArr walletList);
              ("count", VNum (length_number walletList)) ]).

Definition handleGetBalance (args : option Args.t) : M JSVal :=
  let* a := destructure "walletName" args in
  let walletName := Args.walletName a in
  let* wallet := get_wallet walletName in
  ensureConnection ;;
  let* c := the_connection "getBalance" in
  let* balance :=
    await_withTimeout (getBalance c (publicKey (keypair wallet))) None in
  let solBalance := Number.div balance LAMPORTS_PER_SOL in
  ret (VObj [ ("wallet", opt_str walletName);
              ("address", key_string (publicKey (keypair wallet)));
              ("balance", VObj [ ("lamports", VNum balance);
                                 ("sol", VNum solBalance) ]) ]).

Definition handleGetTokenBalance (args : option Args.t) : M JSVal :=
  let* a := destructure "walletName" args in
  let walletName := Args.walletName a in
  let tokenMint := Args.tokenMint a in
  let* wallet := get_wallet walletName in
  ensureConnection ;;
  try_catch
    (let* tokenMintPubkey := lift (PublicKey_new tokenMint) in
     let* tokenAccount :=
       lift (getAssociatedTokenAddress tokenMintPubkey (publicKey (keypair wallet))) in
     let* c := the_connection "getAccount" in
     let* accountInfo := await (getAccount c tokenAccount) in
     ret (VObj [ ("wallet", opt_str walletName);
                 ("tokenMint", opt_str tokenMint);
                 ("balance", VStr (pretty (ta_amount accountInfo)));
                 ("decimals", key_string (ta_mint accountInfo)) ]))
    (fun error =>
       ret (VObj [ ("wallet", opt_str walletName);
                   ("tokenMint", opt_str tokenMint);
                   ("balance", VStr "0");
                   ("error", VStr "Token account not found or error retrieving balance") ])).

Definition handleTransferSol (args : option Args.t) : M JSVal :=
  let* a := destructure "fromWallet" args in
  let fromWallet := Args.fromWallet a in
  let toAddress := Args.toAddress a in
  let amount := Args.amount a in
  let* wallet := get_wallet fromWallet in
  ensureConnection ;;
  let* toPubkey := lift (PublicKey_new toAddress) in
  let lamports := Number.Math_floor (Number.mul (to_number amount) LAMPORTS_PER_SOL) in
  let* transfer :=
    lift (SystemProgram_transfer_of (publicKey (keypair wallet)) toPubkey lamports) in
  let transaction := Transaction_add Transaction_new transfer in
  let* c := the_connection "getLatestBlockhash" in
  let* blockhash := await (getLatestBlockhash c) in
  let transaction := set_recentBlockhash transaction blockhash in
  let transaction := set_feePayer transaction (publicKey (keypair wallet)) in
  let transaction := Transaction_sign transaction (keypair wallet) in
  let* c := the_connection "sendTransaction" in
  let* signature := await (sendTransaction c transaction [keypair wallet]) in
  let* url := explorerUrl "tx" signature in
  ret (VObj [ ("success", VBool true);
              ("signature", VStr signature);
              ("explorerUrl", url) ]).

Definition handleTransferTokens (args : option Args.t) : M JSVal :=
  let* a := destructure "fromWallet" args in
  let fromWallet := Args.fromWallet a in
  let toAddress := Args.toAddress a in
  let tokenMint := Args.tokenMint a in
  let amount := Args.amount a in
  let* wallet := get_wallet fromWallet in
  ensureConnection ;;
  let* tokenMintPubkey := lift (PublicKey_new tokenMint) in
  let* toPubkey := lift (PublicKey_new toAddress) in
  let* fromTokenAccount :=
    lift (getAssociatedTokenAddress tokenMintPubkey (publicKey (keypair wallet))) in
  let* toTokenAccount := lift (getAssociatedTokenAddress tokenMintPubkey toPubkey) in
  let transaction := Transaction_new in
  (* Check if recipient has token account, create if not *)
  let* transaction :=
    try_catch
      (let* c := the_connection "getAccount" in
       await (getAccount c toTokenAccount) ;;
       ret transaction)
      (fun _ =>
         ret (Transaction_add transaction
                (createAssociatedTokenAccountInstruction
                   (publicKey (keypair wallet)) toTokenAccount toPubkey tokenMintPubkey))) in
  let* rawAmount := to_BigInt (Number.Math_floor (to_number amount)) in
  let* transfer :=
    lift (createTransferInstruction_of fromTokenAccount toTokenAccount
            (publicKey (keypair wallet)) rawAmount) in
  let transaction := Transaction_add transaction transfer in
  let* c := the_connection "getLatestBlockhash" in
  let* blockhash := await (getLatestBlockhash c) in
  let transaction := set_recentBlockhash transaction blockhash in
  let transaction := set_feePayer transaction (publicKey (keypair wallet)) in
  let transaction := Transaction_sign transaction (keypair wallet) in
  let* c := the_connection "sendTransaction" in
  let* signature := await (sendTransaction c transaction [keypair wallet]) in
  let* url := explorerUrl "tx" signature in
  ret (VObj [ ("success", VBool true);
              ("signature", VStr signature);
              ("explorerUrl", url) ]).

Definition handleAirdropSol (args : option Args.t) : M JSVal :=
  let* a := destructure "walletName" args in
  let walletName := Args.walletName a in
  let amount := default (Number.of_Z 1) (Args.amount a) in
  let* st := get_state in
  if String.eqb (currentNetwork st) "mainnet" then
    throw (Error "Airdrop is not available on mainnet")
  else
    let* wallet := get_wallet walletName in
    ensureConnection ;;
    let lamports := Number.Math_floor (Number.mul amount LAMPORTS_PER_SOL) in
    let* c := the_connection "requestAirdrop" in
    let* signature := await (requestAirdrop c (publicKey (keypair wallet)) lamports) in
    let* url := explorerUrl "tx" signature in
    ret (VObj [ ("success", VBool true);
                ("signature", VStr signature);
                ("amount", VNum amount);
                ("explorerUrl", url) ]).

Definition handleGetAccountInfo (args : option Args.t) : M JSVal :=
  let* a := destructure "address" args in
  let address := Args.address a in
  ensureConnection ;;
  let* pubkey := lift (PublicKey_new address) in
  let* c := the_connection "getAccountInfo" in
  let* accountInfo := await (getAccountInfo c pubkey) in
  match accountInfo with
  | None =>
      ret (VObj [ ("address", opt_str address);
                  ("exists", VBool false) ])
  | Some accountInfo =>
      ret (VObj [ ("address", opt_str address);
                  ("exists", VBool true);
                  ("lamports", VNum (ai_lamports accountInfo));
                  ("owner", key_string (ai_owner accountInfo));
                  ("executable", VBool (ai_executable accountInfo));
                  ("rentEpoch", opt_num (ai_rentEpoch accountInfo));
                  ("dataLength", VNum (Number.of_Z (Z.of_nat (ai_dataLength accountInfo)))) ])
  end.

(** [transaction.meta?.fee] and [transaction.meta?.err] *)
Definition meta_fee_of (meta : option TransactionMeta) : JSVal :=
  match meta with Some m => VNum (meta_fee m) | None => VUndefined end.
Definition meta_err_of (meta : option TransactionMeta) : JSVal :=
  match meta with Some m => meta_err m | None => VUndefined end.

Definition handleGetTransaction (args : option Args.t) : M JSVal :=
  let* a := destructure "signature" args in
  let signature := Args.signature a in
  ensureConnection ;;
  let* c := the_connection "getTransaction" in
  let* transaction := await (getTransaction c signature) in
  match transaction with
  | None => throw (Error "Transaction not found")
  | Some transaction =>
      ret (VObj [ ("signature", opt_str signature);
                  ("slot", VNum (tx_slot transaction));
                  ("blockTime", tx_blockTime transaction);
                  ("fee", meta_fee_of (tx_meta transaction));
                  ("success", VBool (if truthy (meta_err_of (tx_meta transaction))
                                     then false else true));
                  ("error", meta_err_of (tx_meta transaction)) ])
  end.

Definition handleGetRecentBlockhash : M JSVal :=
  ensureConnection ;;
  let* c := the_connection "getLatestBlockhash" in
  let* blockhash := await (getLatestBlockhash c) in
  let* st := get_state in
  ret (VObj [ ("blockhash", VStr blockhash);
              ("network", VStr (currentNetwork st)) ]).

Definition handleSwitchNetwork (args : option Args.t) : M JSVal :=
  let* a := destructure "network" args in
  let network := Args.network a in
  initializeConnection network ;;
  let* st := get_state in
  ret (VObj [ ("success", VBool true);
              ("network", VStr (currentNetwork st));
              ("rpcUrl", NETWORKS_at process_env (show network)) ]).

Definition handleGetNetworkInfo : M JSVal :=
  ensureConnection ;;
  let* c := the_connection "getVersion" in
  let* version := await (getVersion c) in
  let* c := the_connection "getEpochInfo" in
  let* epochInfo := await (getEpochInfo c) in
  let* st := get_state in
  ret (VObj [ ("network", VStr (currentNetwork st));
              ("rpcUrl", NETWORKS_at process_env (currentNetwork st));
              ("version", VStr (solana_core version));
              ("epoch", VNum (epoch epochInfo));
              ("slotIndex", VNum (slotIndex epochInfo));
              ("slotsInEpoch", VNum (slotsInEpoch epochInfo)) ]).

Definition handleCreateTokenAccount (args : option Args.t) : M JSVal :=
  let* a := destructure "walletName" args in
  let walletName := Args.walletName a in
  let tokenMint := Args.tokenMint a in
  let* wallet := get_wallet walletName in
  ensureConnection ;;
  let* tokenMintPubkey := lift (PublicKey_new tokenMint) in
  let* tokenAccount :=
    lift (getAssociatedTokenAddress tokenMintPubkey (publicKey (keypair wallet))) in
  let transaction :=
    Transaction_add Transaction_new
      (createAssociatedTokenAccountInstruction
         (publicKey (keypair wallet)) tokenAccount (publicKey (keypair wallet))
         tokenMintPubkey) in
  let* c := the_connection "getLatestBlockhash" in
  let* blockhash := await (getLatestBlockhash c) in
  let transaction := set_recentBlockhash transaction blockhash in
  let transaction := set_feePayer transaction (publicKey (keypair wallet)) in
  let transaction := Transaction_sign transaction (keypair wallet) in
  let* c := the_connection "sendTransaction" in
  let* signature := await (sendTransaction c transaction [keypair wallet]) in
  let* url := explorerUrl "tx" signature in
  ret (VObj [ ("success", VBool true);
              ("tokenAccount", key_string tokenAccount);
              ("signature", VStr signature);
              ("explorerUrl", url) ]).

Definition TOKEN_PROGRAM_ID : option string :=
  Some "TokenkegQfeZyiNwAJbNbGKPFXCWuBvf9Ss623VQ5DA".

Definition handleGetTokenAccounts (args : option Args.t) : M JSVal :=
  let* a := destructure "walletName" args in
  let walletName := Args.walletName a in
  let* wallet := get_wallet walletName in
  ensureConnection ;;
  let* c := the_connection "getTokenAccountsByOwner" in
  let* programId := lift (PublicKey_new TOKEN_PROGRAM_ID) in
  let* tokenAccounts :=
    await (getTokenAccountsByOwner c (publicKey (keypair wallet)) programId) in
  let accounts :=
    (fun account =>
       VObj [ ("address", key_string (kta_pubkey account));
              ("mint", js_or (kta_mint account) (VStr "unknown"));
              ("amount", js_or (kta_uiAmount account) (VNum (Number.of_Z 0)));
              ("decimals", js_or (kta_decimals account) (VNum (Number.of_Z 0))) ])
      <$> tokenAccounts in
  ret (VObj [ ("wallet", opt_str walletName);
              ("tokenAccounts", VArr accounts);
              ("count", VNum (length_number accounts)) ]).

Definition handleCreateSplToken (args : option Args.t) : M JSVal :=
  let* a := destructure "walletName" args in
  let walletName := Args.walletName a in
  let decimals := default (Number.of_Z 9) (Args.decimals a) in
  let freezeAuthority := default false (Args.freezeAuthority a) in
  let* wallet := get_wallet walletName in
  ensureConnection ;;
  let freezeAuthorityPubkey :=
    if freezeAuthority then Some (publicKey (keypair wallet)) else None in
  let* c := the_connection "createMint" in
  let* mint :=
    await (createMint c (keypair wallet) (publicKey (keypair wallet))
             freezeAuthorityPubkey decimals) in
  let* url := explorerUrl "address" (PublicKey_toString mint) in
  ret (VObj [ ("success", VBool true);
              ("tokenMint", key_string mint);
              ("decimals", VNum decimals);
              ("mintAuthority", key_string (publicKey (keypair wallet)));
              ("freezeAuthority", key_or_null freezeAuthorityPubkey);
              ("explorerUrl", url) ]).

(** [BigInt(Math.floor(amount * Math.pow(10, decimals)))] *)
Definition scaled_amount (amount : option JSNumber) (decimals : JSNumber) : M Z :=
  to_BigInt
    (Number.Math_floor
       (Number.mul (to_number amount) (Math_pow (Number.of_Z 10) decimals))).

Definition handleMintTokens (args : option Args.t) : M JSVal :=
  let* a := destructure "walletName" args in
  let walletName := Args.walletName a in
  let tokenMint := Args.tokenMint a in
  let destinationAddress := Args.destinationAddress a in
  let amount := Args.amount a in
  let* wallet := get_wallet walletName in
  ensureConnection ;;
  let* tokenMintPubkey := lift (PublicKey_new tokenMint) in
  let* destinationPubkey := lift (PublicKey_new destinationAddress) in
  let* c := the_connection "getMint" in
  let* mintInfo := await (getMint c tokenMintPubkey) in
  let* rawAmount := scaled_amount amount (mint_decimals mintInfo) in
  let* destinationTokenAccount :=
    lift (getAssociatedTokenAddress tokenMintPubkey destinationPubkey) in
  (* Check if destination token account exists, create if not *)
  try_catch
    (let* c := the_connection "getAccount" in
     await (getAccount c destinationTokenAccount) ;;
     ret tt)
    (fun _ =>
       let transaction :=
         Transaction_add Transaction_new
           (createAssociatedTokenAccountInstruction
              (publicKey (keypair wallet)) destinationTokenAccount destinationPubkey
              tokenMintPubkey) in
       let* c := the_connection "getLatestBlockhash" in
       let* blockhash := await (getLatestBlockhash c) in
       let transaction := set_recentBlockhash transaction blockhash in
       let transaction := set_feePayer transaction (publicKey (keypair wallet)) in
       let transaction := Transaction_sign transaction (keypair wallet) in
       let* c := the_connection "sendTransaction" in
       await (sendTransaction c transaction [keypair wallet]) ;;
       (* Wait for account creation *)
       await (setTimeout_resolve 2000)) ;;
  let* c := the_connection "mintTo" in
  let* signature :=
    await (mintTo c (keypair wallet) tokenMintPubkey destinationTokenAccount
             (keypair wallet) rawAmount) in
  let* url := explorerUrl "tx" signature in
  ret (VObj [ ("success", VBool true);
              ("signature", VStr signature);
              ("amount", opt_num amount);
              ("tokenMint", opt_str tokenMint);
              ("destination", opt_str destinationAddress);
              ("explorerUrl", url) ]).

Definition handleBurnTokens (args : option Args.t) : M JSVal :=
  let* a := destructure "walletName" args in
  let walletName := Args.walletName a in
  let tokenMint := Args.tokenMint a in
  let amount := Args.amount a in
  let* wallet := get_wallet walletName in
  ensureConnection ;;
  let* tokenMintPubkey := lift (PublicKey_new tokenMint) in
  let* c := the_connection "getMint" in
  let* mintInfo := await (getMint c tokenMintPubkey) in
  let* rawAmount := scaled_amount amount (mint_decimals mintInfo) in
  let* tokenAccount :=
    lift (getAssociatedTokenAddress tokenMintPubkey (publicKey (keypair wallet))) in
  let* c := the_connection "burn" in
  let* signature :=
    await (burn c (keypair wallet) tokenAccount tokenMintPubkey (keypair wallet)
             rawAmount) in
  let* url := explorerUrl "tx" signature in
  ret (VObj [ ("success", VBool true);
              ("signature", VStr signature);
              ("amount", opt_num amount);
              ("tokenMint", opt_str tokenMint);
              ("explorerUrl", url) ]).

Definition handleFreezeAccount (args : option Args.t) : M JSVal :=
  let* a := destructure "walletName" args in
  let walletName := Args.walletName a in
  let tokenMint := Args.tokenMint a in
  let accountAddress := Args.accountAddress a in
  let* wallet := get_wallet walletName in
  ensureConnection ;;
  let* tokenMintPubkey := lift (PublicKey_new tokenMint) in
  let* accountPubkey := lift (PublicKey_new accountAddress) in
  let* c := the_connection "freezeAccount" in
  let* signature :=
    await (freezeAccount c (keypair wallet) accountPubkey tokenMintPubkey
             (keypair wallet)) in
  let* url := explorerUrl "tx" signature in
  ret (VObj [ ("success", VBool true);
              ("signature", VStr signature);
              ("accountAddress", opt_str accountAddress);
              ("explorerUrl", url) ]).

Definition handleThawAccount (args : option Args.t) : M JSVal :=
  let* a := destructure "walletName" args in
  let walletName := Args.walletName a in
  let tokenMint := Args.tokenMint a in
  let accountAddress := Args.accountAddress a in
  let* wallet := get_wallet walletName in
  ensureConnection ;;
  let* tokenMintPubkey := lift (PublicKey_new tokenMint) in
  let* accountPubkey := lift (PublicKey_new accountAddress) in
  let* c := the_connection "thawAccount" in
  let* signature :=
    await (thawAccount c (keypair wallet) accountPubkey tokenMintPubkey
             (keypair wallet)) in
  let* url := explorerUrl "tx" signature in
  ret (VObj [ ("success", VBool true);
              ("signature", VStr signature);
              ("accountAddress", opt_str accountAddress);
              ("explorerUrl", url) ]).

Definition authorityTypeMap : list (string * AuthorityType) :=
  [ ("MintTokens", MintTokens);
    ("FreezeAccount", FreezeAccount);
    ("AccountOwner", AccountOwner);
    ("CloseAccount", CloseAccount) ].

Definition handleSetTokenAuthority (args : option Args.t) : M JSVal :=
  let* a := destructure "walletName" args in
  let walletName := Args.walletName a in
  let tokenMint := Args.tokenMint a in
  let authorityType := Args.authorityType a in
  let newAuthority := Args.newAuthority a in
  let* wallet := get_wallet walletName in
  ensureConnection ;;
  let* tokenMintPubkey := lift (PublicKey_new tokenMint) in
  let* newAuthorityPubkey :=
    if truthy (opt_str newAuthority)
    then let* k := lift (PublicKey_new newAuthority) in ret (Some k)
    else ret None in
  let* c := the_connection "setAuthority" in
  let* signature :=
    await (setAuthority c (keypair wallet) tokenMintPubkey (keypair wallet)
             (get_property authorityTypeMap (show authorityType))
             newAuthorityPubkey) in
  let* url := explorerUrl "tx" signature in
  ret (VObj [ ("success", VBool true);
              ("signature", VStr signature);
              ("authorityType", opt_str authorityType);
              ("newAuthority", VStr (or_else newAuthority "revoked"));
              ("explorerUrl", url) ]).

Definition handleGetTokenSupply (args : option Args.t) : M JSVal :=
  let* a := destructure "tokenMint" args in
  let tokenMint := Args.tokenMint a in
  ensureConnection ;;
  let* tokenMintPubkey := lift (PublicKey_new tokenMint) in
  let* c := the_connection "getMint" in
  let* mintInfo := await (getMint c tokenMintPubkey) in
  let supply :=
    Number.div (Number.of_Z (mint_supply mintInfo))
      (Math_pow (Number.of_Z 10) (mint_decimals mintInfo)) in
  ret (VObj [ ("tokenMint", opt_str tokenMint);
              ("supply", VNum supply);
              ("rawSupply", VStr (pretty (mint_supply mintInfo)));
              ("decimals", VNum (mint_decimals mintInfo));
              ("mintAuthority", key_or_null (mint_mintAuthority mintInfo));
              ("freezeAuthority", key_or_null (mint_freezeAuthority mintInfo));
              ("isInitialized", VBool (mint_isInitialized mintInfo)) ]).

Definition handleCloseTokenAccount (args : option Args.t) : M JSVal :=
  let* a := destructure "walletName" args in
  let walletName := Args.walletName a in
  let tokenMint := Args.tokenMint a in
  let destinationAddress := Args.destinationAddress a in
  let* wallet := get_wallet walletName in
  ensureConnection ;;
  let* tokenMintPubkey := lift (PublicKey_new tokenMint) in
  let* destinationPubkey := lift (PublicKey_new destinationAddress) in
  let* tokenAccount :=
    lift (getAssociatedTokenAddress tokenMintPubkey (publicKey (keypair wallet))) in
  let* c := the_connection "closeAccount" in
  let* signature :=
    await (closeAccount c (keypair wallet) tokenAccount destinationPubkey
             (keypair wallet)) in
  let* url := explorerUrl "tx" signature in
  ret (VObj [ ("success", VBool true);
              ("signature", VStr signature);
              ("closedAccount", key_string tokenAccount);
              ("destination", opt_str destinationAddress);
              ("explorerUrl", url) ]).

Definition handleApproveDelegate (args : option Args.t) : M JSVal :=
  let* a := destructure "walletName" args in
  let walletName := Args.walletName a in
  let tokenMint := Args.tokenMint a in
  let delegateAddress := Args.delegateAddress a in
  let amount := Args.amount a in
  let* wallet := get_wallet walletName in
  ensureConnection ;;
  let* tokenMintPubkey := lift (PublicKey_new tokenMint) in
  let* delegatePubkey := lift (PublicKey_new delegateAddress) in
  let* c := the_connection "getMint" in
  let* mintInfo := await (getMint c tokenMintPubkey) in
  let* rawAmount := scaled_amount amount (mint_decimals mintInfo) in
  let* tokenAccount :=
    lift (getAssociatedTokenAddress tokenMintPubkey (publicKey (keypair wallet))) in
  let* c := the_connection "approve" in
  let* signature :=
    await (approve c (keypair wallet) tokenAccount delegatePubkey (keypair wallet)
             rawAmount) in
  let* url := explorerUrl "tx" signature in
  ret (VObj [ ("success", VBool true);
              ("signature", VStr signature);
              ("delegate", opt_str delegateAddress);
              ("amount", opt_num amount);
              ("explorerUrl", url) ]).

Definition handleRevokeDelegate (args : option Args.t) : M JSVal :=
  let* a := destructure "walletName" args in
  let walletName := Args.walletName a in
  let tokenMint := Args.tokenMint a in
  let* wallet := get_wallet walletName in
  ensureConnection ;;
  let* tokenMintPubkey := lift (PublicKey_new tokenMint) in
  let* tokenAccount :=
    lift (getAssociatedTokenAddress tokenMintPubkey (publicKey (keypair wallet))) in
  let* c := the_connection "revoke" in
  let* signature :=
    await (revoke c (keypair wallet) tokenAccount (keypair wallet)) in
  let* url := explorerUrl "tx" signature in
  ret (VObj [ ("success", VBool true);
              ("signature", VStr signature);
              ("explorerUrl", url) ]).

Definition handleHealthCheck : M JSVal :=
  let* st := get_state in
  let* timestamp := perform Date_toISOString in
  let checks (connection : string) :=
    VObj [ ("server", VStr "healthy");
           ("network", VStr (currentNetwork st));
           ("rpcUrl", NETWORKS_at process_env (currentNetwork st));
           ("connection", VStr connection);
           ("walletsLoaded", VNum (Number.of_Z (Z.of_nat (Map_size (wallets st)))));
           ("timestamp", VStr timestamp) ] in
  try_catch
    (ensureConnection ;;
     let* c := the_connection "getVersion" in
     let* version := await_withTimeout (getVersion c) (Some 5000%N) in
     ret (VObj [ ("status", VStr "healthy");
                 ("checks", checks "healthy");
                 ("solanaVersion", VStr (solana_core version)) ]))
    (fun error =>
       ret (VObj [ ("status", VStr "degraded");
                   ("checks", checks "unhealthy");
                   ("error", VStr (message_or error (fun _ => "Unknown error"))) ])).

(** The [Promise.all] over the signatures is run one entry after the
    other, in the order the calls are issued. *)
Definition handleGetTransactionHistory (args : option Args.t) : M JSVal :=
  let* a := destructure "walletName" args in
  let walletName := Args.walletName a in
  let limit := default (Number.of_Z 10) (Args.limit a) in
  let before := Args.before a in
  let* wallet := get_wallet walletName in
  ensureConnection ;;
  let options :=
    {| opt_limit := Number.Math_min limit (Number.of_Z 100);
       opt_before := if truthy (opt_str before) then before else None |} in
  let* c := the_connection "getSignaturesForAddress" in
  let* signatures :=
    await (getSignaturesForAddress c (publicKey (keypair wallet)) options) in
  let* transactions :=
    mapM (fun sig =>
            try_catch
              (let* c := the_connection "getTransaction" in
               let* tx := await (getTransaction c (Some (sig_signature sig))) in
               let* url := explorerUrl "tx" (sig_signature sig) in
               ret (VObj [ ("signature", VStr (sig_signature sig));
                           ("slot", VNum (sig_slot sig));
                           ("timestamp", sig_blockTime sig);
                           ("status", VStr (if truthy (sig_err sig)
                                            then "failed" else "success"));
                           ("fee", match tx with
                                   | Some tx => meta_fee_of (tx_meta tx)
                                   | None => VUndefined
                                   end);
                           ("err", sig_err sig);
                           ("explorerUrl", url) ]))
              (fun error =>
                 let* url := explorerUrl "tx" (sig_signature sig) in
                 ret (VObj [ ("signature", VStr (sig_signature sig));
                             ("slot", VNum (sig_slot sig));
                             ("timestamp", sig_blockTime sig);
                             ("status", VStr (if truthy (sig_err sig)
                                              then "failed" else "success"));
                             ("error", VStr "Failed to fetch transaction details");
                             ("explorerUrl", url) ])))
         signatures in
  ret (VObj [ ("wallet", opt_str walletName);
              ("address", key_string (publicKey (keypair wallet)));
              ("transactions", VArr transactions);
              ("count", VNum (length_number transactions));
              ("hasMore", VBool (Number.strict_eq (length_number transactions)
                                   (opt_limit options))) ]).

(** [v === s] for a caller-supplied string *)
Definition strict_eq_str (v : JSVal) (s : option string) : bool :=
  match v, s with
  | VStr a, Some b => String.eqb a b
  | VUndefined, None => true
  | _, _ => false
  end.

Definition handleGetTokenInfo (args : option Args.t) : M JSVal :=
  let* a := destructure "tokenMint" args in
  let tokenMint := Args.tokenMint a in
  try_catch
    ((* Fetch from Jupiter token list *)
     let* response :=
       await_withTimeout (fetch "https://token.jup.ag/strict") (Some 10000%N) in
     let* tokens := await (Response_json response) in
     let* tokenInfo :=
       match tokens with
       | TokenList tokens =>
           ret (find (fun t => strict_eq_str (te_address t) tokenMint) tokens)
       | PriceData _ =>
           throw (ErrorObj "TypeError" (not_a_function_message "tokens.find"))
       end in
     match tokenInfo with
     | None =>
         ret (VObj [ ("tokenMint", opt_str tokenMint);
                     ("found", VBool false);
                     ("message", VStr "Token not found in Jupiter token list") ])
     | Some tokenInfo =>
         (* Get price from Jupiter (optional, may fail for some tokens) *)
         let* price :=
           try_catch
             (let* priceResponse :=
                await_withTimeout
                  (fetch ("https://price.jup.ag/v6/price?ids=" +:+ show tokenMint))
                  (Some 5000%N) in
              let* priceData := await (Response_json priceResponse) in
              match priceData with
              | PriceData price => ret (js_or (price (show tokenMint)) VNull)
              | TokenList _ => ret VNull
              end)
             (fun _ => ret VNull) in
         ret (VObj [ ("address", te_address tokenInfo);
                     ("name", te_name tokenInfo);
                     ("symbol", te_symbol tokenInfo);
                     ("decimals", te_decimals tokenInfo);
                     ("logoURI", te_logoURI tokenInfo);
                     ("price", price);
                     ("found", VBool true) ])
     end)
    (fun error =>
       ret (VObj [ ("tokenMint", opt_str tokenMint);
                   ("found", VBool false);
                   ("error", VStr (message_or error
                                     (fun _ => "Failed to fetch token info"))) ])).

Definition handleGetAllTokenBalances (args : option Args.t) : M JSVal :=
  let* a := destructure "walletName" args in
  let walletName := Args.walletName a in
  let includeZeroBalances := default false (Args.includeZeroBalances a) in
  let* wallet := get_wallet walletName in
  ensureConnection ;;
  let* c := the_connection "getParsedTokenAccountsByOwner" in
  let* programId := lift (PublicKey_new TOKEN_PROGRAM_ID) in
  let* tokenAccounts :=
    await (getParsedTokenAccountsByOwner c (publicKey (keypair wallet)) programId) in
  let tokens :=
    (fun account =>
       (pta_uiAmount account,
        VObj [ ("mint", VStr (pta_mint account));
               ("balance", match pta_uiAmount account with
                           | Some balance => VNum balance
                           | None => VNull
                           end);
               ("decimals", VNum (pta_decimals account));
               ("rawBalance", VStr (pta_amount account));
               ("account", key_string (pta_pubkey account)) ]))
      <$> tokenAccounts in
  let balances :=
    snd <$> List.filter
              (fun token =>
                 includeZeroBalances
                 || match fst token with
                    | Some balance => Number.gt balance (Number.of_Z 0)
                    | None => false
                    end)
              tokens in
  ret (VObj [ ("wallet", opt_str walletName);
              ("address", key_string (publicKey (keypair wallet)));
              ("tokens", VArr balances);
              ("count", VNum (length_number balances)) ]).

(** *** Dispatch front-end *)

(** The names of the registered tools, in the order of [tools]. *)
Definition tools : list string :=
  [ "create_wallet"; "import_wallet"; "list_wallets"; "get_balance";
    "get_token_balance"; "transfer_sol"; "transfer_tokens"; "airdrop_sol";
    "get_account_info"; "get_transaction"; "get_recent_blockhash";
    "switch_network"; "get_network_info"; "create_token_account";
    "get_token_accounts"; "create_spl_token"; "mint_tokens"; "burn_tokens";
    "freeze_account"; "thaw_account"; "set_token_authority";
    "get_token_supply"; "close_token_account"; "approve_delegate";
    "revoke_delegate"; "health_check"; "get_transaction_history";
    "get_token_info"; "get_all_token_balances" ].

(** The [switch (name)] of the call-tool handler. *)
Definition switch (name : string) (args : option Args.t) : M JSVal :=
  if String.eqb name "create_wallet" then handleCreateWallet args
  else if String.eqb name "import_wallet" then handleImportWallet args
  else if String.eqb name "list_wallets" then handleListWallets
  else if String.eqb name "get_balance" then handleGetBalance args
  else if String.eqb name "get_token_balance" then handleGetTokenBalance args
  else if String.eqb name "transfer_sol" then handleTransferSol args
  else if String.eqb name "transfer_tokens" then handleTransferTokens args
  else if String.eqb name "airdrop_sol" then handleAirdropSol args
  else if String.eqb name "get_account_info" then handleGetAccountInfo args
  else if String.eqb name "get_transaction" then handleGetTransaction args
  else if String.eqb name "get_recent_blockhash" then handleGetRecentBlockhash
  else if String.eqb name "switch_network" then handleSwitchNetwork args
  else if String.eqb name "get_network_info" then handleGetNetworkInfo
  else if String.eqb name "create_token_account" then handleCreateTokenAccount args
  else if String.eqb name "get_token_accounts" then handleGetTokenAccounts args
  else if String.eqb name "create_spl_token" then handleCreateSplToken args
  else if String.eqb name "mint_tokens" then handleMintTokens args
  else if String.eqb name "burn_tokens" then handleBurnTokens args
  else if String.eqb name "freeze_account" then handleFreezeAccount args
  else if String.eqb name "thaw_account" then handleThawAccount args
  else if String.eqb name "set_token_authority" then handleSetTokenAuthority args
  else if String.eqb name "get_token_supply" then handleGetTokenSupply args
  else if String.eqb name "close_token_account" then handleCloseTokenAccount args
  else if String.eqb name "approve_delegate" then handleApproveDelegate args
  else if String.eqb name "revoke_delegate" then handleRevokeDelegate args
  else if String.eqb name "health_check" then handleHealthCheck
  else if String.eqb name "get_transaction_history" then handleGetTransactionHistory args
  else if String.eqb name "get_token_info" then handleGetTokenInfo args
  else if String.eqb name "get_all_token_balances" then handleGetAllTokenBalances args
  else throw (Error ("Unknown tool: " +:+ name)).

Definition success_envelope (result : JSVal) : Response :=
  {| content := [ {| type := "text"; text := JSON_stringify result |} ];
     isError := None |}.

Definition error_envelope (error : Thrown) : Response :=
  {| content := [ {| type := "text";
                     text := "Error: " +:+ message_or error (fun s => s) |} ];
     isError := Some true |}.

(** [server.setRequestHandler(CallToolRequestSchema, ...)] *)
Definition CallToolRequest_handler (request : Request) : M Response :=
  let name := req_name request in
  let args := req_arguments request in
  try_catch
    (let* result := switch name args in
     ret (success_envelope result))
    (fun error => ret (error_envelope error)).

(** The server answering a sequence of requests, one at a time.  A
    completion that is not [Normal] would be a protocol-level error. *)
Fixpoint serve (w : World) (requests : list Request) (st : State) (tr : list Event)
  : Run (list (Completion Response) * State) :=
  match requests with
  | [] => Finished ([], st) tr
  | request :: rest =>
      match run w (CallToolRequest_handler request st) tr with
      | Finished (r, st') tr' =>
          match serve w rest st' tr' with
          | Finished (rs, st'') tr'' => Finished (r :: rs, st'') tr''
          | Hung tr'' => Hung tr''
          end
      | Hung tr' => Hung tr'
      end
  end.

(** ** Reading a run *)

Definition trace_of {R} (r : Run R) : list Event :=
  match r with
  | Finished _ tr => tr
  | Hung tr => tr
  end.

(** The transactions handed to [connection.sendTransaction]. *)
Definition sent_transaction (e : Event) : option Transaction :=
  match e with
  | @Called _ c _ =>
      match c with
      | sendTransaction _ tx _ => Some tx
      | _ => None
      end
  | _ => None
  end.

Definition sent_transactions (tr : list Event) : list Transaction :=
  omap sent_transaction tr.

(** The mints whose on-chain description was fetched with [getMint]. *)
Definition fetched_mint (e : Event) : option PublicKey :=
  match e with
  | @Called _ c _ =>
      match c with
      | getMint _ mint => Some mint
      | _ => None
      end
  | _ => None
  end.

Definition fetched_mints (tr : list Event) : list PublicKey :=
  omap fetched_mint tr.

(** The smallest-unit amount a token call was issued with. *)
Inductive TokenOp := OpMintTo | OpBurn | OpApprove.

Definition token_amount (e : Event) : option (TokenOp * Z) :=
  match e with
  | @Called _ c _ =>
      match c with
      | mintTo _ _ _ _ _ amount => Some (OpMintTo, amount)
      | burn _ _ _ _ _ amount => Some (OpBurn, amount)
      | approve _ _ _ _ _ amount => Some (OpApprove, amount)
      | _ => None
      end
  | _ => None
  end.

Definition token_amounts (tr : list Event) : list (TokenOp * Z) :=
  omap token_amount tr.

(** The module state once [ensureConnection] has returned. *)
Definition ensured (st : State) : State :=
  if connectionInitialized st then st
  else
    {| wallets := wallets st;
       currentNetwork := "devnet";
       connection :=
         Some {| rpcEndpoint :=
                   js_or (NETWORKS_at process_env "devnet") (VStr (NETWORKS_devnet process_env));
                 commitment := "confirmed" |};
       connectionInitialized := true |}.

(** The state after [initializeConnection(network)]. *)
Definition switched (network : string) (st : State) : State :=
  {| wallets := wallets st;
     currentNetwork := network;
     connection :=
       Some {| rpcEndpoint :=
                 js_or (NETWORKS_at process_env network) (VStr (NETWORKS_devnet process_env));
               commitment := "confirmed" |};
     connectionInitialized := connectionInitialized st |}.

(** The state after an [initializeConnection(network)] in which
    [new Connection] threw. *)
Definition renamed (network : string) (st : State) : State :=
  {| wallets := wallets st;
     currentNetwork := network;
     connection := connection st;
     connectionInitialized := connectionInitialized st |}.

(** Once the flag is set, a connection has been built. *)
Definition connected (st : State) : bool :=
  implb (connectionInitialized st)
    (match connection st with Some _ => true | None => false end).

(** ** Session store *)

Definition duplicate_wallet (name : option string) : Thrown :=
  Error ("Wallet with name '" +:+ show name +:+ "' already exists").

(** ** Airdrop *)

Definition airdrop_denied : Thrown := Error "Airdrop is not available on mainnet".

(** ** Token transfers *)

(** A transaction that carries the token transfer, alone or right after
    the creation of an associated token account. *)
Definition carries_transfer (tx : Transaction) : bool :=
  match instructions tx with
  | [createTransferInstruction _ _ _ _] => true
  | [createAssociatedTokenAccountInstruction _ _ _ _;
     createTransferInstruction _ _ _ _] => true
  | _ => false
  end.

Definition succeeded {A} (r : Run (Completion A * State)) : bool :=
  match r with
  | Finished (Normal _, _) _ => true
  | _ => false
  end.

(** The transaction transfer_tokens builds. *)
Definition token_transfer_transaction
    (wallet : Wallet) (tokenMintPubkey toPubkey fromTokenAccount toTokenAccount : PublicKey)
    (rawAmount : Z) (probe : Settled TokenAccount) (blockhash : string) : Transaction :=
  {| instructions :=
       match probe with
       | Fulfilled _ => []
       | Rejected _ =>
           [createAssociatedTokenAccountInstruction
              (publicKey (keypair wallet)) toTokenAccount toPubkey tokenMintPubkey]
       end
       ++ [createTransferInstruction fromTokenAccount toTokenAccount
             (publicKey (keypair wallet)) rawAmount];
     recentBlockhash := Some blockhash;
     feePayer := Some (publicKey (keypair wallet));
     signers := [keypair wallet] |}.

(** What a run of mint_tokens, burn_tokens or approve_delegate asks of
    the ledger about amounts: it fetches the description of [mint] once,
    and the only token call it may issue is [op] with the amount [raw]. *)
Definition issues_only (op : TokenOp) (raw : Z) (mint : PublicKey)
    (tr : list Event) (r : Run (Completion JSVal * State)) : Prop :=
  fetched_mints (trace_of r) = fetched_mints tr ++ [mint]
  /\ exists ops,
       token_amounts (trace_of r) = token_amounts tr ++ ops
       /\ (ops = [] \/ ops = [(op, raw)])
       /\ (succeeded r = true -> ops = [(op, raw)]).

(** What a run of mint_tokens, burn_tokens or approve_delegate that
    reaches its token call asks of the ledger about amounts: it fetches
    the description of [mint] once and issues [op] once, with the amount
    [raw]. *)
Definition issues (op : TokenOp) (raw : Z) (mint : PublicKey)
    (tr : list Event) (r : Run (Completion JSVal * State)) : Prop :=
  fetched_mints (trace_of r) = fetched_mints tr ++ [mint]
  /\ token_amounts (trace_of r) = token_amounts tr ++ [(op, raw)].

(** ** Timeout guard *)

Definition timed_out : Thrown := Error "Operation timed out".

(** The [checks] object of the health check. *)
Definition health_checks (st : State) (connection timestamp : string) : JSVal :=
  VObj [ ("server", VStr "healthy");
         ("network", VStr (currentNetwork st));
         ("rpcUrl", NETWORKS_at process_env (currentNetwork st));
         ("connection", VStr connection);
         ("walletsLoaded", VNum (Number.of_Z (Z.of_nat (Map_size (wallets st)))));
         ("timestamp", VStr timestamp) ].

(** ** Dispatch front-end *)

Definition unknown_tool (name : string) : Thrown := Error ("Unknown tool: " +:+ name).

(** A world in which every call settles, sooner or later. *)
Definition responsive (w : World) : Prop :=
  forall (X : Type) (tr : list Event) (c : Call X), answer w X tr c <> Never.

(** ** Network selection *)

Definition recognized_networks : list string :=
  [ "mainnet"; "devnet"; "testnet"; "localhost"; "custom" ].

(** [{ network }] *)
Definition network_args (network : string) : Args.t :=
  {| Args.name := None; Args.privateKey := None; Args.walletName := None;
     Args.tokenMint := None; Args.fromWallet := None; Args.toAddress := None;
     Args.amount := None; Args.address := None; Args.signature := None;
     Args.network := Some network; Args.decimals := None;
     Args.freezeAuthority := None; Args.destinationAddress := None;
     Args.accountAddress := None; Args.authorityType := None;
     Args.newAuthority := None; Args.delegateAddress := None; Args.limit := None;
     Args.before := None; Args.includeZeroBalances := None |}.

Definition switch_network_request (network : string) : Request :=
  {| req_name := "switch_network"; req_arguments := Some (network_args network) |}.

Definition connection_to (endpoint : JSVal) : Connection :=
  {| rpcEndpoint := endpoint; commitment := "confirmed" |}.

Definition devnet_connection : Connection :=
  connection_to (js_or (NETWORKS_at process_env "devnet") (VStr (NETWORKS_devnet process_env))).

(** ** Address parsing *)

(** The first failure of [new PublicKey] over the given strings. *)
Fixpoint first_parse_failure (strings : list (option string)) : option Thrown :=
  match strings with
  | [] => None
  | s :: rest =>
      match PublicKey_new s with
      | Abrupt error => Some error
      | Normal _ => first_parse_failure rest
      end
  end.

(** The handlers that parse caller-supplied addresses before anything
    is asked of the ledger and outside any [try]: for each tool, the
    wallet name it looks up first (if it takes one) and the strings it
    hands to [new PublicKey], in order. *)
Record AddressUse := {
  au_tool : string;
  au_wallet : Args.t -> option (option string);
  au_parsed : Args.t -> list (option string)
}.

Definition address_uses : list AddressUse :=
  [ {| au_tool := "transfer_sol";
       au_wallet a := Some (Args.fromWallet a);
       au_parsed a := [Args.toAddress a] |};
    {| au_tool := "transfer_tokens";
       au_wallet a := Some (Args.fromWallet a);
       au_parsed a := [Args.tokenMint a; Args.toAddress a] |};
    {| au_tool := "get_account_info";
       au_wallet a := None;
       au_parsed a := [Args.address a] |};
    {| au_tool := "create_token_account";
       au_wallet a := Some (Args.walletName a);
       au_parsed a := [Args.tokenMint a] |};
    {| au_tool := "mint_tokens";
       au_wallet a := Some (Args.walletName a);
       au_parsed a := [Args.tokenMint a; Args.destinationAddress a] |};
    {| au_tool := "burn_tokens";
       au_wallet a := Some (Args.walletName a);
       au_parsed a := [Args.tokenMint a] |};
    {| au_tool := "freeze_account";
       au_wallet a := Some (Args.walletName a);
       au_parsed a := [Args.tokenMint a; Args.accountAddress a] |};
    {| au_tool := "thaw_account";
       au_wallet a := Some (Args.walletName a);
       au_parsed a := [Args.tokenMint a; Args.accountAddress a] |};
    {| au_tool := "set_token_authority";
       au_wallet a := Some (Args.walletName a);
       au_parsed a :=
         Args.tokenMint a
         :: (if truthy (opt_str (Args.newAuthority a))
             then [Args.newAuthority a] else []) |};
    {| au_tool := "get_token_supply";
       au_wallet a := None;
       au_parsed a := [Args.tokenMint a] |};
    {| au_tool := "close_token_account";
       au_wallet a := Some (Args.walletName a);
       au_parsed a := [Args.tokenMint a; Args.destinationAddress a] |};
    {| au_tool := "approve_delegate";
       au_wallet a := Some (Args.walletName a);
       au_parsed a := [Args.tokenMint a; Args.delegateAddress a] |};
    {| au_tool := "revoke_delegate";
       au_wallet a := Some (Args.walletName a);
       au_parsed a := [Args.tokenMint a] |} ].

Definition parse_failure_surfaces (u : AddressUse) : Prop :=
  forall (w : World) (a : Args.t) (st : State) (tr : list Event) (error : Thrown),
    (forall n, au_wallet u a = Some n -> Map_has (wallets st) n = true) ->
    first_parse_failure (au_parsed u a) = Some error ->
    run w (CallToolRequest_handler
             {| req_name := au_tool u; req_arguments := Some a |} st) tr
    = Finished (Normal (error_envelope error), ensured st) tr.

(** ** What a program may do *)

(** [always Pc Pr p]: whatever the host and the ledger answer, every
    call [p] comes to await satisfies [Pc] and every result it returns
    satisfies [Pr]. *)
Fixpoint always {R} (Pc : forall X, Call X -> Guard -> Prop) (Pr : R -> Prop)
    (p : Prog R) : Prop :=
  match p with
  | Ret r => Pr r
  | Perform e k => forall x, always Pc Pr (k x)
  | Await c g k => Pc _ c g /\ forall o, always Pc Pr (k o)
  end.

(** The same for a computation started in [st]; [Rel] relates [st] to
    the state the computation ends in. *)
Definition always_from (Pc : forall X, Call X -> Guard -> Prop)
    (Rel : State -> State -> Prop) {A} (m : M A) (st : State) : Prop :=
  always Pc (fun r => Rel st (snd r)) (m st).

Definition any_call (X : Type) (c : Call X) (g : Guard) : Prop := True.

Definition any_state (st st' : State) : Prop := True.

Definition same_wallets (st st' : State) : Prop := wallets st' = wallets st.

(** Every binding of [st] is still there, unchanged, in [st']. *)
Definition keeps_wallets (st st' : State) : Prop :=
  forall key wallet,
    Map_get (wallets st) key = Some wallet -> Map_get (wallets st') key = Some wallet.

(** The calls that only read: from the ledger, from the token list and
    price services, or the timer. *)
Definition is_query {X} (c : Call X) : bool :=
  match c with
  | getBalance _ _ | getLatestBlockhash _ | getAccountInfo _ _ | getTransaction _ _
  | getVersion _ | getEpochInfo _ | getTokenAccountsByOwner _ _ _
  | getParsedTokenAccountsByOwner _ _ _ | getSignaturesForAddress _ _ _
  | getAccount _ _ | getMint _ _ | fetch _ | Response_json _
  | setTimeout_resolve _ => true
  | sendTransaction _ _ _ | requestAirdrop _ _ _ | createMint _ _ _ _ _
  | mintTo _ _ _ _ _ _ | burn _ _ _ _ _ _ | freezeAccount _ _ _ _ _
  | thawAccount _ _ _ _ _ | setAuthority _ _ _ _ _ _ | closeAccount _ _ _ _ _
  | approve _ _ _ _ _ _ | revoke _ _ _ _ => false
  end.

Definition query_event (e : Event) : bool :=
  match e with
  | Called c _ => is_query c
  | Performed _ _ => true
  end.

(** A call that settles whatever the world does: one awaited through
    [withTimeout], or the timer. *)
Definition bounded {X} (c : Call X) (g : Guard) : bool :=
  match g with
  | WithTimeout _ => true
  | Bare => match c with setTimeout_resolve _ => true | _ => false end
  end.

Definition query_call (X : Type) (c : Call X) (g : Guard) : Prop := is_query c = true.

Definition bounded_call (X : Type) (c : Call X) (g : Guard) : Prop := bounded c g = true.

(** The tools that ask nothing of the ledger but queries. *)
Definition read_only_tools : list string :=
  [ "list_wallets"; "get_balance"; "get_token_balance"; "get_account_info";
    "get_transaction"; "get_recent_blockhash"; "switch_network"; "get_network_info";
    "get_token_accounts"; "get_token_supply"; "health_check";
    "get_transaction_history"; "get_token_info"; "get_all_token_balances" ].

(** The tools every await of which is bounded. *)
Definition bounded_tools : list string :=
  [ "create_wallet"; "import_wallet"; "list_wallets"; "get_balance";
    "switch_network"; "health_check" ].

(** ** Session store: what a request may change *)

(** Between the start and the end of a request the wallet store is
    either the same or longer by one wallet, bound to a name that was
    free and carrying that name. *)
Definition grows (st st' : State) : Prop :=
  wallets st' = wallets st
  \/ exists walletName pair,
       Map_has (wallets st) walletName = false
       /\ wallets st' = wallets st ++ [(walletName, {| keypair := pair; name := walletName |})].

(** Every wallet is stored under its own name. *)
Definition named_by_key (st : State) : Prop :=
  Forall (fun kw => name (snd kw) = fst kw) (wallets st).

(** The entry list_wallets shows for a binding of the store. *)
Definition listed (kw : option string * Wallet) : JSVal :=
  VObj [ ("name", opt_str (fst kw));
         ("address", key_string (publicKey (keypair (snd kw)))) ].

(** ** Requests that cannot be served *)

Definition wallet_not_found (walletName : option string) : Thrown :=
  Error ("Wallet '" +:+ show walletName +:+ "' not found").

(** The tools that look a wallet up, with the argument that names it. *)
Definition wallet_lookups : list (string * (Args.t -> option string)) :=
  [ ("get_balance", Args.walletName);
    ("get_token_balance", Args.walletName);
    ("transfer_sol", Args.fromWallet);
    ("transfer_tokens", Args.fromWallet);
    ("airdrop_sol", Args.walletName);
    ("create_token_account", Args.walletName);
    ("get_token_accounts", Args.walletName);
    ("create_spl_token", Args.walletName);
    ("mint_tokens", Args.walletName);
    ("burn_tokens", Args.walletName);
    ("freeze_account", Args.walletName);
    ("thaw_account", Args.walletName);
    ("set_token_authority", Args.walletName);
    ("close_token_account", Args.walletName);
    ("approve_delegate", Args.walletName);
    ("revoke_delegate", Args.walletName);
    ("get_transaction_history", Args.walletName);
    ("get_all_token_balances", Args.walletName) ].

(** The tools that destructure their arguments, with the first property
    of the pattern. *)
Definition destructured : list (string * string) :=
  [ ("create_wallet", "name");
    ("import_wallet", "name");
    ("get_balance", "walletName");
    ("get_token_balance", "walletName");
    ("transfer_sol", "fromWallet");
    ("transfer_tokens", "fromWallet");
    ("airdrop_sol", "walletName");
    ("get_account_info", "address");
    ("get_transaction", "signature");
    ("switch_network", "network");
    ("create_token_account", "walletName");
    ("get_token_accounts", "walletName");
    ("create_spl_token", "walletName");
    ("mint_tokens", "walletName");
    ("burn_tokens", "walletName");
    ("freeze_account", "walletName");
    ("thaw_account", "walletName");
    ("set_token_authority", "walletName");
    ("get_token_supply", "tokenMint");
    ("close_token_account", "walletName");
    ("approve_delegate", "walletName");
    ("revoke_delegate", "walletName");
    ("get_transaction_history", "walletName");
    ("get_token_info", "tokenMint");
    ("get_all_token_balances", "walletName") ].

Definition cannot_destructure (property : string) : Thrown :=
  ErrorObj "TypeError" (destructure_message property).

(** ** Wallet tools *)

(** [{ name, privateKey }] *)
Definition wallet_args (walletName privateKey : option string) : Args.t :=
  {| Args.name := walletName; Args.privateKey := privateKey; Args.walletName := None;
     Args.tokenMint := None; Args.fromWallet := None; Args.toAddress := None;
     Args.amount := None; Args.address := None; Args.signature := None;
     Args.network := None; Args.decimals := None; Args.freezeAuthority := None;
     Args.destinationAddress := None; Args.accountAddress := None;
     Args.authorityType := None; Args.newAuthority := None;
     Args.delegateAddress := None; Args.limit := None; Args.before := None;
     Args.includeZeroBalances := None |}.

(** The state with [pair] bound to [walletName], after the bindings of [st]. *)
Definition with_wallet (walletName : option string) (pair : Keypair) (st : State) : State :=
  {| wallets := wallets st ++ [(walletName, {| keypair := pair; name := walletName |})];
     currentNetwork := currentNetwork st;
     connection := connection st;
     connectionInitialized := connectionInitialized st |}.

Definition invalid_private_key (error : Thrown) : Thrown :=
  Error ("Invalid private key: " +:+ Thrown_toString error).

(** ** Calls of the token-information tool *)

Definition is_http {X} (c : Call X) : bool :=
  match c with
  | fetch _ | Response_json _ => true
  | _ => false
  end.

Definition http_call (X : Type) (c : Call X) (g : Guard) : Prop := is_http c = true.

Definition http_event (e : Event) : bool :=
  match e with
  | Called c _ => is_http c
  | Performed _ _ => true
  end.

Definition unchanged (st st' : State) : Prop := st' = st.

(** ** Minting *)

(** The transaction mint_tokens submits to create the destination's
    associated token account. *)
Definition account_creation_transaction
    (wallet : Wallet) (account owner mint : PublicKey) (blockhash : string) : Transaction :=
  {| instructions :=
       [createAssociatedTokenAccountInstruction
          (publicKey (keypair wallet)) account owner mint];
     recentBlockhash := Some blockhash;
     feePayer := Some (publicKey (keypair wallet));
     signers := [keypair wallet] |}.

(** ** Who signs *)

(** The key pairs a call signs with: the signers handed to
    [sendTransaction], the payer and the authority handed to the
    spl-token actions. *)
Definition signing_keys {X} (c : Call X) : list Keypair :=
  match c with
  | sendTransaction _ _ sgn => sgn
  | createMint _ payer _ _ _ => [payer]
  | mintTo _ payer _ _ authority _ => [payer; authority]
  | burn _ payer _ _ owner _ => [payer; owner]
  | freezeAccount _ payer _ _ authority => [payer; authority]
  | thawAccount _ payer _ _ authority => [payer; authority]
  | setAuthority _ payer _ currentAuthority _ _ => [payer; currentAuthority]
  | closeAccount _ payer _ _ authority => [payer; authority]
  | approve _ payer _ _ owner _ => [payer; owner]
  | revoke _ payer _ owner => [payer; owner]
  | _ => []
  end.

(** The fee payer and the blockhash of a submitted transaction. *)
Definition submitted {X} (c : Call X) : list Transaction :=
  match c with
  | sendTransaction _ tx _ => [tx]
  | _ => []
  end.

(** The wallet a request names, for the tools that look one up. *)
Definition named_wallet (tool : string) (a : Args.t) (st : State) : option Wallet :=
  match Map_get wallet_lookups tool with
  | Some walletName => Map_get (wallets st) (walletName a)
  | None => None
  end.

(** [c] signs with no key but the key pair of [signer], and a
    transaction it submits is paid by [signer] and carries a blockhash. *)
Definition signed_by (signer : option Wallet) {X} (c : Call X) : Prop :=
  (forall pair, pair ∈ signing_keys c ->
                exists wallet, signer = Some wallet /\ keypair wallet = pair)
  /\ (forall tx, tx ∈ submitted c ->
                 recentBlockhash tx <> None
                 /\ exists wallet,
                      signer = Some wallet
                      /\ feePayer tx = Some (publicKey (keypair wallet))).

Definition signed_call (signer : option Wallet) (X : Type) (c : Call X) (g : Guard) : Prop :=
  signed_by signer c.

Definition signed_event (signer : option Wallet) (e : Event) : Prop :=
  match e with
  | Called c _ => signed_by signer c
  | Performed _ _ => True
  end.

(** ** Reading a payload *)

(** [value[key]] for a payload object. *)
Definition field (key : string) (value : JSVal) : JSVal :=
  match value with
  | VObj fields => default VUndefined (Map_get fields key)
  | _ => VUndefined
  end.

(** ** Token accounts *)

(** An entry of [getParsedTokenAccountsByOwner] with a balance above zero. *)
Definition holds_tokens (account : ParsedTokenAccount) : bool :=
  match pta_uiAmount account with
  | Some balance => Number.gt balance (Number.of_Z 0)
  | None => false
  end.

End Model.


Arguments Fulfilled {X} x.
Arguments Rejected {X} t.
Arguments Never {X}.
Arguments SettlesAt {X} ms o.
Arguments Ret {lib R} r.
Arguments Perform {lib R X} e k.
Arguments Await {lib R X} c g k.
Arguments Finished {lib R} r tr.
Arguments Hung {lib R} tr.

(** ** A reference instance of the ledger client

    A small stand-in for web3.js, spl-token and bs58, on which the
    theorems are exercised: keys are kept in their base58 text. *)

Module Sample.

Definition base58_alphabet : string :=
  "123456789ABCDEFGHJKLMNPQRSTUVWXYZabcdefghijkmnopqrstuvwxyz".

Definition is_base58 (s : string) : bool :=
  forallb (fun c => existsb (Ascii.eqb c) (list_ascii_of_string base58_alphabet))
    (list_ascii_of_string s).

(** A 32-byte key is 32 to 44 base58 characters long. *)
Definition is_address (s : string) : bool :=
  is_base58 s && (32 <=? String.length s)%nat && (String.length s <=? 44)%nat.

Definition quote : string := String (Ascii.ascii_of_nat 34) EmptyString.

Definition number_text (x : JSNumber) : string :=
  match Number.BigInt x with
  | Some n => pretty n
  | None => "null"
  end.

Fixpoint stringify (v : JSVal) : string :=
  match v with
  | VUndefined | VNative _ => "undefined"
  | VNull => "null"
  | VBool b => if b then "true" else "false"
  | VNum x => number_text x
  | VStr s => quote +:+ s +:+ quote
  | VArr items =>
      "[" +:+ (fix go (l : list JSVal) : string :=
                 match l with
                 | [] => ""
                 | [x] => stringify x
                 | x :: l' => stringify x +:+ "," +:+ go l'
                 end) items +:+ "]"
  | VObj fields =>
      "{" +:+ (fix go (l : list (string * JSVal)) : string :=
                 match l with
                 | [] => ""
                 | (k, VUndefined) :: l' | (k, VNative _) :: l' => go l'
                 | [(k, x)] => quote +:+ k +:+ quote +:+ ":" +:+ stringify x
                 | (k, x) :: l' =>
                     quote +:+ k +:+ quote +:+ ":" +:+ stringify x +:+ "," +:+ go l'
                 end) fields +:+ "}"
  end.

Definition pow (x y : JSNumber) : JSNumber :=
  match Number.BigInt x, Number.BigInt y with
  | Some a, Some b => if (0 <=? b)%Z then Number.of_Z (a ^ b) else Number.NaN
  | _, _ => Number.NaN
  end.

Definition env : Env :=
  {| SOLANA_MAINNET_RPC := None;
     SOLANA_DEVNET_RPC := None;
     SOLANA_TESTNET_RPC := None;
     SOLANA_LOCALHOST_RPC := None;
     SOLANA_CUSTOM_RPC := None |}.

(** web3.js accepts an endpoint that starts with [http:] or [https:]. *)
Definition is_http_url (s : string) : bool :=
  String.prefix "http:" s || String.prefix "https:" s.

Definition refusal (endpoint : JSVal) : option Thrown :=
  match endpoint with
  | VStr s =>
      if is_http_url s then None
      else Some (ErrorObj "TypeError" "Endpoint URL must start with `http:` or `https:`.")
  | _ => Some (ErrorObj "TypeError" "Endpoint URL must start with `http:` or `https:`.")
  end.

#[global, refine] Instance lib : SolanaLib := {|
  process_env := env;
  Connection_refusal := refusal;
  Connection_accepts := _;
  Connection_refuses := _;
  PublicKey := string;
  Keypair := string;
  Uint8Array := string;
  PublicKey_new value :=
    match value with
    | Some s => if is_address s then Normal s
                else Abrupt (Error "Invalid public key input")
    | None => Abrupt (Error "Invalid public key input")
    end;
  PublicKey_toString key := key;
  publicKey pair := pair;
  secretKey pair := pair;
  Keypair_fromSecretKey bytes :=
    if is_address bytes then Normal bytes else Abrupt (Error "bad secret key size");
  bs58_encode bytes := bytes;
  bs58_decode text :=
    match text with
    | Some s => if is_base58 s then Normal s else Abrupt (Error "Non-base58 character")
    | None => Abrupt (ErrorObj "TypeError" "Expected String")
    end;
  getAssociatedTokenAddress mint owner :=
    Normal (substring 0 22 owner +:+ substring 0 22 mint);
  JSON_stringify := stringify;
  Math_pow := pow;
  destructure_message property :=
    "Cannot destructure property '" +:+ property +:+ "' of 'args' as it is undefined.";
  undefined_property_message property :=
    "Cannot read properties of undefined (reading '" +:+ property +:+ "')";
  not_a_function_message what := what +:+ " is not a function";
  BigInt_message x :=
    "The number " +:+ number_text x
    +:+ " cannot be converted to a BigInt because it is not an integer";
  u64_message n :=
    "The value of 'value' is out of range. It must be >= 0n and < 2n ** 64n. Received "
    +:+ pretty n +:+ "n"
|}.
Proof.
  - intros network url. unfold NETWORKS, env.
    cbn [Map_get or_else SOLANA_MAINNET_RPC SOLANA_DEVNET_RPC SOLANA_TESTNET_RPC
           SOLANA_LOCALHOST_RPC SOLANA_CUSTOM_RPC].
    repeat match goal with
           | |- context [decide (?s = network)] => destruct (decide (s = network))
           end.
    all: intros [= <-] Hurl; first [reflexivity | contradiction].
  - discriminate.
Defined.

Definition alice_key : string := "4vJ9JU1bJJE96FWSJKvHsmmFADCg4gpZQff4P3bkLKi".
Definition bob_key : string := "9xQeWvG816bUx9EPjHmaT23yvVM2ZWbrrpZb9PusVFin".
Definition usdc_mint : string := "EPjFWdd5AufqSSqeM2qN1xzybapC8G4wEGGkZwyTDt1v".
Definition some_blockhash : string := "EkSnNWid2cvwEVnVx9aBqawnmiCNiDgp3gUdkDPTKN1N".
Definition some_signature : string :=
  "5VERv8NMvzbJMEkV8xnrLkEaWRtSz9CosKDYjCJjBRnbJLgp8uirBgmQpjKhoR4tjF3ZpRzrFmBV6UjKdiSZkQUW".

Definition usdc : Mint :=
  {| mint_supply := 1000000;
     mint_decimals := Number.of_Z 6;
     mint_mintAuthority := Some alice_key;
     mint_freezeAuthority := None;
     mint_isInitialized := true |}.

(** A ledger that answers every call after 120 ms; no token account
    exists on it. *)
Definition answers (X : Type) (tr : list Event) (c : Call X) : Promise X :=
  match c in Call T return Promise T with
  | getBalance _ _ => SettlesAt 120 (Fulfilled (Number.of_Z 2500000000))
  | getLatestBlockhash _ => SettlesAt 120 (Fulfilled some_blockhash)
  | sendTransaction _ _ _ => SettlesAt 120 (Fulfilled some_signature)
  | requestAirdrop _ _ _ => SettlesAt 120 (Fulfilled some_signature)
  | getAccountInfo _ _ => SettlesAt 120 (Fulfilled None)
  | getTransaction _ _ => SettlesAt 120 (Fulfilled None)
  | getVersion _ => SettlesAt 120 (Fulfilled {| solana_core := "1.18.22" |})
  | getEpochInfo _ =>
      SettlesAt 120 (Fulfilled {| epoch := Number.of_Z 600;
                                  slotIndex := Number.of_Z 1;
                                  slotsInEpoch := Number.of_Z 432000 |})
  | getTokenAccountsByOwner _ _ _ => SettlesAt 120 (Fulfilled [])
  | getParsedTokenAccountsByOwner _ _ _ => SettlesAt 120 (Fulfilled [])
  | getSignaturesForAddress _ _ _ => SettlesAt 120 (Fulfilled [])
  | getAccount _ _ => SettlesAt 120 (Rejected (ErrorObj "TokenAccountNotFoundError" ""))
  | getMint _ _ => SettlesAt 120 (Fulfilled usdc)
  | createMint _ _ _ _ _ => SettlesAt 120 (Fulfilled usdc_mint)
  | mintTo _ _ _ _ _ _ => SettlesAt 120 (Fulfilled some_signature)
  | burn _ _ _ _ _ _ => SettlesAt 120 (Fulfilled some_signature)
  | freezeAccount _ _ _ _ _ => SettlesAt 120 (Fulfilled some_signature)
  | thawAccount _ _ _ _ _ => SettlesAt 120 (Fulfilled some_signature)
  | setAuthority _ _ _ _ _ _ => SettlesAt 120 (Fulfilled some_signature)
  | closeAccount _ _ _ _ _ => SettlesAt 120 (Fulfilled some_signature)
  | approve _ _ _ _ _ _ => SettlesAt 120 (Fulfilled some_signature)
  | revoke _ _ _ _ => SettlesAt 120 (Fulfilled some_signature)
  | fetch url => SettlesAt 120 (Fulfilled {| response_url := url |})
  | Response_json _ => SettlesAt 120 (Fulfilled (TokenList []))
  | setTimeout_resolve ms => SettlesAt ms (Fulfilled tt)
  end.

Definition hosts (X : Type) (tr : list Event) (e : Effect X) : X :=
  match e in Effect T return T with
  | Keypair_generate => alice_key
  | Date_toISOString => "2024-05-01T12:00:00.000Z"
  end.

Definition world : World := {| answer := answers; host := hosts |}.

(** The same ledger, except that [getVersion] never answers. *)
Definition silent_world : World :=
  {| answer X tr c :=
       match c in Call T return Promise T -> Promise T with
       | getVersion _ => fun _ => Never
       | _ => fun p => p
       end (answers X tr c);
     host := hosts |}.

Definition alice : Wallet := {| keypair := alice_key; name := Some "alice" |}.

(** The module state once a wallet named "alice" exists. *)
Definition with_alice : State :=
  {| wallets := [(Some "alice", alice)];
     currentNetwork := "devnet";
     connection := None;
     connectionInitialized := false |}.

Definition on_mainnet : State :=
  {| wallets := [];
     currentNetwork := "mainnet";
     connection := Some (connection_to (VStr "https://api.mainnet-beta.solana.com"));
     connectionInitialized := true |}.

Definition args_of
    (name walletName fromWallet toAddress tokenMint : option string)
    (amount : option JSNumber) : Args.t :=
  {| Args.name := name; Args.privateKey := None; Args.walletName := walletName;
     Args.tokenMint := tokenMint; Args.fromWallet := fromWallet;
     Args.toAddress := toAddress; Args.amount := amount; Args.address := None;
     Args.signature := None; Args.network := None; Args.decimals := None;
     Args.freezeAuthority := None; Args.destinationAddress := toAddress;
     Args.accountAddress := None; Args.authorityType := None;
     Args.newAuthority := None; Args.delegateAddress := toAddress;
     Args.limit := None; Args.before := None; Args.includeZeroBalances := None |}.

Definition create_alice : Request :=
  {| req_name := "create_wallet";
     req_arguments := Some (args_of (Some "alice") None None None None None) |}.

(** Minting 1.5 tokens to bob, who has no token account. *)
Definition mint_to_bob : Args.t :=
  {| Args.name := None; Args.privateKey := None; Args.walletName := Some "alice";
     Args.tokenMint := Some usdc_mint; Args.fromWallet := None; Args.toAddress := None;
     Args.amount := Some (Number.decimal 15 1); Args.address := None;
     Args.signature := None; Args.network := None; Args.decimals := None;
     Args.freezeAuthority := None; Args.destinationAddress := Some bob_key;
     Args.accountAddress := None; Args.authorityType := None; Args.newAuthority := None;
     Args.delegateAddress := None; Args.limit := None; Args.before := None;
     Args.includeZeroBalances := None |}.

(** Giving up an authority of a kind the handler does not know. *)
Definition drop_authority : Args.t :=
  {| Args.name := None; Args.privateKey := None; Args.walletName := Some "alice";
     Args.tokenMint := Some usdc_mint; Args.fromWallet := None; Args.toAddress := None;
     Args.amount := None; Args.address := None; Args.signature := None;
     Args.network := None; Args.decimals := None; Args.freezeAuthority := None;
     Args.destinationAddress := None; Args.accountAddress := None;
     Args.authorityType := Some "Minting"; Args.newAuthority := None;
     Args.delegateAddress := None; Args.limit := None; Args.before := None;
     Args.includeZeroBalances := None |}.

(** Asking for the last 500 transactions of alice. *)
Definition long_history : Args.t :=
  {| Args.name := None; Args.privateKey := None; Args.walletName := Some "alice";
     Args.tokenMint := None; Args.fromWallet := None; Args.toAddress := None;
     Args.amount := None; Args.address := None; Args.signature := None;
     Args.network := None; Args.decimals := None; Args.freezeAuthority := None;
     Args.destinationAddress := None; Args.accountAddress := None;
     Args.authorityType := None; Args.newAuthority := None;
     Args.delegateAddress := None; Args.limit := Some (Number.of_Z 500);
     Args.before := None; Args.includeZeroBalances := None |}.

(** Looking an account up by its address. *)
Definition lookup_bob : Args.t :=
  {| Args.name := None; Args.privateKey := None; Args.walletName := None;
     Args.tokenMint := None; Args.fromWallet := None; Args.toAddress := None;
     Args.amount := None; Args.address := Some bob_key; Args.signature := None;
     Args.network := None; Args.decimals := None; Args.freezeAuthority := None;
     Args.destinationAddress := None; Args.accountAddress := None;
     Args.authorityType := None; Args.newAuthority := None;
     Args.delegateAddress := None; Args.limit := None; Args.before := None;
     Args.includeZeroBalances := None |}.

Definition other_signature : string :=
  "2nBhEBYYvfaAe16UMNqRHre4YNSskvuYgx3M6E4JP1oDYvZEJHvoPzyUidNgNX5r9sTyN1J9UxtbCXy2rqYcuyuv".

Definition history : list SignatureInfo :=
  [ {| sig_signature := some_signature; sig_slot := Number.of_Z 250000000;
       sig_blockTime := VNum (Number.of_Z 1714564800); sig_err := VNull |};
    {| sig_signature := other_signature; sig_slot := Number.of_Z 249999000;
       sig_blockTime := VNull; sig_err := VNull |} ].

(** A ledger on which alice has two transactions, and which refuses to
    give the details of the second one. *)
Definition history_world : World :=
  {| answer X tr c :=
       match c in Call T return Promise T -> Promise T with
       | getSignaturesForAddress _ _ _ => fun _ => SettlesAt 120 (Fulfilled history)
       | getTransaction _ signature =>
           fun p =>
             if bool_decide (signature = Some other_signature)
             then SettlesAt 120 (Rejected (Error "429 Too Many Requests"))
             else p
       | _ => fun p => p
       end (answers X tr c);
     host := hosts |}.

Definition usdc_entry : TokenEntry :=
  {| te_address := VStr usdc_mint; te_name := VStr "USD Coin"; te_symbol := VStr "USDC";
     te_decimals := VNum (Number.of_Z 6); te_logoURI := VUndefined |}.

(** The token list knows USDC; the price service never answers. *)
Definition priceless_world : World :=
  {| answer X tr c :=
       match c in Call T return Promise T -> Promise T with
       | fetch url =>
           fun p => if String.eqb url "https://token.jup.ag/strict" then p else Never
       | Response_json _ => fun _ => SettlesAt 40 (Fulfilled (TokenList [usdc_entry]))
       | _ => fun p => p
       end (answers X tr c);
     host := hosts |}.

(** The same ledger, except that [getVersion] answers after [ms]. *)
Definition version_after (ms : N) : World :=
  {| answer X tr c :=
       match c in Call T return Promise T -> Promise T with
       | getVersion _ => fun _ => SettlesAt ms (Fulfilled {| solana_core := "1.18.22" |})
       | _ => fun p => p
       end (answers X tr c);
     host := hosts |}.

Definition usdc_holding : TokenAccount :=
  {| ta_amount := 2500000; ta_mint := usdc_mint |}.

(** A ledger on which bob's token account exists, and that cannot be
    reached the first time a token account is looked up: the look-up is
    rejected, though not because the account is missing. *)
Definition flaky_world : World :=
  {| answer X tr c :=
       match c in Call T return Promise T -> Promise T with
       | getAccount _ _ =>
           fun _ =>
             match tr with
             | [] => SettlesAt 120 (Rejected (Error "fetch failed"))
             | _ => SettlesAt 120 (Fulfilled usdc_holding)
             end
       | _ => fun p => p
       end (answers X tr c);
     host := hosts |}.

(** A ledger that never answers anything. *)
Definition dead_world : World :=
  {| answer X tr c := Never; host := hosts |}.

(** A ledger on which every associated token account holds 2.5 USDC. *)
Definition funded_world : World :=
  {| answer X tr c :=
       match c in Call T return Promise T -> Promise T with
       | getAccount _ _ => fun _ => SettlesAt 120 (Fulfilled usdc_holding)
       | _ => fun p => p
       end (answers X tr c);
     host := hosts |}.

Definition usdc_account : ParsedTokenAccount :=
  {| pta_pubkey := substring 0 22 alice_key +:+ substring 0 22 usdc_mint;
     pta_mint := usdc_mint; pta_uiAmount := Some (Number.decimal 25 1);
     pta_decimals := Number.of_Z 6; pta_amount := "2500000" |}.

Definition empty_account : ParsedTokenAccount :=
  {| pta_pubkey := substring 0 22 alice_key +:+ substring 0 22 bob_key;
     pta_mint := bob_key; pta_uiAmount := Some (Number.of_Z 0);
     pta_decimals := Number.of_Z 9; pta_amount := "0" |}.

(** A ledger on which alice owns an empty token account and one with
    2.5 USDC. *)
Definition portfolio_world : World :=
  {| answer X tr c :=
       match c in Call T return Promise T -> Promise T with
       | getParsedTokenAccountsByOwner _ _ _ =>
           fun _ => SettlesAt 120 (Fulfilled [empty_account; usdc_account])
       | _ => fun p => p
       end (answers X tr c);
     host := hosts |}.

End Sample.

(** * Facts *)

Section Facts.
Context `{lib : SolanaLib}.

(** ** Lemmas on the program monad *)

Lemma run_Prog_bind {R S} (w : World) (p : Prog R) (f : R -> Prog S) tr :
  run w (Prog_bind p f) tr =
  match run w p tr with
  | Finished r tr' => run w (f r) tr'
  | Hung tr' => Hung tr'
  end.
Proof.
  revert tr. induction p as [r | X e k IH | X c g k IH]; intros tr; simpl.
  - reflexivity.
  - apply IH.
  - destruct (guarded g (promise_of w tr c)) as [| ms o]; [reflexivity | apply IH].
Qed.

Lemma run_bind {A B} (w : World) (m : M A) (f : A -> M B) st tr :
  run w (bind m f st) tr =
  match run w (m st) tr with
  | Finished (Normal a, st') tr' => run w (f a st') tr'
  | Finished (Abrupt t, st') tr' => Finished (Abrupt t, st') tr'
  | Hung tr' => Hung tr'
  end.
Proof.
  unfold bind. rewrite run_Prog_bind.
  destruct (run w (m st) tr) as [[[a | t] st'] tr' | tr']; reflexivity.
Qed.

Lemma run_try_catch {A} (w : World) (m : M A) (h : Thrown -> M A) st tr :
  run w (try_catch m h st) tr =
  match run w (m st) tr with
  | Finished (Normal a, st') tr' => Finished (Normal a, st') tr'
  | Finished (Abrupt t, st') tr' => run w (h t st') tr'
  | Hung tr' => Hung tr'
  end.
Proof.
  unfold try_catch. rewrite run_Prog_bind.
  destruct (run w (m st) tr) as [[[a | t] st'] tr' | tr']; reflexivity.
Qed.

(** *** Endpoints the connection is built on *)

Lemma or_else_default (o : option string) (d : string) : d <> "" -> or_else o d <> "".
Proof.
  intros Hd. unfold or_else. destruct o as [s |]; [| exact Hd].
  destruct (String.eqb_spec s ""); assumption.
Qed.

Lemma NETWORKS_at_devnet :
  NETWORKS_at process_env "devnet" = VStr (NETWORKS_devnet process_env).
Proof.
  unfold NETWORKS_at, get_property, NETWORKS. cbn [Map_get].
  rewrite decide_False by discriminate. rewrite decide_True by reflexivity.
  reflexivity.
Qed.

Lemma NETWORKS_devnet_accepted :
  Connection_refusal (VStr (NETWORKS_devnet process_env)) = None.
Proof.
  apply (Connection_accepts "devnet").
  - unfold NETWORKS. cbn [Map_get].
    rewrite decide_False by discriminate. rewrite decide_True by reflexivity.
    reflexivity.
  - apply or_else_default. discriminate.
Qed.

(** [new Connection] accepts what [NETWORKS[network] || NETWORKS.devnet]
    yields, unless [NETWORKS[network]] is an inherited member. *)
Lemma endpoint_accepted (network : string) :
  (forall member, NETWORKS_at process_env network <> VNative member) ->
  Connection_refusal
    (js_or (NETWORKS_at process_env network) (VStr (NETWORKS_devnet process_env)))
  = None.
Proof.
  intros Hown. revert Hown. unfold NETWORKS_at, get_property.
  destruct (Map_get (NETWORKS process_env) network) as [url |] eqn:Hurl.
  - intros _. unfold js_or. cbn [truthy].
    destruct (String.eqb_spec url "") as [-> | Hne]; cbn [negb].
    + apply NETWORKS_devnet_accepted.
    + exact (Connection_accepts network url Hurl Hne).
  - destruct (bool_decide (network ∈ Object_prototype_members)).
    + intros Hown. exfalso. exact (Hown network eq_refl).
    + intros _. apply NETWORKS_devnet_accepted.
Qed.

Lemma initializeConnection_eq network st :
  initializeConnection network st
  = match Connection_refusal
            (js_or (NETWORKS_at process_env (default "devnet" network))
               (VStr (NETWORKS_devnet process_env)))
    with
    | Some error => Ret (Abrupt error, renamed (default "devnet" network) st)
    | None => Ret (Normal tt, switched (default "devnet" network) st)
    end.
Proof.
  unfold initializeConnection, Connection_new. cbn.
  destruct (Connection_refusal _); reflexivity.
Qed.

Lemma ensureConnection_eq st :
  ensureConnection st = Ret (Normal tt, ensured st).
Proof.
  unfold ensureConnection, ensured.
  cbn [bind Prog_bind get_state].
  destruct (connectionInitialized st) eqn:Hinit; cbn [negb]; [reflexivity |].
  unfold bind at 1. rewrite initializeConnection_eq. cbn [default from_option id].
  rewrite endpoint_accepted; [| rewrite NETWORKS_at_devnet; discriminate].
  reflexivity.
Qed.

Lemma connected_ensured st :
  connected st = true ->
  exists c, connection (ensured st) = Some c.
Proof.
  unfold connected, ensured.
  destruct (connectionInitialized st); simpl; [| eauto].
  destruct (connection st); [eauto | discriminate].
Qed.

Lemma handleCreateWallet_duplicate (a : Args.t) st :
  Map_has (wallets st) (Args.name a) = true ->
  handleCreateWallet (Some a) st = Ret (Abrupt (duplicate_wallet (Args.name a)), st).
Proof. intros H. unfold handleCreateWallet. cbn. rewrite H. reflexivity. Qed.

Lemma handleImportWallet_duplicate (a : Args.t) st :
  Map_has (wallets st) (Args.name a) = true ->
  handleImportWallet (Some a) st = Ret (Abrupt (duplicate_wallet (Args.name a)), st).
Proof. intros H. unfold handleImportWallet. cbn. rewrite H. reflexivity. Qed.

(** C1. After any sequence of requests the server has answered, a
    create_wallet or import_wallet call whose name is already bound in
    the wallet store is answered with the error "Wallet with name '...'
    already exists"; the module state after the call is the state before
    it (so the binding of that name keeps its key pair, and no binding is
    added), and nothing is asked of the host or the ledger. *)
Theorem C1_duplicate_name_rejected
    (w : World) (requests : list Request) (st0 : State) (tr0 : list Event)
    (rs : list (Completion Response)) (st : State) (tr : list Event)
    (tool : string) (a : Args.t) :
  serve w requests st0 tr0 = Finished (rs, st) tr ->
  tool = "create_wallet" \/ tool = "import_wallet" ->
  Map_has (wallets st) (Args.name a) = true ->
  run w (CallToolRequest_handler {| req_name := tool; req_arguments := Some a |} st) tr
  = Finished (Normal (error_envelope (duplicate_wallet (Args.name a))), st) tr.
Proof.
  intros _ Htool Hbound.
  unfold CallToolRequest_handler. rewrite run_try_catch, run_bind.
  destruct Htool as [-> | ->]; cbn [req_name req_arguments].
  - change (switch "create_wallet" (Some a)) with (handleCreateWallet (Some a)).
    rewrite (handleCreateWallet_duplicate a st Hbound). reflexivity.
  - change (switch "import_wallet" (Some a)) with (handleImportWallet (Some a)).
    rewrite (handleImportWallet_duplicate a st Hbound). reflexivity.
Qed.

(** C3. When the current network is "mainnet", airdrop_sol throws
    "Airdrop is not available on mainnet" whatever the wallet store, the
    wallet name and the amount are: the handler is a program without any
    awaited call (the wallet is not even looked up), and run through the
    front-end against any world it leaves the trace and the state as they
    were and answers the error envelope. *)
Theorem C3_airdrop_denied_on_mainnet
    (w : World) (st : State) (a : Args.t) (tr : list Event) :
  currentNetwork st = "mainnet" ->
  handleAirdropSol (Some a) st = Ret (Abrupt airdrop_denied, st)
  /\ run w (CallToolRequest_handler
              {| req_name := "airdrop_sol"; req_arguments := Some a |} st) tr
     = Finished (Normal (error_envelope airdrop_denied), st) tr.
Proof.
  intros Hnet.
  assert (Hh : handleAirdropSol (Some a) st = Ret (Abrupt airdrop_denied, st)).
  { unfold handleAirdropSol. cbn. rewrite Hnet. reflexivity. }
  split; [exact Hh |].
  unfold CallToolRequest_handler. rewrite run_try_catch, run_bind.
  cbn [req_name req_arguments].
  change (switch "airdrop_sol" (Some a)) with (handleAirdropSol (Some a)).
  rewrite Hh. reflexivity.
Qed.

(** ** Truncation of Numbers *)

Lemma Number_den_pos (x : JSNumber) : (0 < Number.den x)%Z.
Proof.
  destruct x as [s | s | | s m e]; cbn [Number.den]; lia.
Qed.

Lemma Number_BigInt_of_Z_exact (q : Z) :
  Number.BigInt (Number.of_Z_exact q) = Some q.
Proof.
  destruct q as [| p | p]; [reflexivity | |].
  all: unfold Number.of_Z_exact, Number.BigInt, Number.num, Number.den.
  all: set (k := Z.max 0 (Number.prec - Z.pos (digits2_pos p))).
  all: assert (Hk : (0 <= k)%Z) by (subst k; lia).
  all: assert (Hs : Z.pos (Z.to_pos (Z.shiftl (Z.pos p) k)) = (Z.pos p * 2 ^ k)%Z)
         by (rewrite Z.shiftl_mul_pow2 by lia;
             apply Z2Pos.id; apply Z.mul_pos_pos; [lia | apply Z.pow_pos_nonneg; lia]).
  all: rewrite Hs.
  all: replace (Z.max (- k) 0) with 0%Z by lia.
  all: replace (Z.max (- - k) 0) with k by lia.
  all: assert (H2 : (0 < 2 ^ k)%Z) by (apply Z.pow_pos_nonneg; lia).
  all: cbn [cond_Zopp]; rewrite Z.pow_0_r, Z.mul_1_r.
  - rewrite Z.mod_mul by lia. cbn [Z.eqb]. rewrite Z.div_mul by lia. reflexivity.
  - rewrite <- Z.mul_opp_l, Z.mod_mul by lia. cbn [Z.eqb].
    rewrite Z.div_mul by lia. reflexivity.
Qed.

(** [BigInt(Math.floor(x))] of a finite Number is the integer [n] with
    [n <= x < n + 1]. *)
Lemma Number_floor_spec (x : JSNumber) :
  Number.is_finite x = true ->
  exists n : Z,
    Number.BigInt (Number.Math_floor x) = Some n
    /\ Number.floorZ x = Some n
    /\ (n * Number.den x <= Number.num x < (n + 1) * Number.den x)%Z.
Proof.
  intros Hfin. pose proof (Number_den_pos x) as Hden.
  destruct x as [s | s | | s m e]; try discriminate.
  - exists 0%Z. simpl. repeat split; lia.
  - exists (Number.num (S754_finite s m e) / Number.den (S754_finite s m e))%Z.
    split; [| split; [reflexivity |]].
    + unfold Number.Math_floor. destruct (0 <=? e)%Z eqn:He.
      * apply Z.leb_le in He. unfold Number.BigInt.
        assert (Hd : Number.den (S754_finite s m e) = 1%Z).
        { unfold Number.den. replace (Z.max (- e) 0) with 0%Z by lia. reflexivity. }
        rewrite Hd, Z.mod_1_r. reflexivity.
      * apply Number_BigInt_of_Z_exact.
    + split.
      * rewrite Z.mul_comm. apply Z.mul_div_le. exact Hden.
      * rewrite Z.mul_comm. rewrite Z.add_1_r.
        apply Z.mul_succ_div_gt. exact Hden.
Qed.

(** [Math.floor] and [BigInt] on any Number, finite or not. *)
Lemma Number_floorZ_BigInt (x : JSNumber) :
  match Number.floorZ x with
  | Some n =>
      Number.BigInt (Number.Math_floor x) = Some n
      /\ (n * Number.den x <= Number.num x < (n + 1) * Number.den x)%Z
  | None => Number.BigInt (Number.Math_floor x) = None
  end.
Proof.
  destruct (Number.is_finite x) eqn:Hfin.
  - destruct (Number_floor_spec x Hfin) as (n & Hbig & -> & Hfloor). auto.
  - destruct x as [s | s | | s m e]; try discriminate; reflexivity.
Qed.

(** ** Symbolic execution of handlers *)

Ltac exec :=
  cbn [run bind Prog_bind ret throw get_state put_state lift destructure get_wallet
       the_connection await await_guarded await_withTimeout guarded perform try_catch
       explorerUrl wallets_set to_BigInt scaled_amount promise_of mapM
       wallets currentNetwork connection connectionInitialized
       Args.name Args.privateKey Args.walletName Args.tokenMint Args.fromWallet
       Args.toAddress Args.amount Args.address Args.signature Args.network
       Args.decimals Args.freezeAuthority Args.destinationAddress Args.accountAddress
       Args.authorityType Args.newAuthority Args.delegateAddress Args.limit Args.before
       Args.includeZeroBalances].

(** ** Native transfers *)

Lemma run_ensure_then {B} (w : World) (f : unit -> M B) st tr :
  run w (bind ensureConnection f st) tr = run w (f tt (ensured st)) tr.
Proof. rewrite run_bind, ensureConnection_eq. reflexivity. Qed.

(** transfer_sol up to the building of the instruction. *)
Lemma transfer_sol_run
    (w : World) (st : State) (a : Args.t) (tr : list Event)
    (wallet : Wallet) (toPubkey : PublicKey) (c : Connection) :
  connection (ensured st) = Some c ->
  Map_get (wallets st) (Args.fromWallet a) = Some wallet ->
  PublicKey_new (Args.toAddress a) = Normal toPubkey ->
  run w (handleTransferSol (Some a) st) tr
  = match SystemProgram_transfer_of (publicKey (keypair wallet)) toPubkey
            (Number.Math_floor (Number.mul (to_number (Args.amount a)) LAMPORTS_PER_SOL))
    with
    | Abrupt error => Finished (Abrupt error, ensured st) tr
    | Normal transfer =>
        match answer w _ tr (getLatestBlockhash c) with
        | Never => Hung (tr ++ [Called (getLatestBlockhash c) None])
        | SettlesAt _ (Rejected error) =>
            Finished (Abrupt error, ensured st)
              (tr ++ [Called (getLatestBlockhash c) (Some (Rejected error))])
        | SettlesAt _ (Fulfilled blockhash) =>
            let tx :=
              {| instructions := [transfer];
                 recentBlockhash := Some blockhash;
                 feePayer := Some (publicKey (keypair wallet));
                 signers := [keypair wallet] |} in
            let tr1 := tr ++ [Called (getLatestBlockhash c) (Some (Fulfilled blockhash))] in
            match answer w _ tr1 (sendTransaction c tx [keypair wallet]) with
            | Never => Hung (tr1 ++ [Called (sendTransaction c tx [keypair wallet]) None])
            | SettlesAt _ (Rejected error) =>
                Finished (Abrupt error, ensured st)
                  (tr1 ++ [Called (sendTransaction c tx [keypair wallet])
                             (Some (Rejected error))])
            | SettlesAt _ (Fulfilled signature) =>
                Finished
                  (Normal (VObj [ ("success", VBool true);
                                  ("signature", VStr signature);
                                  ("explorerUrl",
                                   VStr ("https://explorer.solana.com/tx/" +:+ signature
                                         +:+ "?cluster="
                                         +:+ currentNetwork (ensured st))) ]),
                   ensured st)
                  (tr1 ++ [Called (sendTransaction c tx [keypair wallet])
                             (Some (Fulfilled signature))])
            end
        end
    end.
Proof.
  intros Hc Hw Hto. unfold handleTransferSol.
  exec. rewrite Hw. exec. rewrite run_ensure_then. exec. rewrite Hto. exec.
  destruct (SystemProgram_transfer_of _ _ _) as [transfer | error]; exec;
    [| reflexivity].
  rewrite Hc. exec.
  destruct (answer w _ tr (getLatestBlockhash c)) as [| ms [blockhash | error]]; exec;
    [reflexivity | | reflexivity].
  rewrite Hc. exec. cbv zeta.
  destruct (answer w _ _ _) as [| ms' [signature | error]]; reflexivity.
Qed.

(** What transfer_sol submits when the lamports fit a u64. *)
Lemma transfer_sol_submits
    (w : World) (st : State) (a : Args.t) (tr : list Event)
    (wallet : Wallet) (toPubkey : PublicKey) (n : Z) (blockhash : string) (t : N) :
  connected st = true ->
  Map_get (wallets st) (Args.fromWallet a) = Some wallet ->
  PublicKey_new (Args.toAddress a) = Normal toPubkey ->
  Number.BigInt
    (Number.Math_floor (Number.mul (to_number (Args.amount a)) LAMPORTS_PER_SOL))
  = Some n ->
  is_u64 n = true ->
  (forall tr' c, answer w _ tr' (getLatestBlockhash c) = SettlesAt t (Fulfilled blockhash)) ->
  exists tx,
    sent_transactions (trace_of (run w (handleTransferSol (Some a) st) tr))
    = sent_transactions tr ++ [tx]
    /\ instructions tx
       = [SystemProgram_transfer (publicKey (keypair wallet)) toPubkey
            (Number.Math_floor
               (Number.mul (to_number (Args.amount a)) LAMPORTS_PER_SOL))].
Proof.
  intros Hconn Hw Hto Hbig Hfits Hbh.
  destruct (connected_ensured st Hconn) as [c Hc].
  rewrite (transfer_sol_run w st a tr wallet toPubkey c Hc Hw Hto).
  unfold SystemProgram_transfer_of. rewrite Hbig, Hfits, Hbh. cbv zeta.
  destruct (answer w _ _ _) as [| ms [signature | error]]; cbn [trace_of];
    unfold sent_transactions; rewrite !omap_app; cbn [omap sent_transaction];
    rewrite app_nil_r; (eexists; split; [reflexivity | reflexivity]).
Qed.


(** X1. The lamports transfer_sol moves are the floor of the binary64
    product, which is not always the floor of the product of the
    decimals as written: the literal 8.2 denotes a Number slightly
    below 8.2, so transfer_sol of 8.2 SOL submits a transfer of
    8199999999 lamports, and of 1.005 SOL one of 1004999999; 0.3 also
    denotes a Number below 0.3, but its product rounds to 300000000
    before the floor is taken. *)
Theorem transfer_sol_floor_of_binary64_product
    (w : World) (st : State) (a : Args.t) (tr : list Event)
    (wallet : Wallet) (toPubkey : PublicKey) (blockhash : string) (t : N)
    (moved : Z) :
  connected st = true ->
  Map_get (wallets st) (Args.fromWallet a) = Some wallet ->
  PublicKey_new (Args.toAddress a) = Normal toPubkey ->
  (forall tr' c, answer w _ tr' (getLatestBlockhash c) = SettlesAt t (Fulfilled blockhash)) ->
  (Args.amount a, moved)
  ∈ [ (Some (Number.decimal 82 1), 8199999999%Z);
      (Some (Number.decimal 1005 3), 1004999999%Z);
      (Some (Number.decimal 3 1), 300000000%Z) ] ->
  exists tx lamports,
    sent_transactions (trace_of (run w (handleTransferSol (Some a) st) tr))
    = sent_transactions tr ++ [tx]
    /\ instructions tx
       = [SystemProgram_transfer (publicKey (keypair wallet)) toPubkey lamports]
    /\ Number.BigInt lamports = Some moved.
Proof.
  intros Hconn Hw Hto Hbh Hamount.
  assert (Hbig : Number.BigInt
                   (Number.Math_floor
                      (Number.mul (to_number (Args.amount a)) LAMPORTS_PER_SOL))
                 = Some moved /\ is_u64 moved = true).
  { repeat (apply elem_of_cons in Hamount; destruct Hamount as [[= -> ->] | Hamount]);
      [.. | apply elem_of_nil in Hamount; contradiction].
    all: split; vm_compute; reflexivity. }
  destruct Hbig as [Hbig Hfits].
  destruct (transfer_sol_submits w st a tr wallet toPubkey moved blockhash t
              Hconn Hw Hto Hbig Hfits Hbh) as (tx & Hsent & Hix).
  exists tx. eexists. split; [exact Hsent | split; [exact Hix | exact Hbig]].
Qed.

(** ** Token transfers *)

(** Case analysis on whatever the execution is waiting for. *)
Ltac branch :=
  match goal with
  | |- context [destructure _ ?a] => destruct a
  | |- context [createTransferInstruction_of _ _ _ ?n] =>
      unfold createTransferInstruction_of; destruct (is_u64 n) eqn:?
  | |- context [SystemProgram_transfer_of _ _ ?x] =>
      unfold SystemProgram_transfer_of;
      destruct (Number.BigInt x) as [?n |] eqn:?; [destruct (is_u64 n) eqn:? |]
  | |- context [lift ?r] => destruct r eqn:?
  | |- context [to_BigInt ?x] => unfold to_BigInt; destruct (Number.BigInt x) eqn:?
  | |- context [match ?x with _ => _ end] => destruct x eqn:?
  end.

Ltac explore := repeat (exec; rewrite ?run_ensure_then; try branch).

Ltac read_sent :=
  cbn [trace_of]; unfold sent_transactions; rewrite ?omap_app;
  cbn [omap sent_transaction]; rewrite <- ?app_assoc; cbn [app].

(** transfer_tokens up to the building of the transfer instruction. *)
Lemma transfer_tokens_run
    (w : World) (st : State) (a : Args.t) (tr : list Event)
    (wallet : Wallet) (tokenMintPubkey toPubkey : PublicKey)
    (fromTokenAccount toTokenAccount : PublicKey) (rawAmount : Z)
    (probe : Settled TokenAccount) (t : N) :
  connected st = true ->
  Map_get (wallets st) (Args.fromWallet a) = Some wallet ->
  PublicKey_new (Args.tokenMint a) = Normal tokenMintPubkey ->
  PublicKey_new (Args.toAddress a) = Normal toPubkey ->
  getAssociatedTokenAddress tokenMintPubkey (publicKey (keypair wallet))
  = Normal fromTokenAccount ->
  getAssociatedTokenAddress tokenMintPubkey toPubkey = Normal toTokenAccount ->
  Number.BigInt (Number.Math_floor (to_number (Args.amount a))) = Some rawAmount ->
  (forall tr' c, answer w _ tr' (getAccount c toTokenAccount) = SettlesAt t probe) ->
  exists c,
    connection (ensured st) = Some c
    /\ let tr1 := tr ++ [Called (getAccount c toTokenAccount) (Some probe)] in
       run w (handleTransferTokens (Some a) st) tr
       = if is_u64 rawAmount then
           match answer w _ tr1 (getLatestBlockhash c) with
           | Never => Hung (tr1 ++ [Called (getLatestBlockhash c) None])
           | SettlesAt _ (Rejected error) =>
               Finished (Abrupt error, ensured st)
                 (tr1 ++ [Called (getLatestBlockhash c) (Some (Rejected error))])
           | SettlesAt _ (Fulfilled blockhash) =>
               let tx :=
                 token_transfer_transaction wallet tokenMintPubkey toPubkey
                   fromTokenAccount toTokenAccount rawAmount probe blockhash in
               let tr2 :=
                 tr1 ++ [Called (getLatestBlockhash c) (Some (Fulfilled blockhash))] in
               match answer w _ tr2 (sendTransaction c tx [keypair wallet]) with
               | Never => Hung (tr2 ++ [Called (sendTransaction c tx [keypair wallet]) None])
               | SettlesAt _ (Rejected error) =>
                   Finished (Abrupt error, ensured st)
                     (tr2 ++ [Called (sendTransaction c tx [keypair wallet])
                                (Some (Rejected error))])
               | SettlesAt _ (Fulfilled signature) =>
                   Finished
                     (Normal (VObj [ ("success", VBool true);
                                     ("signature", VStr signature);
                                     ("explorerUrl",
                                      VStr ("https://explorer.solana.com/tx/"
                                            +:+ signature +:+ "?cluster="
                                            +:+ currentNetwork (ensured st))) ]),
                      ensured st)
                     (tr2 ++ [Called (sendTransaction c tx [keypair wallet])
                                (Some (Fulfilled signature))])
               end
           end
         else
           Finished (Abrupt (ErrorObj "RangeError" (u64_message rawAmount)), ensured st) tr1.
Proof.
  intros Hconn Hw Hmint Hto Hfrom Hdest Hraw Hprobe.
  destruct (connected_ensured st Hconn) as [c Hc]. exists c. split; [exact Hc |].
  cbv zeta. unfold handleTransferTokens, createTransferInstruction_of.
  repeat (exec; rewrite ?run_ensure_then, ?Hw, ?Hmint, ?Hto, ?Hfrom, ?Hdest, ?Hc,
            ?Hprobe).
  destruct probe as [acct | e]; unfold to_BigInt;
    repeat (exec; rewrite ?Hraw, ?Hc).
  all: destruct (is_u64 rawAmount); exec; [| reflexivity].
  all: rewrite ?Hc; exec.
  all: destruct (answer w _ _ (getLatestBlockhash c)) as [| ms [blockhash | e']]; exec;
    [reflexivity | | reflexivity].
  all: rewrite ?Hc; exec.
  all: destruct (answer w _ _ _) as [| ms' [sig | e']]; reflexivity.
Qed.

(** The calls of a transfer_tokens run that reaches the submission: the
    probe, the blockhash, the submission, and nothing else. *)
Lemma transfer_tokens_calls
    (w : World) (st : State) (a : Args.t) (tr : list Event)
    (wallet : Wallet) (tokenMintPubkey toPubkey : PublicKey)
    (fromTokenAccount toTokenAccount : PublicKey) (rawAmount : Z)
    (probe : Settled TokenAccount) (blockhash : string) (t : N) :
  connected st = true ->
  Map_get (wallets st) (Args.fromWallet a) = Some wallet ->
  PublicKey_new (Args.tokenMint a) = Normal tokenMintPubkey ->
  PublicKey_new (Args.toAddress a) = Normal toPubkey ->
  getAssociatedTokenAddress tokenMintPubkey (publicKey (keypair wallet))
  = Normal fromTokenAccount ->
  getAssociatedTokenAddress tokenMintPubkey toPubkey = Normal toTokenAccount ->
  Number.BigInt (Number.Math_floor (to_number (Args.amount a))) = Some rawAmount ->
  is_u64 rawAmount = true ->
  (forall tr' c, answer w _ tr' (getAccount c toTokenAccount) = SettlesAt t probe) ->
  (forall tr' c,
      answer w _ tr' (getLatestBlockhash c) = SettlesAt t (Fulfilled blockhash)) ->
  exists c o,
    trace_of (run w (handleTransferTokens (Some a) st) tr)
    = tr ++ [ Called (getAccount c toTokenAccount) (Some probe);
              Called (getLatestBlockhash c) (Some (Fulfilled blockhash));
              Called (sendTransaction c
                        (token_transfer_transaction wallet tokenMintPubkey toPubkey
                           fromTokenAccount toTokenAccount rawAmount probe blockhash)
                        [keypair wallet]) o ].
Proof.
  intros Hconn Hw Hmint Hto Hfrom Hdest Hraw Hfits Hprobe Hbh.
  destruct (transfer_tokens_run w st a tr wallet tokenMintPubkey toPubkey
              fromTokenAccount toTokenAccount rawAmount probe t
              Hconn Hw Hmint Hto Hfrom Hdest Hraw Hprobe) as (c & _ & Hrun).
  cbv zeta in Hrun. rewrite Hfits, Hbh in Hrun. rewrite Hrun. exists c.
  destruct (answer w _ _ _) as [| ms [sig | e']]; cbn [trace_of];
    rewrite <- ?app_assoc; cbn [app]; eexists; reflexivity.
Qed.


(** ** Units of token amounts *)

Lemma Number_BigInt_floor (x : JSNumber) (n : Z) :
  Number.floorZ x = Some n ->
  Number.BigInt (Number.Math_floor x) = Some n.
Proof.
  intros Hn.
  assert (Hfin : Number.is_finite x = true) by (destruct x; try discriminate; reflexivity).
  destruct (Number_floor_spec x Hfin) as (n' & Hbig & Hfl & _).
  congruence.
Qed.

Ltac read_ops :=
  cbn [trace_of]; unfold token_amounts, fetched_mints; rewrite ?omap_app;
  cbn [omap token_amount fetched_mint]; rewrite <- ?app_assoc; cbn [app].

Ltac solve_issues_only :=
  read_ops;
  (split; [reflexivity |]);
  eexists; split; [first [reflexivity | symmetry; apply app_nil_r] |];
  split; [first [left; reflexivity | right; reflexivity] | cbn; congruence].

Lemma mint_tokens_amount
    (w : World) (st : State) (a : Args.t) (tr : list Event)
    (wallet : Wallet) (tokenMintPubkey destinationPubkey : PublicKey)
    (mintInfo : Mint) (raw : Z) (t : N) :
  connected st = true ->
  Map_get (wallets st) (Args.walletName a) = Some wallet ->
  PublicKey_new (Args.tokenMint a) = Normal tokenMintPubkey ->
  PublicKey_new (Args.destinationAddress a) = Normal destinationPubkey ->
  (forall tr' c,
      answer w _ tr' (getMint c tokenMintPubkey) = SettlesAt t (Fulfilled mintInfo)) ->
  Number.floorZ
    (Number.mul (to_number (Args.amount a))
       (Math_pow (Number.of_Z 10) (mint_decimals mintInfo))) = Some raw ->
  issues_only OpMintTo raw tokenMintPubkey tr (run w (handleMintTokens (Some a) st) tr).
Proof.
  intros Hconn Hw Hmint Hdest Hinfo Hraw. apply Number_BigInt_floor in Hraw.
  destruct (connected_ensured st Hconn) as [c Hc].
  unfold handleMintTokens, issues_only, scaled_amount, to_BigInt.
  repeat (exec; rewrite ?run_ensure_then, ?Hw, ?Hmint, ?Hdest, ?Hc, ?Hinfo, ?Hraw).
  explore.
  all: solve_issues_only.
Qed.

Lemma burn_tokens_amount
    (w : World) (st : State) (a : Args.t) (tr : list Event)
    (wallet : Wallet) (tokenMintPubkey : PublicKey)
    (mintInfo : Mint) (raw : Z) (t : N) :
  connected st = true ->
  Map_get (wallets st) (Args.walletName a) = Some wallet ->
  PublicKey_new (Args.tokenMint a) = Normal tokenMintPubkey ->
  (forall tr' c,
      answer w _ tr' (getMint c tokenMintPubkey) = SettlesAt t (Fulfilled mintInfo)) ->
  Number.floorZ
    (Number.mul (to_number (Args.amount a))
       (Math_pow (Number.of_Z 10) (mint_decimals mintInfo))) = Some raw ->
  issues_only OpBurn raw tokenMintPubkey tr (run w (handleBurnTokens (Some a) st) tr).
Proof.
  intros Hconn Hw Hmint Hinfo Hraw. apply Number_BigInt_floor in Hraw.
  destruct (connected_ensured st Hconn) as [c Hc].
  unfold handleBurnTokens, issues_only, scaled_amount, to_BigInt.
  repeat (exec; rewrite ?run_ensure_then, ?Hw, ?Hmint, ?Hc, ?Hinfo, ?Hraw).
  explore.
  all: solve_issues_only.
Qed.

Lemma approve_delegate_amount
    (w : World) (st : State) (a : Args.t) (tr : list Event)
    (wallet : Wallet) (tokenMintPubkey delegatePubkey : PublicKey)
    (mintInfo : Mint) (raw : Z) (t : N) :
  connected st = true ->
  Map_get (wallets st) (Args.walletName a) = Some wallet ->
  PublicKey_new (Args.tokenMint a) = Normal tokenMintPubkey ->
  PublicKey_new (Args.delegateAddress a) = Normal delegatePubkey ->
  (forall tr' c,
      answer w _ tr' (getMint c tokenMintPubkey) = SettlesAt t (Fulfilled mintInfo)) ->
  Number.floorZ
    (Number.mul (to_number (Args.amount a))
       (Math_pow (Number.of_Z 10) (mint_decimals mintInfo))) = Some raw ->
  issues_only OpApprove raw tokenMintPubkey tr
    (run w (handleApproveDelegate (Some a) st) tr).
Proof.
  intros Hconn Hw Hmint Hdel Hinfo Hraw. apply Number_BigInt_floor in Hraw.
  destruct (connected_ensured st Hconn) as [c Hc].
  unfold handleApproveDelegate, issues_only, scaled_amount, to_BigInt.
  repeat (exec; rewrite ?run_ensure_then, ?Hw, ?Hmint, ?Hdel, ?Hc, ?Hinfo, ?Hraw).
  explore.
  all: solve_issues_only.
Qed.

Ltac solve_issues :=
  read_ops; split; reflexivity.

Lemma mint_tokens_issues
    (w : World) (st : State) (a : Args.t) (tr : list Event)
    (wallet : Wallet) (tokenMintPubkey destinationPubkey destinationTokenAccount : PublicKey)
    (mintInfo : Mint) (acct : TokenAccount) (raw : Z) (t : N) :
  connected st = true ->
  Map_get (wallets st) (Args.walletName a) = Some wallet ->
  PublicKey_new (Args.tokenMint a) = Normal tokenMintPubkey ->
  PublicKey_new (Args.destinationAddress a) = Normal destinationPubkey ->
  (forall tr' c,
      answer w _ tr' (getMint c tokenMintPubkey) = SettlesAt t (Fulfilled mintInfo)) ->
  Number.floorZ
    (Number.mul (to_number (Args.amount a))
       (Math_pow (Number.of_Z 10) (mint_decimals mintInfo))) = Some raw ->
  getAssociatedTokenAddress tokenMintPubkey destinationPubkey
  = Normal destinationTokenAccount ->
  (forall tr' c,
      answer w _ tr' (getAccount c destinationTokenAccount)
      = SettlesAt t (Fulfilled acct)) ->
  issues OpMintTo raw tokenMintPubkey tr (run w (handleMintTokens (Some a) st) tr).
Proof.
  intros Hconn Hw Hmint Hdest Hinfo Hraw Hata Hprobe. apply Number_BigInt_floor in Hraw.
  destruct (connected_ensured st Hconn) as [c Hc].
  unfold handleMintTokens, issues, scaled_amount, to_BigInt.
  repeat (exec; rewrite ?run_ensure_then, ?Hw, ?Hmint, ?Hdest, ?Hc, ?Hinfo, ?Hraw,
            ?Hata, ?Hprobe).
  destruct (answer w _ _ _) as [| ms [sig | e]]; exec; solve_issues.
Qed.

Lemma burn_tokens_issues
    (w : World) (st : State) (a : Args.t) (tr : list Event)
    (wallet : Wallet) (tokenMintPubkey tokenAccount : PublicKey)
    (mintInfo : Mint) (raw : Z) (t : N) :
  connected st = true ->
  Map_get (wallets st) (Args.walletName a) = Some wallet ->
  PublicKey_new (Args.tokenMint a) = Normal tokenMintPubkey ->
  (forall tr' c,
      answer w _ tr' (getMint c tokenMintPubkey) = SettlesAt t (Fulfilled mintInfo)) ->
  Number.floorZ
    (Number.mul (to_number (Args.amount a))
       (Math_pow (Number.of_Z 10) (mint_decimals mintInfo))) = Some raw ->
  getAssociatedTokenAddress tokenMintPubkey (publicKey (keypair wallet))
  = Normal tokenAccount ->
  issues OpBurn raw tokenMintPubkey tr (run w (handleBurnTokens (Some a) st) tr).
Proof.
  intros Hconn Hw Hmint Hinfo Hraw Hata. apply Number_BigInt_floor in Hraw.
  destruct (connected_ensured st Hconn) as [c Hc].
  unfold handleBurnTokens, issues, scaled_amount, to_BigInt.
  repeat (exec; rewrite ?run_ensure_then, ?Hw, ?Hmint, ?Hc, ?Hinfo, ?Hraw, ?Hata).
  destruct (answer w _ _ _) as [| ms [sig | e]]; exec; solve_issues.
Qed.

Lemma approve_delegate_issues
    (w : World) (st : State) (a : Args.t) (tr : list Event)
    (wallet : Wallet) (tokenMintPubkey delegatePubkey tokenAccount : PublicKey)
    (mintInfo : Mint) (raw : Z) (t : N) :
  connected st = true ->
  Map_get (wallets st) (Args.walletName a) = Some wallet ->
  PublicKey_new (Args.tokenMint a) = Normal tokenMintPubkey ->
  PublicKey_new (Args.delegateAddress a) = Normal delegatePubkey ->
  (forall tr' c,
      answer w _ tr' (getMint c tokenMintPubkey) = SettlesAt t (Fulfilled mintInfo)) ->
  Number.floorZ
    (Number.mul (to_number (Args.amount a))
       (Math_pow (Number.of_Z 10) (mint_decimals mintInfo))) = Some raw ->
  getAssociatedTokenAddress tokenMintPubkey (publicKey (keypair wallet))
  = Normal tokenAccount ->
  issues OpApprove raw tokenMintPubkey tr
    (run w (handleApproveDelegate (Some a) st) tr).
Proof.
  intros Hconn Hw Hmint Hdel Hinfo Hraw Hata. apply Number_BigInt_floor in Hraw.
  destruct (connected_ensured st Hconn) as [c Hc].
  unfold handleApproveDelegate, issues, scaled_amount, to_BigInt.
  repeat (exec; rewrite ?run_ensure_then, ?Hw, ?Hmint, ?Hdel, ?Hc, ?Hinfo, ?Hraw, ?Hata).
  destruct (answer w _ _ _) as [| ms [sig | e]]; exec; solve_issues.
Qed.

Lemma transfer_tokens_never_fetches_mint
    (w : World) (st : State) (args : option Args.t) (tr : list Event) :
  fetched_mints (trace_of (run w (handleTransferTokens args st) tr)) = fetched_mints tr.
Proof.
  unfold handleTransferTokens. explore.
  all: read_ops; first [reflexivity | apply app_nil_r].
Qed.

(** C10. transfer_tokens takes its amount as raw smallest units: no run
    of the handler ever fetches the mint (so its decimal count plays no
    part), and the transfer instruction of the transaction it submits
    carries [floor(amount)], which has to fit a u64.  mint_tokens,
    burn_tokens and approve_delegate take the same-named argument as
    decimal token units: once the wallet and the addresses are accepted
    and [getMint] has answered, every run has fetched the mint once and
    hands no other amount to [mintTo], [burn] or [approve] than
    [raw = floor(amount * Math.pow(10, decimals))] for the decimal count
    of that reply; and the call is issued, once, with [raw]: by
    burn_tokens and approve_delegate as soon as the wallet's associated
    token account is derived, by mint_tokens when in addition the probe
    of the destination's account is fulfilled. *)
Theorem C10_token_amount_units :
  (forall (w : World) (st : State) (args : option Args.t) (tr : list Event),
      fetched_mints (trace_of (run w (handleTransferTokens args st) tr))
      = fetched_mints tr)
  /\ (forall (w : World) (st : State) (a : Args.t) (tr : list Event)
             (wallet : Wallet) (tokenMintPubkey toPubkey : PublicKey)
             (fromTokenAccount toTokenAccount : PublicKey) (rawAmount : Z)
             (probe : Settled TokenAccount) (blockhash : string) (t : N),
         connected st = true ->
         Map_get (wallets st) (Args.fromWallet a) = Some wallet ->
         PublicKey_new (Args.tokenMint a) = Normal tokenMintPubkey ->
         PublicKey_new (Args.toAddress a) = Normal toPubkey ->
         getAssociatedTokenAddress tokenMintPubkey (publicKey (keypair wallet))
         = Normal fromTokenAccount ->
         getAssociatedTokenAddress tokenMintPubkey toPubkey = Normal toTokenAccount ->
         Number.floorZ (to_number (Args.amount a)) = Some rawAmount ->
         is_u64 rawAmount = true ->
         (forall tr' c,
             answer w _ tr' (getAccount c toTokenAccount) = SettlesAt t probe) ->
         (forall tr' c,
             answer w _ tr' (getLatestBlockhash c) = SettlesAt t (Fulfilled blockhash)) ->
         exists tx,
           sent_transactions (trace_of (run w (handleTransferTokens (Some a) st) tr))
           = sent_transactions tr ++ [tx]
           /\ last (instructions tx)
              = Some (createTransferInstruction fromTokenAccount toTokenAccount
                        (publicKey (keypair wallet)) rawAmount))
  /\ (forall (w : World) (st : State) (a : Args.t) (tr : list Event)
             (wallet : Wallet) (tokenMintPubkey destinationPubkey : PublicKey)
             (mintInfo : Mint) (raw : Z) (t : N),
         connected st = true ->
         Map_get (wallets st) (Args.walletName a) = Some wallet ->
         PublicKey_new (Args.tokenMint a) = Normal tokenMintPubkey ->
         PublicKey_new (Args.destinationAddress a) = Normal destinationPubkey ->
         (forall tr' c,
             answer w _ tr' (getMint c tokenMintPubkey)
             = SettlesAt t (Fulfilled mintInfo)) ->
         Number.floorZ
           (Number.mul (to_number (Args.amount a))
              (Math_pow (Number.of_Z 10) (mint_decimals mintInfo))) = Some raw ->
         issues_only OpMintTo raw tokenMintPubkey tr
           (run w (handleMintTokens (Some a) st) tr)
         /\ forall destinationTokenAccount acct,
              getAssociatedTokenAddress tokenMintPubkey destinationPubkey
              = Normal destinationTokenAccount ->
              (forall tr' c,
                  answer w _ tr' (getAccount c destinationTokenAccount)
                  = SettlesAt t (Fulfilled acct)) ->
              issues OpMintTo raw tokenMintPubkey tr
                (run w (handleMintTokens (Some a) st) tr))
  /\ (forall (w : World) (st : State) (a : Args.t) (tr : list Event)
             (wallet : Wallet) (tokenMintPubkey : PublicKey)
             (mintInfo : Mint) (raw : Z) (t : N),
         connected st = true ->
         Map_get (wallets st) (Args.walletName a) = Some wallet ->
         PublicKey_new (Args.tokenMint a) = Normal tokenMintPubkey ->
         (forall tr' c,
             answer w _ tr' (getMint c tokenMintPubkey)
             = SettlesAt t (Fulfilled mintInfo)) ->
         Number.floorZ
           (Number.mul (to_number (Args.amount a))
              (Math_pow (Number.of_Z 10) (mint_decimals mintInfo))) = Some raw ->
         issues_only OpBurn raw tokenMintPubkey tr
           (run w (handleBurnTokens (Some a) st) tr)
         /\ forall tokenAccount,
              getAssociatedTokenAddress tokenMintPubkey (publicKey (keypair wallet))
              = Normal tokenAccount ->
              issues OpBurn raw tokenMintPubkey tr
                (run w (handleBurnTokens (Some a) st) tr))
  /\ (forall (w : World) (st : State) (a : Args.t) (tr : list Event)
             (wallet : Wallet) (tokenMintPubkey delegatePubkey : PublicKey)
             (mintInfo : Mint) (raw : Z) (t : N),
         connected st = true ->
         Map_get (wallets st) (Args.walletName a) = Some wallet ->
         PublicKey_new (Args.tokenMint a) = Normal tokenMintPubkey ->
         PublicKey_new (Args.delegateAddress a) = Normal delegatePubkey ->
         (forall tr' c,
             answer w _ tr' (getMint c tokenMintPubkey)
             = SettlesAt t (Fulfilled mintInfo)) ->
         Number.floorZ
           (Number.mul (to_number (Args.amount a))
              (Math_pow (Number.of_Z 10) (mint_decimals mintInfo))) = Some raw ->
         issues_only OpApprove raw tokenMintPubkey tr
           (run w (handleApproveDelegate (Some a) st) tr)
         /\ forall tokenAccount,
              getAssociatedTokenAddress tokenMintPubkey (publicKey (keypair wallet))
              = Normal tokenAccount ->
              issues OpApprove raw tokenMintPubkey tr
                (run w (handleApproveDelegate (Some a) st) tr)).
Proof.
  split; [exact transfer_tokens_never_fetches_mint |].
  split; [| split; [| split]].
  - intros w st a tr wallet tokenMintPubkey toPubkey fromTokenAccount toTokenAccount
           rawAmount probe blockhash t Hconn Hw Hmint Hto Hfrom Hdest Hraw Hfits
           Hprobe Hbh.
    apply Number_BigInt_floor in Hraw.
    destruct (transfer_tokens_calls w st a tr wallet tokenMintPubkey toPubkey
                fromTokenAccount toTokenAccount rawAmount probe blockhash t
                Hconn Hw Hmint Hto Hfrom Hdest Hraw Hfits Hprobe Hbh) as (c & o & ->).
    eexists. split; [read_sent; reflexivity |].
    destruct probe; reflexivity.
  - intros w st a tr wallet tokenMintPubkey destinationPubkey mintInfo raw t
           Hconn Hw Hmint Hdest Hinfo Hraw.
    split; [exact (mint_tokens_amount w st a tr wallet tokenMintPubkey destinationPubkey
                     mintInfo raw t Hconn Hw Hmint Hdest Hinfo Hraw) |].
    intros destinationTokenAccount acct Hata Hprobe.
    exact (mint_tokens_issues w st a tr wallet tokenMintPubkey destinationPubkey
             destinationTokenAccount mintInfo acct raw t
             Hconn Hw Hmint Hdest Hinfo Hraw Hata Hprobe).
  - intros w st a tr wallet tokenMintPubkey mintInfo raw t Hconn Hw Hmint Hinfo Hraw.
    split; [exact (burn_tokens_amount w st a tr wallet tokenMintPubkey mintInfo raw t
                     Hconn Hw Hmint Hinfo Hraw) |].
    intros tokenAccount Hata.
    exact (burn_tokens_issues w st a tr wallet tokenMintPubkey tokenAccount mintInfo
             raw t Hconn Hw Hmint Hinfo Hraw Hata).
  - intros w st a tr wallet tokenMintPubkey delegatePubkey mintInfo raw t
           Hconn Hw Hmint Hdel Hinfo Hraw.
    split; [exact (approve_delegate_amount w st a tr wallet tokenMintPubkey
                     delegatePubkey mintInfo raw t Hconn Hw Hmint Hdel Hinfo Hraw) |].
    intros tokenAccount Hata.
    exact (approve_delegate_issues w st a tr wallet tokenMintPubkey delegatePubkey
             tokenAccount mintInfo raw t Hconn Hw Hmint Hdel Hinfo Hraw Hata).
Qed.

Lemma withTimeout_never {X} (timeoutMs : N) :
  withTimeout (@Never X) (Some timeoutMs) = SettlesAt timeoutMs (Rejected timed_out).
Proof. reflexivity. Qed.

Lemma withTimeout_late {X} (ms timeoutMs : N) (o : Settled X) :
  (timeoutMs < ms)%N ->
  withTimeout (SettlesAt ms o) (Some timeoutMs) = SettlesAt timeoutMs (Rejected timed_out).
Proof.
  intros H. unfold withTimeout, Promise_race. cbn [default from_option id].
  destruct (N.leb_spec ms timeoutMs); [lia | reflexivity].
Qed.

Lemma withTimeout_early {X} (ms timeoutMs : N) (o : Settled X) :
  (ms < timeoutMs)%N ->
  withTimeout (SettlesAt ms o) (Some timeoutMs) = SettlesAt ms o.
Proof.
  intros H. unfold withTimeout, Promise_race. cbn [default from_option id].
  destruct (N.leb_spec ms timeoutMs); [reflexivity | lia].
Qed.

(** The health check awaits [withTimeout(connection.getVersion(), 5000)]
    and nothing else, so it always answers. *)
Lemma health_check_run (w : World) (st : State) (tr : list Event) (c : Connection) :
  connection (ensured st) = Some c ->
  let timestamp := host w _ tr Date_toISOString in
  let tr1 := tr ++ [Performed Date_toISOString timestamp] in
  run w (handleHealthCheck st) tr
  = match withTimeout (answer w _ tr1 (getVersion c)) (Some 5000%N) with
    | Never => Hung (tr1 ++ [Called (getVersion c) None])
    | SettlesAt _ (Fulfilled version) =>
        Finished
          (Normal (VObj [ ("status", VStr "healthy");
                          ("checks", health_checks st "healthy" timestamp);
                          ("solanaVersion", VStr (solana_core version)) ]),
           ensured st)
          (tr1 ++ [Called (getVersion c) (Some (Fulfilled version))])
    | SettlesAt _ (Rejected error) =>
        Finished
          (Normal (VObj [ ("status", VStr "degraded");
                          ("checks", health_checks st "unhealthy" timestamp);
                          ("error", VStr (message_or error (fun _ => "Unknown error"))) ]),
           ensured st)
          (tr1 ++ [Called (getVersion c) (Some (Rejected error))])
    end.
Proof.
  intros Hc. cbv zeta. unfold handleHealthCheck.
  exec. rewrite run_try_catch, run_ensure_then. exec. rewrite Hc. exec.
  destruct (withTimeout _ _) as [| ms [version | error]]; reflexivity.
Qed.

(** C6. A promise wrapped by [withTimeout] that never settles, or that
    settles only after the deadline, is rejected with "Operation timed
    out" at the deadline; one that settles before the deadline keeps its
    time and its outcome.  Without a second argument the deadline is
    10000 ms.  The health check guards [getVersion] with a deadline of
    exactly 5000 ms: when that call never settles, or settles after more
    than 5000 ms, the check still answers, with status "degraded" and
    the time-out message; when the call settles in less than 5000 ms the
    check reports its outcome, "healthy" with the version it was
    fulfilled with, or "degraded" with the message it was rejected
    with. *)
Theorem C6_withTimeout_races_the_deadline :
  (forall (X : Type) (promise : Promise X) (timeoutMs : N),
      match promise with
      | Never =>
          withTimeout promise (Some timeoutMs)
          = SettlesAt timeoutMs (Rejected timed_out)
      | SettlesAt ms o =>
          ((timeoutMs < ms)%N ->
           withTimeout promise (Some timeoutMs)
           = SettlesAt timeoutMs (Rejected timed_out))
          /\ ((ms < timeoutMs)%N ->
              withTimeout promise (Some timeoutMs) = promise)
      end)
  /\ (forall (X : Type) (promise : Promise X),
         withTimeout promise None = withTimeout promise (Some 10000%N))
  /\ (forall (w : World) (st : State) (tr : list Event) (c : Connection),
         connection (ensured st) = Some c ->
         let timestamp := host w _ tr Date_toISOString in
         let tr1 := tr ++ [Performed Date_toISOString timestamp] in
         let timed_out_answer :=
           Finished
             (Normal (VObj [ ("status", VStr "degraded");
                             ("checks", health_checks st "unhealthy" timestamp);
                             ("error", VStr "Operation timed out") ]),
              ensured st)
             (tr1 ++ [Called (getVersion c) (Some (Rejected timed_out))]) in
         match answer w _ tr1 (getVersion c) with
         | Never => run w (handleHealthCheck st) tr = timed_out_answer
         | SettlesAt ms o =>
             ((5000 < ms)%N -> run w (handleHealthCheck st) tr = timed_out_answer)
             /\ ((ms < 5000)%N ->
                 run w (handleHealthCheck st) tr
                 = Finished
                     (Normal
                        match o with
                        | Fulfilled version =>
                            VObj [ ("status", VStr "healthy");
                                   ("checks", health_checks st "healthy" timestamp);
                                   ("solanaVersion", VStr (solana_core version)) ]
                        | Rejected error =>
                            VObj [ ("status", VStr "degraded");
                                   ("checks", health_checks st "unhealthy" timestamp);
                                   ("error",
                                    VStr (message_or error (fun _ => "Unknown error"))) ]
                        end,
                      ensured st)
                     (tr1 ++ [Called (getVersion c) (Some o)]))
         end).
Proof.
  split; [| split].
  - intros X [| ms o] timeoutMs.
    + apply withTimeout_never.
    + split; [apply withTimeout_late | apply withTimeout_early].
  - reflexivity.
  - intros w st tr c Hc timestamp tr1 timed_out_answer.
    pose proof (health_check_run w st tr c Hc) as Hrun. cbv zeta in Hrun.
    fold timestamp in Hrun. fold tr1 in Hrun. rewrite Hrun.
    destruct (answer w _ tr1 (getVersion c)) as [| ms o].
    + rewrite withTimeout_never. reflexivity.
    + split; intros Hms.
      * rewrite withTimeout_late by exact Hms. reflexivity.
      * rewrite withTimeout_early by exact Hms. destruct o; reflexivity.
Qed.

Lemma switch_unregistered (name : string) (args : option Args.t) :
  name ∉ tools ->
  switch name args = throw (unknown_tool name).
Proof.
  intros Hname. unfold switch.
  repeat match goal with
         | |- context [String.eqb name ?s] =>
             destruct (String.eqb_spec name s) as [-> |];
             [exfalso; apply Hname; apply (bool_decide_unpack _); vm_compute; exact I |]
         end.
  reflexivity.
Qed.

(** The call-tool handler wraps whatever the selected handler does. *)
Lemma CallToolRequest_handler_run (w : World) (request : Request) st tr :
  run w (CallToolRequest_handler request st) tr
  = match run w (switch (req_name request) (req_arguments request) st) tr with
    | Finished (Normal result, st') tr' =>
        Finished (Normal (success_envelope result), st') tr'
    | Finished (Abrupt error, st') tr' =>
        Finished (Normal (error_envelope error), st') tr'
    | Hung tr' => Hung tr'
    end.
Proof.
  unfold CallToolRequest_handler. rewrite run_try_catch, run_bind.
  destruct (run w (switch _ _ st) tr) as [[[result | error] st'] tr' | tr']; reflexivity.
Qed.

Lemma withTimeout_settles {X} (promise : Promise X) (timeoutMs : option N) :
  withTimeout promise timeoutMs <> Never.
Proof.
  unfold withTimeout, Promise_race.
  destruct promise as [| ms o]; [discriminate |].
  destruct (ms <=? _)%N; discriminate.
Qed.

Lemma promise_of_settles (w : World) (tr : list Event) {X} (c : Call X) (g : Guard) :
  responsive w -> guarded g (promise_of w tr c) <> Never.
Proof.
  intros Hw. destruct g as [| timeoutMs]; [| apply withTimeout_settles].
  cbn [guarded]. pose proof (Hw X tr c) as Hc.
  destruct c; try exact Hc. discriminate.
Qed.

(** Against a responsive world every program runs to its end. *)
Lemma run_finishes {R} (w : World) (p : Prog R) (tr : list Event) :
  responsive w -> exists r tr', run w p tr = Finished r tr'.
Proof.
  intros Hw. revert tr. induction p as [r | X e k IH | X c g k IH]; intros tr; cbn [run].
  - eauto.
  - apply IH.
  - pose proof (promise_of_settles w tr c g Hw) as Hs.
    destruct (guarded g (promise_of w tr c)) as [| ms o]; [congruence | apply IH].
Qed.

(** C8. For every request, registered tool or not, the call-tool handler
    never lets a failure escape as a protocol-level error: when the
    selected handler throws, the answer is a normal response whose single
    text item is "Error: " followed by the message and whose [isError] is
    true; when it returns, the answer is a normal response whose single
    text item is the JSON text of the result and which has no [isError];
    a name outside the registry is answered "Error: Unknown tool: <name>"
    without any effect.  The handler answers as soon as the selected
    handler settles, which it does whenever the calls it awaits settle. *)
Theorem C8_dispatch_envelopes
    (w : World) (request : Request) (st : State) (tr : list Event) :
  match run w (switch (req_name request) (req_arguments request) st) tr with
  | Finished (Normal result, st') tr' =>
      run w (CallToolRequest_handler request st) tr
      = Finished (Normal {| content := [ {| type := "text";
                                            text := JSON_stringify result |} ];
                            isError := None |}, st') tr'
  | Finished (Abrupt error, st') tr' =>
      run w (CallToolRequest_handler request st) tr
      = Finished (Normal {| content := [ {| type := "text";
                                            text := "Error: "
                                                    +:+ message_or error (fun s => s) |} ];
                            isError := Some true |}, st') tr'
  | Hung tr' => run w (CallToolRequest_handler request st) tr = Hung tr'
  end
  /\ (req_name request ∉ tools ->
      run w (CallToolRequest_handler request st) tr
      = Finished (Normal {| content := [ {| type := "text";
                                            text := "Error: Unknown tool: "
                                                    +:+ req_name request |} ];
                            isError := Some true |}, st) tr)
  /\ (responsive w ->
      exists response st' tr',
        run w (CallToolRequest_handler request st) tr
        = Finished (Normal response, st') tr'
        /\ ((exists result, response = success_envelope result)
            \/ (exists error, response = error_envelope error))).
Proof.
  split; [| split].
  - rewrite CallToolRequest_handler_run.
    destruct (run w (switch _ _ st) tr) as [[[result | error] st'] tr' | tr']; reflexivity.
  - intros Hname. rewrite CallToolRequest_handler_run.
    rewrite (switch_unregistered _ _ Hname). reflexivity.
  - intros Hw. rewrite CallToolRequest_handler_run.
    destruct (run_finishes w (switch (req_name request) (req_arguments request) st) tr Hw)
      as ([[result | error] st'] & tr' & ->); eauto 8.
Qed.

Lemma handleSwitchNetwork_run (w : World) (network : string) st tr :
  run w (handleSwitchNetwork (Some (network_args network)) st) tr
  = match Connection_refusal
            (js_or (NETWORKS_at process_env network) (VStr (NETWORKS_devnet process_env)))
    with
    | Some error => Finished (Abrupt error, renamed network st) tr
    | None =>
        Finished (Normal (VObj [ ("success", VBool true);
                                 ("network", VStr network);
                                 ("rpcUrl", NETWORKS_at process_env network) ]),
                  switched network st) tr
    end.
Proof.
  unfold handleSwitchNetwork. exec. rewrite run_bind, initializeConnection_eq.
  cbn [Args.network network_args default from_option id].
  destruct (Connection_refusal _); reflexivity.
Qed.

(** A name no object inherits never resolves to an inherited member. *)
Lemma NETWORKS_at_own (network : string) :
  network ∉ Object_prototype_members ->
  forall member, NETWORKS_at process_env network <> VNative member.
Proof.
  intros Hp member. unfold NETWORKS_at, get_property.
  destruct (Map_get (NETWORKS process_env) network); [discriminate |].
  rewrite bool_decide_eq_false_2 by exact Hp. discriminate.
Qed.

(** Away from the inherited names the switch succeeds. *)
Lemma handleSwitchNetwork_accepted (w : World) (network : string) st tr :
  (forall member, NETWORKS_at process_env network <> VNative member) ->
  run w (handleSwitchNetwork (Some (network_args network)) st) tr
  = Finished (Normal (VObj [ ("success", VBool true);
                             ("network", VStr network);
                             ("rpcUrl", NETWORKS_at process_env network) ]),
              switched network st) tr.
Proof.
  intros Hown. rewrite handleSwitchNetwork_run, (endpoint_accepted network Hown).
  reflexivity.
Qed.

Lemma NETWORKS_at_unrecognized (network : string) :
  network ∉ recognized_networks ->
  NETWORKS_at process_env network
  = if bool_decide (network ∈ Object_prototype_members)
    then VNative network else VUndefined.
Proof.
  intros Hn. unfold NETWORKS_at, get_property, NETWORKS. cbn [Map_get].
  repeat match goal with
         | |- context [decide (?s = network)] =>
             destruct (decide (s = network)) as [<- |];
             [exfalso; apply Hn; apply (bool_decide_unpack _); vm_compute; exact I |]
         end.
  destruct (bool_decide (network ∈ Object_prototype_members)); reflexivity.
Qed.

(** X2. switch_network to a recognized identifier builds the connection
    on the endpoint the registry resolves it to: the environment
    override of that network when there is a non-empty one, else the
    built-in endpoint; the custom slot has no built-in endpoint, and
    without an override it resolves to the empty string, which the
    handler reports as [rpcUrl] while the connection is built on the
    devnet endpoint.  The switch succeeds and names the identifier. *)
Theorem switch_network_resolves_the_registry
    (w : World) (network : string) (st : State) (tr : list Event) :
  network ∈ recognized_networks ->
  exists override builtin,
    (network, override, builtin)
    ∈ [ ("mainnet", SOLANA_MAINNET_RPC process_env, "https://api.mainnet-beta.solana.com");
        ("devnet", SOLANA_DEVNET_RPC process_env, "https://api.devnet.solana.com");
        ("testnet", SOLANA_TESTNET_RPC process_env, "https://api.testnet.solana.com");
        ("localhost", SOLANA_LOCALHOST_RPC process_env, "http://127.0.0.1:8899");
        ("custom", SOLANA_CUSTOM_RPC process_env, "") ]
    /\ let url :=
         match override with
         | Some given => if String.eqb given "" then builtin else given
         | None => builtin
         end in
       run w (handleSwitchNetwork (Some (network_args network)) st) tr
       = Finished (Normal (VObj [ ("success", VBool true);
                                  ("network", VStr network);
                                  ("rpcUrl", VStr url) ]),
                   {| wallets := wallets st;
                      currentNetwork := network;
                      connection :=
                        Some (connection_to
                                (VStr (if String.eqb url ""
                                       then NETWORKS_devnet process_env else url)));
                      connectionInitialized := connectionInitialized st |}) tr.
Proof.
  intros Hn.
  assert (Hown : forall member, NETWORKS_at process_env network <> VNative member).
  { intros member. unfold NETWORKS_at, get_property, NETWORKS. cbn [Map_get].
    repeat (apply elem_of_cons in Hn; destruct Hn as [-> | Hn]);
      [.. | apply elem_of_nil in Hn; contradiction].
    all: repeat first [rewrite decide_True by reflexivity
                      | rewrite decide_False by discriminate].
    all: discriminate. }
  rewrite (handleSwitchNetwork_accepted w network st tr Hown).
  repeat (apply elem_of_cons in Hn; destruct Hn as [-> | Hn]);
    [.. | apply elem_of_nil in Hn; contradiction].
  all: eexists; eexists.
  all: (split;
        [ repeat first [apply list_elem_of_here | apply list_elem_of_further] |]).
  all: cbv zeta; unfold switched, connection_to, js_or, NETWORKS_at, get_property,
         NETWORKS, or_else.
  all: cbn [Map_get].
  all: repeat first [rewrite decide_True by reflexivity
                    | rewrite decide_False by discriminate].
  all: cbn [truthy].
  all: match goal with
       | |- context [match ?o with Some _ => _ | None => _ end] => destruct o as [given |]
       end.
  all: repeat match goal with
              | |- context [String.eqb ?s ""] => destruct (String.eqb_spec s "")
              end.
  all: first [reflexivity | congruence].
Qed.

(** X3. An identifier that is neither recognized nor the name of a member
    every object inherits falls back to the devnet endpoint: the switch
    succeeds, the current network takes the identifier as given, and the
    reported [rpcUrl] is [undefined]. *)
Lemma switch_network_falls_back (w : World) (network : string) st tr :
  network ∉ recognized_networks ->
  network ∉ Object_prototype_members ->
  run w (handleSwitchNetwork (Some (network_args network)) st) tr
  = Finished (Normal (VObj [ ("success", VBool true);
                             ("network", VStr network);
                             ("rpcUrl", VUndefined) ]),
              {| wallets := wallets st;
                 currentNetwork := network;
                 connection := Some (connection_to (VStr (NETWORKS_devnet process_env)));
                 connectionInitialized := connectionInitialized st |}) tr.
Proof.
  intros Hn Hp.
  rewrite (handleSwitchNetwork_accepted w network st tr (NETWORKS_at_own network Hp)).
  unfold switched.
  rewrite (NETWORKS_at_unrecognized network Hn).
  rewrite bool_decide_eq_false_2 by exact Hp. reflexivity.
Qed.

(** C9. At the identifier "constructor", and at every other name of a
    member that objects inherit from [Object.prototype], none of which is
    a recognized network, switch_network neither succeeds nor falls back
    to devnet: [NETWORKS[name]] is the inherited member, a truthy value,
    so [|| NETWORKS.devnet] is skipped and [new Connection] is handed a
    value that is no URL and throws.  The call is answered with an error
    response, the connection stays the one there was, and the current
    network reads the name all the same. *)
Theorem C9_switch_network_inherited_name
    (w : World) (st : State) (tr : list Event) :
  ("constructor" ∈ Object_prototype_members)
  /\ Forall
       (fun network =>
          (network ∉ recognized_networks)
          /\ (exists error,
               Connection_refusal (VNative network) = Some error
               /\ run w (CallToolRequest_handler (switch_network_request network) st) tr
                  = Finished
                      (Normal {| content := [ {| type := "text";
                                                 text := "Error: "
                                                         +:+ message_or error (fun s => s) |} ];
                                 isError := Some true |},
                       {| wallets := wallets st;
                          currentNetwork := network;
                          connection := connection st;
                          connectionInitialized := connectionInitialized st |}) tr))
       Object_prototype_members.
Proof.
  split; [apply (bool_decide_unpack _); vm_compute; exact I |].
  apply Forall_forall. intros network Hmember.
  assert (Hn : network ∉ recognized_networks).
  { revert network Hmember. apply Forall_forall.
    apply (bool_decide_unpack _). vm_compute. exact I. }
  split; [exact Hn |].
  destruct (Connection_refusal (VNative network)) as [error |] eqn:Herror;
    [| exfalso; exact (Connection_refuses network Herror)].
  exists error. split; [reflexivity |].
  rewrite CallToolRequest_handler_run. unfold switch_network_request.
  cbn [req_name req_arguments].
  change (switch "switch_network" (Some (network_args network)))
    with (handleSwitchNetwork (Some (network_args network))).
  rewrite handleSwitchNetwork_run, (NETWORKS_at_unrecognized network Hn).
  rewrite bool_decide_eq_true_2 by exact Hmember.
  unfold js_or. cbn [truthy]. rewrite Herror. reflexivity.
Qed.

(** Once [ensureConnection] has run, a switch stays in force. *)
Lemma switch_network_sticks (network : string) st :
  connectionInitialized st = true ->
  ensured (switched network st) = switched network st.
Proof. intros H. unfold ensured, switched. cbn. rewrite H. reflexivity. Qed.

(** X4. Once [ensureConnection] has run, a switch to a name that is not
    one every object inherits is kept: switch_network(X) followed by
    get_recent_blockhash asks the blockhash of the connection built for
    X and reports X as the network. *)
Theorem switch_network_kept_once_initialized
    (w : World) (network : string) (st : State) (tr : list Event) :
  connectionInitialized st = true ->
  network ∉ Object_prototype_members ->
  serve w [ switch_network_request network;
            {| req_name := "get_recent_blockhash"; req_arguments := Some Args.empty |} ]
    st tr
  = let c :=
      connection_to
        (js_or (NETWORKS_at process_env network) (VStr (NETWORKS_devnet process_env))) in
    let switched_answer :=
      Normal (success_envelope
                (VObj [ ("success", VBool true);
                        ("network", VStr network);
                        ("rpcUrl", NETWORKS_at process_env network) ])) in
    match answer w _ tr (getLatestBlockhash c) with
    | Never => Hung (tr ++ [Called (getLatestBlockhash c) None])
    | SettlesAt _ (Fulfilled blockhash) =>
        Finished
          ([ switched_answer;
             Normal (success_envelope
                       (VObj [ ("blockhash", VStr blockhash);
                               ("network", VStr network) ])) ],
           switched network st)
          (tr ++ [Called (getLatestBlockhash c) (Some (Fulfilled blockhash))])
    | SettlesAt _ (Rejected error) =>
        Finished ([ switched_answer; Normal (error_envelope error) ], switched network st)
          (tr ++ [Called (getLatestBlockhash c) (Some (Rejected error))])
    end.
Proof.
  intros Hinit Hp. cbv zeta.
  cbn [serve]. rewrite !CallToolRequest_handler_run.
  unfold switch_network_request. cbn [req_name req_arguments].
  change (switch "switch_network" (Some (network_args network)))
    with (handleSwitchNetwork (Some (network_args network))).
  rewrite (handleSwitchNetwork_accepted w network st tr (NETWORKS_at_own network Hp)).
  rewrite CallToolRequest_handler_run. cbn [req_name req_arguments].
  change (switch "get_recent_blockhash" (Some Args.empty)) with handleGetRecentBlockhash.
  unfold handleGetRecentBlockhash. rewrite run_ensure_then.
  rewrite (switch_network_sticks network st Hinit).
  unfold switched at 1 2 3. exec.
  destruct (answer w string tr (getLatestBlockhash _)) as [| ms [blockhash | error]];
    reflexivity.
Qed.

(** C2. In a fresh process, switch_network("mainnet") followed by
    get_recent_blockhash: the switch answers network "mainnet", but it
    leaves [connectionInitialized] false, so the [ensureConnection] of the
    second handler initializes the connection again with the default.
    The blockhash is asked of the devnet connection, the answer reports
    network "devnet", and the module ends up on devnet. *)
Theorem C2_first_switch_is_undone (w : World) :
  serve w [ switch_network_request "mainnet";
            {| req_name := "get_recent_blockhash"; req_arguments := Some Args.empty |} ]
    initial_state []
  = let switched_answer :=
      Normal (success_envelope
                (VObj [ ("success", VBool true);
                        ("network", VStr "mainnet");
                        ("rpcUrl", NETWORKS_at process_env "mainnet") ])) in
    let on_devnet :=
      {| wallets := [];
         currentNetwork := "devnet";
         connection := Some devnet_connection;
         connectionInitialized := true |} in
    match answer w _ [] (getLatestBlockhash devnet_connection) with
    | Never => Hung [Called (getLatestBlockhash devnet_connection) None]
    | SettlesAt _ (Fulfilled blockhash) =>
        Finished
          ([ switched_answer;
             Normal (success_envelope
                       (VObj [ ("blockhash", VStr blockhash);
                               ("network", VStr "devnet") ])) ],
           on_devnet)
          [Called (getLatestBlockhash devnet_connection) (Some (Fulfilled blockhash))]
    | SettlesAt _ (Rejected error) =>
        Finished ([ switched_answer; Normal (error_envelope error) ], on_devnet)
          [Called (getLatestBlockhash devnet_connection) (Some (Rejected error))]
    end.
Proof.
  cbn [serve]. rewrite !CallToolRequest_handler_run.
  unfold switch_network_request. cbn [req_name req_arguments].
  change (switch "switch_network" (Some (network_args "mainnet")))
    with (handleSwitchNetwork (Some (network_args "mainnet"))).
  rewrite (handleSwitchNetwork_accepted w "mainnet" initial_state []) by discriminate.
  rewrite CallToolRequest_handler_run. cbn [req_name req_arguments].
  change (switch "get_recent_blockhash" (Some Args.empty)) with handleGetRecentBlockhash.
  unfold handleGetRecentBlockhash. rewrite run_ensure_then.
  change (ensured (switched "mainnet" initial_state))
    with {| wallets := [];
            currentNetwork := "devnet";
            connection := Some devnet_connection;
            connectionInitialized := true |}.
  exec. cbn [app].
  destruct (answer w string [] (getLatestBlockhash devnet_connection))
    as [| ms [blockhash | error]]; reflexivity.
Qed.

Ltac find_wallet H :=
  let wallet := fresh "wallet" in
  let Hw := fresh "Hw" in
  specialize (H _ eq_refl); unfold Map_has in H;
  match type of H with
  | context [Map_get ?m ?k] =>
      destruct (Map_get m k) as [wallet |] eqn:Hw; [clear H | discriminate H]
  end.

Ltac parse_cases Hfail :=
  repeat (exec; rewrite ?run_ensure_then;
          match type of Hfail with
          | context [PublicKey_new ?s] => destruct (PublicKey_new s) eqn:?
          | context [if ?b then _ else _] => destruct b eqn:?
          end;
          cbn [first_parse_failure] in Hfail);
  exec; rewrite ?run_ensure_then; exec;
  first [discriminate Hfail | injection Hfail as <-; reflexivity].

Ltac select_handler :=
  match goal with
  | |- context [switch ?n ?args] =>
      let h := eval lazy beta iota zeta delta
                 [switch String.eqb Ascii.eqb Bool.eqb andb] in (switch n args) in
      change (switch n args) with h
  end.

Lemma address_uses_surface : Forall parse_failure_surfaces address_uses.
Proof.
  unfold address_uses.
  repeat (apply List.Forall_cons); try apply List.Forall_nil.
  all: intros w a st tr error Hwallet Hfail.
  all: cbn [au_tool au_wallet au_parsed first_parse_failure] in *.
  all: rewrite CallToolRequest_handler_run; cbn [req_name req_arguments].
  all: try find_wallet Hwallet.
  all: select_handler.
  all: unfold handleTransferSol, handleTransferTokens, handleGetAccountInfo,
         handleCreateTokenAccount, handleMintTokens, handleBurnTokens,
         handleFreezeAccount, handleThawAccount, handleSetTokenAuthority,
         handleGetTokenSupply, handleCloseTokenAccount, handleApproveDelegate,
         handleRevokeDelegate.
  all: exec; try match goal with H : Map_get _ _ = Some _ |- _ => rewrite H end.
  all: parse_cases Hfail.
Qed.

(** get_token_balance parses the mint inside its [try]: a malformed mint
    ends in the [catch], which answers the zero-balance payload. *)
Lemma get_token_balance_swallows
    (w : World) (a : Args.t) (st : State) (tr : list Event) (error : Thrown) :
  Map_has (wallets st) (Args.walletName a) = true ->
  PublicKey_new (Args.tokenMint a) = Abrupt error ->
  run w (CallToolRequest_handler
           {| req_name := "get_token_balance"; req_arguments := Some a |} st) tr
  = Finished
      (Normal (success_envelope
                 (VObj [ ("wallet", opt_str (Args.walletName a));
                         ("tokenMint", opt_str (Args.tokenMint a));
                         ("balance", VStr "0");
                         ("error",
                          VStr "Token account not found or error retrieving balance") ])),
       ensured st) tr.
Proof.
  intros Hwallet Hmint. unfold Map_has in Hwallet.
  destruct (Map_get (wallets st) (Args.walletName a)) as [wallet |] eqn:Hw;
    [| discriminate].
  rewrite CallToolRequest_handler_run; cbn [req_name req_arguments]. select_handler.
  unfold handleGetTokenBalance. exec. rewrite Hw. exec.
  rewrite run_ensure_then, run_try_catch. exec. rewrite Hmint. reflexivity.
Qed.

(** get_token_info compares the mint as a string and never parses it;
    everything after the destructuring sits in a [try] whose [catch]
    returns. *)
Lemma get_token_info_never_throws
    (w : World) (a : Args.t) (st : State) (tr : list Event) :
  match run w (handleGetTokenInfo (Some a) st) tr with
  | Finished (Abrupt _, _) _ => False
  | _ => True
  end.
Proof.
  unfold handleGetTokenInfo. rewrite run_bind. cbn [run destructure ret].
  rewrite run_try_catch.
  destruct (run w _ tr) as [[[result | error] st'] tr' |]; exact I.
Qed.

(** C7. For each of transfer_sol, transfer_tokens,
    get_account_info, create_token_account, mint_tokens, burn_tokens,
    freeze_account, thaw_account, set_token_authority, get_token_supply,
    close_token_account, approve_delegate and revoke_delegate: once the
    wallet the handler looks up is found, the first malformed address or
    mint string makes the call fail with the failure of [new PublicKey],
    delivered as an error response, and nothing is asked of the ledger
    (set_token_authority parses [newAuthority] only when it is
    non-empty).  get_token_balance instead answers its zero-balance
    payload, which is not an error response; get_token_info never parses
    the mint and never throws. *)
Theorem C7_parse_failure_surfaces_outside_try :
  (forall (u : AddressUse) (w : World) (a : Args.t) (st : State) (tr : list Event)
          (error : Thrown),
      u ∈ address_uses ->
      (forall n, au_wallet u a = Some n -> Map_has (wallets st) n = true) ->
      first_parse_failure (au_parsed u a) = Some error ->
      run w (CallToolRequest_handler
               {| req_name := au_tool u; req_arguments := Some a |} st) tr
      = Finished (Normal (error_envelope error), ensured st) tr)
  /\ (forall (w : World) (a : Args.t) (st : State) (tr : list Event) (error : Thrown),
         Map_has (wallets st) (Args.walletName a) = true ->
         PublicKey_new (Args.tokenMint a) = Abrupt error ->
         run w (CallToolRequest_handler
                  {| req_name := "get_token_balance"; req_arguments := Some a |} st) tr
         = Finished
             (Normal
                {| content :=
                     [ {| type := "text";
                          text :=
                            JSON_stringify
                              (VObj [ ("wallet", opt_str (Args.walletName a));
                                      ("tokenMint", opt_str (Args.tokenMint a));
                                      ("balance", VStr "0");
                                      ("error",
                                       VStr "Token account not found or error retrieving balance") ]) |} ];
                   isError := None |},
              ensured st) tr)
  /\ (forall (w : World) (a : Args.t) (st : State) (tr : list Event),
         match run w (handleGetTokenInfo (Some a) st) tr with
         | Finished (Abrupt _, _) _ => False
         | _ => True
         end).
Proof.
  split; [| split].
  - intros u w a st tr error Hu.
    pose proof address_uses_surface as Hall.
    rewrite List.Forall_forall in Hall.
    apply (Hall u). apply list_elem_of_In. exact Hu.
  - exact get_token_balance_swallows.
  - exact get_token_info_never_throws.
Qed.


(** ** What the handlers may do *)

Lemma always_mono {R} (Pc : forall X, Call X -> Guard -> Prop) (P Q : R -> Prop)
    (p : Prog R) :
  (forall r, P r -> Q r) -> always Pc P p -> always Pc Q p.
Proof.
  intros HPQ. induction p as [r | X e k IH | X c g k IH]; cbn.
  - apply HPQ.
  - intros Hk x. apply IH, Hk.
  - intros [Hc Hk]. split; [exact Hc | intros o; apply IH, Hk].
Qed.

Lemma always_Prog_bind {R S} (Pc : forall X, Call X -> Guard -> Prop)
    (P : R -> Prop) (Q : S -> Prop) (p : Prog R) (f : R -> Prog S) :
  always Pc P p -> (forall r, P r -> always Pc Q (f r)) ->
  always Pc Q (Prog_bind p f).
Proof.
  intros Hp Hf. induction p as [r | X e k IH | X c g k IH]; cbn in *.
  - apply Hf, Hp.
  - intros x. apply IH, Hp.
  - destruct Hp as [Hc Hk]. split; [exact Hc | intros o; apply IH, Hk].
Qed.

(** What [always] says of a run: the events it adds and its result. *)
Lemma run_always {R} (Pc : forall X, Call X -> Guard -> Prop) (Pr : R -> Prop)
    (Qe : Event -> Prop) (w : World) (p : Prog R) (tr : list Event) :
  (forall X (c : Call X) g o, Pc X c g -> Qe (Called c o)) ->
  (forall X (e : Effect X) x, Qe (Performed e x)) ->
  always Pc Pr p ->
  exists events,
    trace_of (run w p tr) = tr ++ events
    /\ Forall Qe events
    /\ match run w p tr with
       | Finished r _ => Pr r
       | Hung _ => True
       end.
Proof.
  intros Hcall Heff. revert tr.
  induction p as [r | X e k IH | X c g k IH]; intros tr Hp; cbn in *.
  - exists []. rewrite app_nil_r. auto.
  - destruct (IH (host w X tr e) (tr ++ [Performed e (host w X tr e)]) (Hp _))
      as (evs & Htr & Hevs & Hr).
    exists (Performed e (host w X tr e) :: evs).
    rewrite Htr, <- app_assoc. auto.
  - destruct Hp as [Hc Hk].
    destruct (guarded g (promise_of w tr c)) as [| ms o].
    + exists [Called c None]. cbn. eauto.
    + destruct (IH o (tr ++ [Called c (Some o)]) (Hk o)) as (evs & Htr & Hevs & Hr).
      exists (Called c (Some o) :: evs).
      rewrite Htr, <- app_assoc. eauto.
Qed.

(** A program all of whose awaits are bounded finishes in every world. *)
Lemma run_bounded {R} (Pr : R -> Prop) (w : World) (p : Prog R) (tr : list Event) :
  always bounded_call Pr p ->
  exists r tr', run w p tr = Finished r tr' /\ Pr r.
Proof.
  revert tr. induction p as [r | X e k IH | X c g k IH]; intros tr Hp; cbn in *.
  - eauto.
  - apply IH, Hp.
  - destruct Hp as [Hc Hk]. unfold bounded_call, bounded in Hc.
    destruct g as [| timeoutMs].
    + destruct c; try discriminate Hc. cbn. apply IH, Hk.
    + cbn [guarded].
      pose proof (withTimeout_settles (promise_of w tr c) timeoutMs) as Hs.
      destruct (withTimeout (promise_of w tr c) timeoutMs) as [| ms o];
        [congruence | apply IH, Hk].
Qed.

Section AlwaysFrom.
Context (Pc : forall X, Call X -> Guard -> Prop) (Rel : State -> State -> Prop).
Context `{!PreOrder Rel}.
Local Set Default Proof Using "All".

Lemma always_from_ret {A} (a : A) st : always_from Pc Rel (ret a) st.
Proof. unfold always_from. cbn. reflexivity. Qed.

Lemma always_from_throw {A} (t : Thrown) st : always_from Pc Rel (@throw _ A t) st.
Proof. unfold always_from. cbn. reflexivity. Qed.

Lemma always_from_lift {A} (r : Completion A) st : always_from Pc Rel (lift r) st.
Proof. destruct r; [apply always_from_ret | apply always_from_throw]. Qed.

Lemma always_from_destructure first args st :
  always_from Pc Rel (destructure first args) st.
Proof. destruct args; [apply always_from_ret | apply always_from_throw]. Qed.

Lemma always_from_get_state st : always_from Pc Rel get_state st.
Proof. unfold always_from. cbn. reflexivity. Qed.

Lemma always_from_get_wallet walletName st :
  always_from Pc Rel (get_wallet walletName) st.
Proof.
  unfold always_from, get_wallet. cbn.
  destruct (Map_get (wallets st) walletName); cbn; reflexivity.
Qed.

Lemma always_from_the_connection method st :
  always_from Pc Rel (the_connection method) st.
Proof.
  unfold always_from, the_connection. cbn.
  destruct (connection st); cbn; reflexivity.
Qed.

Lemma always_from_explorerUrl kind id st :
  always_from Pc Rel (explorerUrl kind id) st.
Proof. unfold always_from. cbn. reflexivity. Qed.

Lemma always_from_to_BigInt x st : always_from Pc Rel (to_BigInt x) st.
Proof.
  unfold to_BigInt. destruct (Number.BigInt x);
    [apply always_from_ret | apply always_from_throw].
Qed.

Lemma always_from_scaled_amount amount decimals st :
  always_from Pc Rel (scaled_amount amount decimals) st.
Proof. apply always_from_to_BigInt. Qed.

Lemma always_from_perform {X} (e : Effect X) st : always_from Pc Rel (perform e) st.
Proof. unfold always_from. cbn. intros x. reflexivity. Qed.

Lemma always_from_await_guarded {X} (g : Guard) (c : Call X) st :
  Pc X c g -> always_from Pc Rel (await_guarded g c) st.
Proof.
  intros Hc. unfold always_from. cbn. split; [exact Hc |].
  intros [x | t]; cbn; reflexivity.
Qed.

Lemma always_from_wallets_set key wallet st :
  Rel st {| wallets := Map_set (wallets st) key wallet;
            currentNetwork := currentNetwork st;
            connection := connection st;
            connectionInitialized := connectionInitialized st |} ->
  always_from Pc Rel (wallets_set key wallet) st.
Proof. intros H. exact H. Qed.

Lemma always_from_ensureConnection st :
  Rel st (ensured st) -> always_from Pc Rel ensureConnection st.
Proof. intros H. unfold always_from. rewrite ensureConnection_eq. exact H. Qed.

Lemma always_from_initializeConnection network st :
  Rel st (switched (default "devnet" network) st) ->
  Rel st (renamed (default "devnet" network) st) ->
  always_from Pc Rel (initializeConnection network) st.
Proof.
  intros Hswitched Hrenamed. unfold always_from. rewrite initializeConnection_eq.
  destruct (Connection_refusal _); [exact Hrenamed | exact Hswitched].
Qed.

Lemma always_from_bind {A B} (m : M A) (f : A -> M B) st :
  always_from Pc Rel m st ->
  (forall a st', Rel st st' -> always_from Pc Rel (f a) st') ->
  always_from Pc Rel (bind m f) st.
Proof.
  intros Hm Hf. unfold always_from, bind.
  eapply always_Prog_bind; [exact Hm |].
  intros [[a | t] st'] Hst; cbn in Hst |- *.
  - eapply always_mono; [| apply Hf, Hst].
    intros r Hr. etransitivity; eassumption.
  - exact Hst.
Qed.

Lemma always_from_bind_ret {A B} (a : A) (f : A -> M B) st :
  always_from Pc Rel (f a) st -> always_from Pc Rel (bind (ret a) f) st.
Proof. intros H. exact H. Qed.

Lemma always_from_bind_get_wallet {B} walletName (f : Wallet -> M B) st :
  (forall wallet,
      Map_get (wallets st) walletName = Some wallet -> always_from Pc Rel (f wallet) st) ->
  always_from Pc Rel (bind (get_wallet walletName) f) st.
Proof.
  intros Hf. unfold always_from, bind, get_wallet. cbn.
  destruct (Map_get (wallets st) walletName) as [wallet |]; cbn.
  - apply Hf. reflexivity.
  - reflexivity.
Qed.

Lemma always_from_try_catch {A} (m : M A) (h : Thrown -> M A) st :
  always_from Pc Rel m st ->
  (forall t st', Rel st st' -> always_from Pc Rel (h t) st') ->
  always_from Pc Rel (try_catch m h) st.
Proof.
  intros Hm Hh. unfold always_from, try_catch.
  eapply always_Prog_bind; [exact Hm |].
  intros [[a | t] st'] Hst; cbn in Hst |- *.
  - exact Hst.
  - eapply always_mono; [| apply Hh, Hst].
    intros r Hr. etransitivity; eassumption.
Qed.

Lemma always_from_mapM {A B} (f : A -> M B) (l : list A) st :
  (forall a st', Rel st st' -> always_from Pc Rel (f a) st') ->
  always_from Pc Rel (mapM f l) st.
Proof.
  revert st. induction l as [| a l IH]; intros st Hf; cbn [mapM].
  - apply always_from_ret.
  - apply always_from_bind; [apply Hf; reflexivity |].
    intros b st' Hst. apply always_from_bind.
    + apply IH. intros a' st'' Hst'. apply Hf. etransitivity; eassumption.
    + intros bs st'' Hst'. apply always_from_ret.
Qed.

End AlwaysFrom.

#[local] Instance any_state_PreOrder : PreOrder any_state.
Proof. split; [intros st; exact I | intros a b c _ _; exact I]. Qed.

#[local] Instance same_wallets_PreOrder : PreOrder same_wallets.
Proof.
  split; [intros st; reflexivity |].
  intros a b c Hab Hbc. unfold same_wallets in *. congruence.
Qed.

#[local] Instance keeps_wallets_PreOrder : PreOrder keeps_wallets.
Proof.
  split; [intros st key wallet H; exact H |].
  intros a b c Hab Hbc key wallet H. apply Hbc, Hab, H.
Qed.

Lemma same_wallets_ensured st : same_wallets st (ensured st).
Proof. unfold same_wallets, ensured. destruct (connectionInitialized st); reflexivity. Qed.

Lemma same_wallets_switched network st : same_wallets st (switched network st).
Proof. reflexivity. Qed.

Lemma same_wallets_renamed network st : same_wallets st (renamed network st).
Proof. reflexivity. Qed.

(** One step through a handler's body. *)
Ltac chain_step :=
  lazymatch goal with
  | |- always_from ?Pc ?Rel (bind (ret _) _) _ =>
      apply (always_from_bind_ret Pc Rel); cbv beta zeta
  | |- always_from ?Pc ?Rel (bind (get_wallet _) _) _ =>
      apply (always_from_bind_get_wallet Pc Rel); intros ? ?; cbv beta zeta
  | |- always_from ?Pc ?Rel (bind _ _) _ =>
      apply (always_from_bind Pc Rel); [| intros ? ? ?; cbv beta zeta]
  | |- always_from ?Pc ?Rel (try_catch _ _) _ =>
      apply (always_from_try_catch Pc Rel); [| intros ? ? ?; cbv beta zeta]
  | |- always_from ?Pc ?Rel (mapM _ _) _ =>
      apply (always_from_mapM Pc Rel); intros ? ? ?; cbv beta zeta
  | |- always_from ?Pc ?Rel (ret _) _ => apply (always_from_ret Pc Rel)
  | |- always_from ?Pc ?Rel (throw _) _ => apply (always_from_throw Pc Rel)
  | |- always_from ?Pc ?Rel (lift _) _ => apply (always_from_lift Pc Rel)
  | |- always_from ?Pc ?Rel (destructure _ _) _ => apply (always_from_destructure Pc Rel)
  | |- always_from ?Pc ?Rel get_state _ => apply (always_from_get_state Pc Rel)
  | |- always_from ?Pc ?Rel (get_wallet _) _ => apply (always_from_get_wallet Pc Rel)
  | |- always_from ?Pc ?Rel (the_connection _) _ => apply (always_from_the_connection Pc Rel)
  | |- always_from ?Pc ?Rel (explorerUrl _ _) _ => apply (always_from_explorerUrl Pc Rel)
  | |- always_from ?Pc ?Rel (to_BigInt _) _ => apply (always_from_to_BigInt Pc Rel)
  | |- always_from ?Pc ?Rel (scaled_amount _ _) _ => apply (always_from_scaled_amount Pc Rel)
  | |- always_from ?Pc ?Rel (perform _) _ => apply (always_from_perform Pc Rel)
  | |- always_from ?Pc ?Rel (await_guarded _ _) _ => apply (always_from_await_guarded Pc Rel)
  | |- always_from ?Pc ?Rel (await _) _ => apply (always_from_await_guarded Pc Rel)
  | |- always_from ?Pc ?Rel (await_withTimeout _ _) _ => apply (always_from_await_guarded Pc Rel)
  | |- always_from ?Pc ?Rel ensureConnection _ => apply (always_from_ensureConnection Pc Rel)
  | |- always_from ?Pc ?Rel (initializeConnection _) _ =>
      apply (always_from_initializeConnection Pc Rel)
  | |- always_from ?Pc ?Rel (wallets_set _ _) _ => apply (always_from_wallets_set Pc Rel)
  | |- always_from _ _ (match ?x with _ => _ end) _ => destruct x
  end.

Ltac chain_side :=
  first [ exact I | exact eq_refl | apply same_wallets_ensured
        | apply same_wallets_switched | apply same_wallets_renamed ].

Ltac chain := cbv beta zeta; repeat chain_step; try chain_side.

Ltac unfold_handlers :=
  unfold handleCreateWallet, handleImportWallet, handleListWallets, handleGetBalance,
    handleGetTokenBalance, handleTransferSol, handleTransferTokens, handleAirdropSol,
    handleGetAccountInfo, handleGetTransaction, handleGetRecentBlockhash,
    handleSwitchNetwork, handleGetNetworkInfo, handleCreateTokenAccount,
    handleGetTokenAccounts, handleCreateSplToken, handleMintTokens, handleBurnTokens,
    handleFreezeAccount, handleThawAccount, handleSetTokenAuthority,
    handleGetTokenSupply, handleCloseTokenAccount, handleApproveDelegate,
    handleRevokeDelegate, handleHealthCheck, handleGetTransactionHistory,
    handleGetTokenInfo, handleGetAllTokenBalances.

(** No tool but create_wallet and import_wallet touches the wallet store. *)
Lemma switch_same_wallets (tool : string) (args : option Args.t) st :
  tool <> "create_wallet" -> tool <> "import_wallet" ->
  always_from any_call same_wallets (switch tool args) st.
Proof.
  intros Hc Hi. unfold switch.
  repeat match goal with
         | |- context [String.eqb tool ?s] =>
             destruct (String.eqb_spec tool s) as [-> |]
         end.
  all: try contradiction.
  all: unfold_handlers; chain.
Qed.

(** ** Session store *)

Lemma Map_set_fresh {K V} `{EqDecision K} (m : JSMap K V) (k : K) (v : V) :
  Map_has m k = false -> Map_set m k v = m ++ [(k, v)].
Proof.
  unfold Map_has. induction m as [| [k' v'] m IH]; cbn; [reflexivity |].
  destruct (decide (k' = k)); [discriminate |].
  intros H. rewrite IH by exact H. reflexivity.
Qed.

Lemma Map_get_app {K V} `{EqDecision K} (m m' : JSMap K V) (k : K) (v : V) :
  Map_get m k = Some v -> Map_get (m ++ m') k = Some v.
Proof.
  induction m as [| [k' v'] m IH]; cbn; [discriminate |].
  destruct (decide (k' = k)); auto.
Qed.

Lemma Map_get_fresh {K V} `{EqDecision K} (m : JSMap K V) (k : K) (v : V) :
  Map_has m k = false -> Map_get (m ++ [(k, v)]) k = Some v.
Proof.
  unfold Map_has. induction m as [| [k' v'] m IH]; cbn.
  - destruct (decide (k = k)); [reflexivity | contradiction].
  - destruct (decide (k' = k)); [discriminate | exact IH].
Qed.

Lemma Map_has_keys {K V} `{EqDecision K} (m : JSMap K V) (k : K) :
  Map_has m k = false -> k ∉ m.*1.
Proof.
  unfold Map_has. induction m as [| [k' v'] m IH]; cbn.
  - intros _. apply not_elem_of_nil.
  - destruct (decide (k' = k)); [discriminate |].
    intros H. apply not_elem_of_cons. split; [congruence | apply IH, H].
Qed.

Lemma handleCreateWallet_grows args st :
  always any_call (fun r => grows st (snd r)) (handleCreateWallet args st).
Proof.
  destruct args as [a |]; [| left; reflexivity].
  unfold handleCreateWallet. cbn.
  destruct (Map_has (wallets st) (Args.name a)) eqn:Hhas; cbn.
  - left. reflexivity.
  - intros pair. right. exists (Args.name a), pair.
    split; [exact Hhas | apply Map_set_fresh, Hhas].
Qed.

Lemma handleImportWallet_grows args st :
  always any_call (fun r => grows st (snd r)) (handleImportWallet args st).
Proof.
  destruct args as [a |]; [| left; reflexivity].
  unfold handleImportWallet. cbn.
  destruct (Map_has (wallets st) (Args.name a)) eqn:Hhas; cbn.
  - left. reflexivity.
  - destruct (bs58_decode (Args.privateKey a)) as [secret | e]; cbn;
      [| left; reflexivity].
    destruct (Keypair_fromSecretKey secret) as [pair | e]; cbn;
      [| left; reflexivity].
    right. exists (Args.name a), pair.
    split; [exact Hhas | apply Map_set_fresh, Hhas].
Qed.

Lemma switch_grows (tool : string) (args : option Args.t) st :
  always any_call (fun r => grows st (snd r)) (switch tool args st).
Proof.
  destruct (String.eqb_spec tool "create_wallet") as [-> | Hc];
    [apply handleCreateWallet_grows |].
  destruct (String.eqb_spec tool "import_wallet") as [-> | Hi];
    [apply handleImportWallet_grows |].
  eapply always_mono; [| apply (switch_same_wallets tool args st Hc Hi)].
  intros r Hr. left. exact Hr.
Qed.

Lemma CallToolRequest_handler_always
    (Pc : forall X, Call X -> Guard -> Prop) (P : State -> Prop)
    (request : Request) st :
  always Pc (fun r => P (snd r)) (switch (req_name request) (req_arguments request) st) ->
  always Pc (fun r => P (snd r)) (CallToolRequest_handler request st).
Proof.
  intros H. unfold CallToolRequest_handler, try_catch, bind.
  apply (always_Prog_bind Pc (fun r => P (snd r))).
  - apply (always_Prog_bind Pc (fun r => P (snd r))); [exact H |].
    intros [[a | t] st'] Hst; exact Hst.
  - intros [[a | t] st'] Hst; exact Hst.
Qed.

Lemma request_grows (w : World) (request : Request) st tr r st' tr' :
  run w (CallToolRequest_handler request st) tr = Finished (r, st') tr' ->
  grows st st'.
Proof.
  intros Hrun.
  destruct (run_always any_call (fun r => grows st (snd r)) (fun _ => True) w
              (CallToolRequest_handler request st) tr
              (fun _ _ _ _ _ => I) (fun _ _ _ => I)
              (CallToolRequest_handler_always any_call (grows st) request st
                 (switch_grows _ _ st))) as (evs & _ & _ & H).
  rewrite Hrun in H. exact H.
Qed.

Lemma grows_keeps st st' : grows st st' -> keeps_wallets st st'.
Proof.
  intros [Heq | (n & pair & Hfree & Heq)] key wallet Hget; rewrite Heq.
  - exact Hget.
  - apply Map_get_app, Hget.
Qed.

Lemma grows_named st st' : grows st st' -> named_by_key st -> named_by_key st'.
Proof.
  unfold named_by_key.
  intros [Heq | (n & pair & Hfree & Heq)] Hst; rewrite Heq; [exact Hst |].
  apply Forall_app. split; [exact Hst |].
  apply Forall_cons. split; [reflexivity | apply Forall_nil_2].
Qed.

Lemma grows_NoDup st st' :
  grows st st' -> NoDup (wallets st).*1 -> NoDup (wallets st').*1.
Proof.
  intros [Heq | (n & pair & Hfree & Heq)] Hst; rewrite Heq; [exact Hst |].
  rewrite fmap_app. apply NoDup_app. split; [exact Hst | split].
  - intros key Hin Hin'. cbn in Hin'. apply list_elem_of_singleton in Hin'. subst key.
    exact (Map_has_keys _ _ Hfree Hin).
  - cbn. apply NoDup_singleton.
Qed.

(** What every request keeps, the server keeps. *)
Lemma serve_keeps (P : State -> Prop) (w : World) (requests : list Request)
    st0 tr0 rs st tr :
  (forall st st', grows st st' -> P st -> P st') ->
  serve w requests st0 tr0 = Finished (rs, st) tr ->
  P st0 -> P st.
Proof.
  intros Hstep. revert st0 tr0 rs.
  induction requests as [| request rest IH]; intros st0 tr0 rs; cbn [serve].
  - intros [= <- <- <-]. auto.
  - destruct (run w (CallToolRequest_handler request st0) tr0)
      as [[r st1] tr1 |] eqn:Hrun; [| discriminate].
    destruct (serve w rest st1 tr1) as [[rs' st2] tr2 |] eqn:Hrest; [| discriminate].
    intros [= <- <- <-] H0.
    apply (IH _ _ _ Hrest). apply (Hstep st0 st1); [| exact H0].
    exact (request_grows _ _ _ _ _ _ _ Hrun).
Qed.

(** X5. No request removes or replaces a wallet: a name bound when the
    server starts on a sequence of requests is bound to the same wallet
    when it has answered them. *)
Theorem wallet_bindings_are_permanent
    (w : World) (requests : list Request) (st0 : State) (tr0 : list Event)
    (rs : list (Completion Response)) (st : State) (tr : list Event)
    (key : option string) (wallet : Wallet) :
  serve w requests st0 tr0 = Finished (rs, st) tr ->
  Map_get (wallets st0) key = Some wallet ->
  Map_get (wallets st) key = Some wallet.
Proof.
  intros Hserve Hget.
  apply (serve_keeps (keeps_wallets st0) w requests st0 tr0 rs st tr); [| exact Hserve | |].
  - intros st1 st2 Hgrows H01. etransitivity; [exact H01 | apply grows_keeps, Hgrows].
  - reflexivity.
  - exact Hget.
Qed.

(** X6. Only create_wallet and import_wallet change the wallet store:
    every other request, whatever its name, its arguments and the
    answers of the ledger, ends with the store it started with. *)
Theorem wallet_store_is_left_by_other_tools
    (w : World) (request : Request) (st : State) (tr : list Event)
    (r : Completion Response) (st' : State) (tr' : list Event) :
  req_name request <> "create_wallet" ->
  req_name request <> "import_wallet" ->
  run w (CallToolRequest_handler request st) tr = Finished (r, st') tr' ->
  wallets st' = wallets st.
Proof.
  intros Hc Hi Hrun.
  destruct (run_always any_call (fun r => same_wallets st (snd r)) (fun _ => True) w
              (CallToolRequest_handler request st) tr
              (fun _ _ _ _ _ => I) (fun _ _ _ => I)
              (CallToolRequest_handler_always any_call (same_wallets st) request st
                 (switch_same_wallets _ _ st Hc Hi))) as (evs & _ & _ & H).
  rewrite Hrun in H. exact H.
Qed.

Lemma listed_named (store : JSMap (option string) Wallet) :
  Forall (fun kw => name (snd kw) = fst kw) store ->
  (fun wallet => VObj [ ("name", opt_str (name wallet));
                        ("address", key_string (publicKey (keypair wallet))) ])
    <$> Map_values store
  = listed <$> store.
Proof.
  unfold Map_values. induction 1 as [| [key wallet] store Hname _ IH]; [reflexivity |].
  cbn in *. rewrite Hname, IH. reflexivity.
Qed.

(** X7. In every state the server reaches from its initial state, each
    wallet is stored under its own name: list_wallets shows one entry
    per bound name, in the order the names were bound, under pairwise
    distinct names, and its count is the number of bindings. *)
Theorem list_wallets_lists_the_keys
    (w : World) (requests : list Request)
    (rs : list (Completion Response)) (st : State) (tr : list Event)
    (args : option Args.t) :
  serve w requests initial_state [] = Finished (rs, st) tr ->
  NoDup (wallets st).*1
  /\ run w (CallToolRequest_handler
              {| req_name := "list_wallets"; req_arguments := args |} st) tr
     = Finished
         (Normal (success_envelope
                    (VObj [ ("wallets", VArr (listed <$> wallets st));
                            ("count",
                             VNum (Number.of_Z (Z.of_nat (length (wallets st))))) ])),
          st) tr.
Proof.
  intros Hserve.
  assert (Hinv : NoDup (wallets st).*1 /\ named_by_key st).
  { apply (serve_keeps (fun st => NoDup (wallets st).*1 /\ named_by_key st)
             w requests initial_state [] rs st tr); [| exact Hserve |].
    - intros st1 st2 Hgrows [Hnd Hnamed].
      split; [exact (grows_NoDup _ _ Hgrows Hnd) | exact (grows_named _ _ Hgrows Hnamed)].
    - split; [apply NoDup_nil_2 | apply Forall_nil_2]. }
  destruct Hinv as [Hnd Hnamed]. split; [exact Hnd |].
  rewrite CallToolRequest_handler_run. cbn [req_name req_arguments].
  change (switch "list_wallets" args) with handleListWallets.
  unfold handleListWallets. cbn [run bind Prog_bind get_state ret].
  unfold length_number. rewrite (listed_named _ Hnamed), length_fmap.
  reflexivity.
Qed.

(** ** Reading tools and tools that always answer *)

Lemma read_only_switch (tool : string) (args : option Args.t) st :
  tool ∈ read_only_tools ->
  always_from query_call same_wallets (switch tool args) st.
Proof.
  intros Htool. unfold read_only_tools in Htool.
  repeat (apply elem_of_cons in Htool; destruct Htool as [-> | Htool]);
    [.. | apply elem_of_nil in Htool; contradiction].
  all: select_handler; unfold_handlers; chain.
Qed.

(** X8. The reading tools only read: whatever the arguments, the state
    and the answers of the ledger, every call such a request makes is a
    query (never a submission, an airdrop request or a token operation),
    and it leaves the wallet store as it was. *)
Theorem read_only_tools_only_query
    (tool : string) (w : World) (args : option Args.t) (st : State) (tr : list Event) :
  tool ∈ read_only_tools ->
  exists events,
    trace_of (run w (CallToolRequest_handler
                       {| req_name := tool; req_arguments := args |} st) tr)
    = tr ++ events
    /\ forallb query_event events = true
    /\ match run w (CallToolRequest_handler
                      {| req_name := tool; req_arguments := args |} st) tr with
       | Finished (_, st') _ => wallets st' = wallets st
       | Hung _ => True
       end.
Proof.
  intros Htool.
  destruct (run_always query_call (fun r => same_wallets st (snd r))
              (fun e => query_event e = true) w
              (CallToolRequest_handler {| req_name := tool; req_arguments := args |} st) tr)
    as (events & Htr & Hq & Hst).
  - intros X c g o Hc. exact Hc.
  - reflexivity.
  - apply CallToolRequest_handler_always. apply (read_only_switch tool args st Htool).
  - exists events. split; [exact Htr | split].
    + apply forallb_forall. intros e He. apply (proj1 (List.Forall_forall _ _) Hq e He).
    + destruct (run w _ tr) as [[r st'] tr' |]; exact Hst.
Qed.

Lemma bounded_switch (tool : string) (args : option Args.t) st :
  tool ∈ bounded_tools ->
  always_from bounded_call any_state (switch tool args) st.
Proof.
  intros Htool. unfold bounded_tools in Htool.
  repeat (apply elem_of_cons in Htool; destruct Htool as [-> | Htool]);
    [.. | apply elem_of_nil in Htool; contradiction].
  all: select_handler; unfold_handlers; chain.
Qed.

(** X9. create_wallet, import_wallet, list_wallets, get_balance,
    switch_network and health_check always answer: every call they
    await goes through the timeout guard, so even against a ledger that
    never replies the front-end returns a normal response. *)
Theorem bounded_tools_always_answer
    (tool : string) (w : World) (args : option Args.t) (st : State) (tr : list Event) :
  tool ∈ bounded_tools ->
  exists response st' tr',
    run w (CallToolRequest_handler {| req_name := tool; req_arguments := args |} st) tr
    = Finished (Normal response, st') tr'.
Proof.
  intros Htool. rewrite CallToolRequest_handler_run. cbn [req_name req_arguments].
  destruct (run_bounded (fun r => any_state st (snd r)) w (switch tool args st) tr
              (bounded_switch tool args st Htool))
    as ([[result | error] st'] & tr' & -> & _); eauto.
Qed.

(** ** Requests that cannot be served *)

(** X10. A tool that works on a wallet answers "Wallet '<name>' not
    found" when the name is not bound (airdrop_sol: when the network is
    not mainnet, where it is refused before the lookup).  The lookup
    comes first: nothing is asked of the ledger and the module state,
    the connection included, is left as it was. *)
Theorem missing_wallet_is_reported
    (tool : string) (walletName : Args.t -> option string)
    (w : World) (a : Args.t) (st : State) (tr : list Event) :
  (tool, walletName) ∈ wallet_lookups ->
  Map_has (wallets st) (walletName a) = false ->
  (tool = "airdrop_sol" -> currentNetwork st <> "mainnet") ->
  run w (CallToolRequest_handler {| req_name := tool; req_arguments := Some a |} st) tr
  = Finished (Normal (error_envelope (wallet_not_found (walletName a))), st) tr.
Proof.
  intros Htool Hfree Hnet. unfold Map_has in Hfree.
  destruct (Map_get (wallets st) (walletName a)) as [wallet |] eqn:Hget;
    [discriminate |].
  clear Hfree. unfold wallet_lookups in Htool.
  repeat (apply elem_of_cons in Htool; destruct Htool as [[= -> ->] | Htool]);
    [.. | apply elem_of_nil in Htool; contradiction].
  all: rewrite CallToolRequest_handler_run; cbn [req_name req_arguments].
  all: select_handler; unfold_handlers; exec.
  all: try (destruct (String.eqb_spec (currentNetwork st) "mainnet") as [Hm |];
            [exfalso; exact (Hnet eq_refl Hm) |]; exec).
  all: rewrite Hget; reflexivity.
Qed.

(** X11. A request without an [arguments] object, to any tool that
    destructures its arguments, is answered with the engine's TypeError
    for the first property of the pattern, as an error response; nothing
    else happens. *)
Theorem missing_arguments_are_reported
    (tool property : string) (w : World) (st : State) (tr : list Event) :
  (tool, property) ∈ destructured ->
  run w (CallToolRequest_handler {| req_name := tool; req_arguments := None |} st) tr
  = Finished (Normal (error_envelope (cannot_destructure property)), st) tr.
Proof.
  intros Htool. unfold destructured in Htool.
  repeat (apply elem_of_cons in Htool; destruct Htool as [[= -> ->] | Htool]);
    [.. | apply elem_of_nil in Htool; contradiction].
  all: rewrite CallToolRequest_handler_run; cbn [req_name req_arguments].
  all: select_handler; reflexivity.
Qed.

(** ** Health check and token information *)

(** X12. health_check never answers with an error response: when the
    probe fails, is late, or cannot even be issued, the failure is
    reported inside a success-shaped payload with status "degraded".
    The [checks] it shows (network, rpcUrl, walletsLoaded) are read
    before [ensureConnection] runs, so they describe the state the
    request found, while the probe goes to the connection of the state
    it leaves. *)
Theorem health_check_never_fails
    (w : World) (args : option Args.t) (st : State) (tr : list Event) :
  exists (status check : string) (detail : string * JSVal) (tr' : list Event),
    run w (CallToolRequest_handler
             {| req_name := "health_check"; req_arguments := args |} st) tr
    = Finished
        (Normal (success_envelope
                   (VObj [ ("status", VStr status);
                           ("checks",
                            health_checks st check (host w _ tr Date_toISOString));
                           detail ])),
         ensured st) tr'
    /\ ((status, check, fst detail) = ("healthy", "healthy", "solanaVersion")
        \/ (status, check, fst detail) = ("degraded", "unhealthy", "error")).
Proof.
  rewrite CallToolRequest_handler_run. cbn [req_name req_arguments].
  change (switch "health_check" args) with handleHealthCheck.
  unfold handleHealthCheck. exec. rewrite run_try_catch, run_ensure_then. exec.
  destruct (connection (ensured st)) as [c |]; exec.
  - pose proof (withTimeout_settles
                  (answer w _ (tr ++ [Performed Date_toISOString
                                        (host w _ tr Date_toISOString)]) (getVersion c))
                  (Some 5000%N)) as Hs.
    destruct (withTimeout _ _) as [| ms [version | error]]; [congruence | |].
    + do 4 eexists. split; [reflexivity | left; reflexivity].
    + do 4 eexists. split; [reflexivity | right; reflexivity].
  - do 4 eexists. split; [reflexivity | right; reflexivity].
Qed.

#[local] Instance unchanged_PreOrder : PreOrder unchanged.
Proof.
  split; [intros st; reflexivity |].
  intros a b c Hab Hbc. unfold unchanged in *. congruence.
Qed.

Lemma get_token_info_calls (args : option Args.t) st :
  always_from http_call unchanged (handleGetTokenInfo args) st.
Proof. unfold handleGetTokenInfo. chain. Qed.

(** X13. get_token_info works beside the module state: it never calls
    [ensureConnection], so it asks nothing of the ledger (its only
    calls fetch the token list and the price, and read their bodies),
    it leaves the state exactly as it was, and once its arguments are
    destructured no failure of those services becomes an error
    response. *)
Theorem get_token_info_is_self_contained
    (w : World) (a : Args.t) (st : State) (tr : list Event) :
  exists events,
    trace_of (run w (CallToolRequest_handler
                       {| req_name := "get_token_info"; req_arguments := Some a |} st) tr)
    = tr ++ events
    /\ forallb http_event events = true
    /\ match run w (CallToolRequest_handler
                      {| req_name := "get_token_info"; req_arguments := Some a |} st) tr
       with
       | Finished (response, st') _ =>
           st' = st /\ exists result, response = Normal (success_envelope result)
       | Hung _ => True
       end.
Proof.
  destruct (run_always http_call (fun r => unchanged st (snd r))
              (fun e => http_event e = true) w
              (CallToolRequest_handler
                 {| req_name := "get_token_info"; req_arguments := Some a |} st) tr)
    as (events & Htr & Hq & Hst).
  - intros X c g o Hc. exact Hc.
  - reflexivity.
  - apply CallToolRequest_handler_always. apply get_token_info_calls.
  - exists events. split; [exact Htr | split].
    + apply forallb_forall. intros e He. apply (proj1 (List.Forall_forall _ _) Hq e He).
    + revert Hst. rewrite CallToolRequest_handler_run. cbn [req_name req_arguments].
      change (switch "get_token_info" (Some a)) with (handleGetTokenInfo (Some a)).
      pose proof (get_token_info_never_throws w a st tr) as Hnever.
      destruct (run w (handleGetTokenInfo (Some a) st) tr)
        as [[[result | error] st'] tr' |]; [| contradiction |]; eauto.
Qed.

(** ** Importing and exporting keys *)

(** X14. import_wallet under a free name, with a private key that
    bs58 cannot decode or that is not a secret key: the failure is
    rethrown as "Invalid private key: " followed by the text of the
    original error, and nothing is stored. *)
Theorem import_wallet_rejects_a_bad_key
    (w : World) (a : Args.t) (st : State) (tr : list Event) (error : Thrown) :
  Map_has (wallets st) (Args.name a) = false ->
  bs58_decode (Args.privateKey a) = Abrupt error
  \/ (exists secret,
        bs58_decode (Args.privateKey a) = Normal secret
        /\ Keypair_fromSecretKey secret = Abrupt error) ->
  run w (CallToolRequest_handler
           {| req_name := "import_wallet"; req_arguments := Some a |} st) tr
  = Finished (Normal (error_envelope (invalid_private_key error)), st) tr.
Proof.
  intros Hfree Hbad.
  rewrite CallToolRequest_handler_run. cbn [req_name req_arguments].
  change (switch "import_wallet" (Some a)) with (handleImportWallet (Some a)).
  unfold handleImportWallet. exec. rewrite Hfree. rewrite run_try_catch.
  destruct Hbad as [Hdecode | (secret & Hdecode & Hpair)].
  - exec. rewrite Hdecode. reflexivity.
  - exec. rewrite Hdecode. exec. rewrite Hpair. reflexivity.
Qed.

(** X15. The private key create_wallet hands out imports the same
    wallet: when bs58 decodes what it encoded and the key pair is
    recovered from its secret key, creating a wallet and importing the
    exported key under a second free name binds both names to the same
    key pair, and both answers show the same address. *)
Theorem exported_key_imports_the_same_wallet
    (w : World) (st : State) (tr : list Event) (first second : option string) :
  let pair := host w _ tr Keypair_generate in
  let exported := bs58_encode (secretKey pair) in
  Map_has (wallets st) first = false ->
  Map_has (wallets st) second = false ->
  first <> second ->
  bs58_decode (Some exported) = Normal (secretKey pair) ->
  Keypair_fromSecretKey (secretKey pair) = Normal pair ->
  serve w
    [ {| req_name := "create_wallet";
         req_arguments := Some (wallet_args first None) |};
      {| req_name := "import_wallet";
         req_arguments := Some (wallet_args second (Some exported)) |} ]
    st tr
  = Finished
      ([ Normal (success_envelope
                   (VObj [ ("success", VBool true);
                           ("wallet",
                            VObj [ ("name", opt_str first);
                                   ("address", key_string (publicKey pair));
                                   ("privateKey", VStr exported) ]) ]));
         Normal (success_envelope
                   (VObj [ ("success", VBool true);
                           ("wallet",
                            VObj [ ("name", opt_str second);
                                   ("address", key_string (publicKey pair)) ]) ])) ],
       with_wallet second pair (with_wallet first pair st))
      (tr ++ [Performed Keypair_generate pair]).
Proof.
  intros pair exported Hfirst Hsecond Hdiff Hdecode Hpair.
  assert (Hsecond' : Map_has (wallets st ++ [(first, {| keypair := pair; name := first |})])
                       second = false).
  { revert Hsecond. unfold Map_has. generalize (wallets st).
    induction j as [| [k v] m IH]; cbn.
    - intros _. destruct (decide (first = second)); [contradiction | reflexivity].
    - destruct (decide (k = second)); [discriminate | exact IH]. }
  cbn [serve]. rewrite !CallToolRequest_handler_run. cbn [req_name req_arguments].
  change (switch "create_wallet" (Some (wallet_args first None)))
    with (handleCreateWallet (Some (wallet_args first None))).
  unfold handleCreateWallet. exec. cbn [Args.name wallet_args]. rewrite Hfirst. exec.
  rewrite (Map_set_fresh _ _ _ Hfirst).
  rewrite CallToolRequest_handler_run. cbn [req_name req_arguments].
  change (switch "import_wallet" (Some (wallet_args second (Some exported))))
    with (handleImportWallet (Some (wallet_args second (Some exported)))).
  unfold handleImportWallet. exec. cbn [Args.name Args.privateKey wallet_args].
  fold pair. rewrite Hsecond'. rewrite run_try_catch. exec.
  rewrite Hdecode. exec. rewrite Hpair. exec.
  rewrite (Map_set_fresh _ _ _ Hsecond'). reflexivity.
Qed.

(** ** Minting to an owner without a token account *)

(** X16. Unlike transfer_tokens, mint_tokens creates a missing
    destination account in a transaction of its own: when the probe of
    the destination's associated token account is rejected, it submits
    the creation alone, waits two seconds, and only then calls
    [mintTo].  If [mintTo] is rejected the call fails with that error,
    although the creation has been submitted. *)
Theorem mint_tokens_creates_the_account_first
    (w : World) (st : State) (a : Args.t) (tr : list Event)
    (wallet : Wallet) (tokenMintPubkey destinationPubkey account : PublicKey)
    (mintInfo : Mint) (raw : Z) (probe_error : Thrown)
    (blockhash created : string) (minted : Settled string) (t : N) :
  connected st = true ->
  Map_get (wallets st) (Args.walletName a) = Some wallet ->
  PublicKey_new (Args.tokenMint a) = Normal tokenMintPubkey ->
  PublicKey_new (Args.destinationAddress a) = Normal destinationPubkey ->
  getAssociatedTokenAddress tokenMintPubkey destinationPubkey = Normal account ->
  Number.floorZ
    (Number.mul (to_number (Args.amount a))
       (Math_pow (Number.of_Z 10) (mint_decimals mintInfo))) = Some raw ->
  (forall tr' c,
      answer w _ tr' (getMint c tokenMintPubkey) = SettlesAt t (Fulfilled mintInfo)) ->
  (forall tr' c, answer w _ tr' (getAccount c account) = SettlesAt t (Rejected probe_error)) ->
  (forall tr' c,
      answer w _ tr' (getLatestBlockhash c) = SettlesAt t (Fulfilled blockhash)) ->
  (forall tr' c tx sgn,
      answer w _ tr' (sendTransaction c tx sgn) = SettlesAt t (Fulfilled created)) ->
  (forall tr' c,
      answer w _ tr' (mintTo c (keypair wallet) tokenMintPubkey account (keypair wallet) raw)
      = SettlesAt t minted) ->
  exists c result,
    connection (ensured st) = Some c
    /\ run w (handleMintTokens (Some a) st) tr
       = Finished (result, ensured st)
           (tr ++ [ Called (getMint c tokenMintPubkey) (Some (Fulfilled mintInfo));
                    Called (getAccount c account) (Some (Rejected probe_error));
                    Called (getLatestBlockhash c) (Some (Fulfilled blockhash));
                    Called (sendTransaction c
                              (account_creation_transaction wallet account
                                 destinationPubkey tokenMintPubkey blockhash)
                              [keypair wallet])
                      (Some (Fulfilled created));
                    Called (setTimeout_resolve 2000) (Some (Fulfilled tt));
                    Called (mintTo c (keypair wallet) tokenMintPubkey account
                              (keypair wallet) raw)
                      (Some minted) ])
    /\ match minted with
       | Fulfilled _ => exists payload, result = Normal payload
       | Rejected error => result = Abrupt error
       end.
Proof.
  intros Hconn Hw Hmint Hdest Hacct Hraw Hinfo Hprobe Hbh Hsend Hminted.
  apply Number_BigInt_floor in Hraw.
  destruct (connected_ensured st Hconn) as [c Hc]. exists c.
  unfold handleMintTokens, scaled_amount, to_BigInt.
  repeat (exec; rewrite ?run_ensure_then, ?run_try_catch, ?Hw, ?Hmint, ?Hdest, ?Hc,
            ?Hinfo, ?Hraw, ?Hacct, ?Hprobe, ?Hbh, ?Hsend, ?Hminted).
  destruct minted as [signature | error]; exec; rewrite <- ?app_assoc; cbn [app];
    eexists; (split; [reflexivity | split; [reflexivity | eauto]]).
Qed.

(** ** Airdrops, balances, new mints and authorities *)

(** X17. Off mainnet, airdrop_sol makes one call, [requestAirdrop] for
    the wallet's key with [Math.floor(amount * LAMPORTS_PER_SOL)]
    lamports, where a missing amount counts as 1 (1000000000 lamports).
    The guard reads the name of the current network as the request
    finds it; the airdrop is asked of the connection the request
    leaves. *)
Theorem airdrop_is_requested_off_mainnet
    (w : World) (st : State) (a : Args.t) (tr : list Event) (wallet : Wallet) :
  connected st = true ->
  currentNetwork st <> "mainnet" ->
  Map_get (wallets st) (Args.walletName a) = Some wallet ->
  exists c o,
    connection (ensured st) = Some c
    /\ trace_of (run w (handleAirdropSol (Some a) st) tr)
       = tr ++ [ Called (requestAirdrop c (publicKey (keypair wallet))
                           (Number.Math_floor
                              (Number.mul (default (Number.of_Z 1) (Args.amount a))
                                 LAMPORTS_PER_SOL)))
                   o ]
    /\ Number.BigInt (Number.Math_floor (Number.mul (Number.of_Z 1) LAMPORTS_PER_SOL))
       = Some 1000000000%Z.
Proof.
  intros Hconn Hnet Hw.
  destruct (connected_ensured st Hconn) as [c Hc]. exists c.
  unfold handleAirdropSol. exec.
  destruct (String.eqb_spec (currentNetwork st) "mainnet") as [Hm |]; [contradiction |].
  exec. rewrite Hw. exec. rewrite run_ensure_then. exec. rewrite Hc. exec.
  destruct (answer w _ _ _) as [| ms [signature | error]]; exec; cbn [trace_of];
    eexists; (split; [reflexivity | split; [reflexivity | vm_compute; reflexivity]]).
Qed.

(** X18. get_balance waits for the ledger for at most the default
    10000 ms: a balance that arrives earlier is reported in lamports
    and, divided by LAMPORTS_PER_SOL, in SOL; when the ledger is silent
    or later than that the answer is the error "Operation timed out". *)
Theorem get_balance_within_the_default_deadline
    (w : World) (st : State) (a : Args.t) (tr : list Event) (wallet : Wallet) :
  connected st = true ->
  Map_get (wallets st) (Args.walletName a) = Some wallet ->
  exists c,
    connection (ensured st) = Some c
    /\ (forall ms balance,
           answer w _ tr (getBalance c (publicKey (keypair wallet)))
           = SettlesAt ms (Fulfilled balance) ->
           (ms < 10000)%N ->
           run w (CallToolRequest_handler
                    {| req_name := "get_balance"; req_arguments := Some a |} st) tr
           = Finished
               (Normal (success_envelope
                          (VObj [ ("wallet", opt_str (Args.walletName a));
                                  ("address", key_string (publicKey (keypair wallet)));
                                  ("balance",
                                   VObj [ ("lamports", VNum balance);
                                          ("sol",
                                           VNum (Number.div balance LAMPORTS_PER_SOL)) ]) ])),
                ensured st)
               (tr ++ [ Called (getBalance c (publicKey (keypair wallet)))
                          (Some (Fulfilled balance)) ]))
    /\ (match answer w _ tr (getBalance c (publicKey (keypair wallet))) with
        | Never => True
        | SettlesAt ms _ => (10000 < ms)%N
        end ->
        run w (CallToolRequest_handler
                 {| req_name := "get_balance"; req_arguments := Some a |} st) tr
        = Finished (Normal (error_envelope timed_out), ensured st)
            (tr ++ [ Called (getBalance c (publicKey (keypair wallet)))
                       (Some (Rejected timed_out)) ])).
Proof.
  intros Hconn Hw.
  destruct (connected_ensured st Hconn) as [c Hc]. exists c.
  split; [exact Hc |].
  assert (Hrun : forall o,
             withTimeout (answer w _ tr (getBalance c (publicKey (keypair wallet)))) None
             = o ->
             run w (handleGetBalance (Some a) st) tr
             = match o with
               | Never => Hung (tr ++ [Called (getBalance c (publicKey (keypair wallet))) None])
               | SettlesAt _ (Fulfilled balance) =>
                   Finished
                     (Normal
                        (VObj [ ("wallet", opt_str (Args.walletName a));
                                ("address", key_string (publicKey (keypair wallet)));
                                ("balance",
                                 VObj [ ("lamports", VNum balance);
                                        ("sol",
                                         VNum (Number.div balance LAMPORTS_PER_SOL)) ]) ]),
                      ensured st)
                     (tr ++ [ Called (getBalance c (publicKey (keypair wallet)))
                                (Some (Fulfilled balance)) ])
               | SettlesAt _ (Rejected error) =>
                   Finished (Abrupt error, ensured st)
                     (tr ++ [ Called (getBalance c (publicKey (keypair wallet)))
                                (Some (Rejected error)) ])
               end).
  { intros o Ho. unfold handleGetBalance. exec. rewrite Hw. exec.
    rewrite run_ensure_then. exec. rewrite Hc. exec. rewrite Ho.
    destruct o as [| ms [balance | error]]; reflexivity. }
  split.
  - intros ms balance Hanswer Hms.
    rewrite CallToolRequest_handler_run. cbn [req_name req_arguments].
    change (switch "get_balance" (Some a)) with (handleGetBalance (Some a)).
    rewrite (Hrun _ eq_refl), Hanswer.
    change (withTimeout (SettlesAt ms (Fulfilled balance)) None)
      with (withTimeout (SettlesAt ms (Fulfilled balance)) (Some 10000%N)).
    rewrite withTimeout_early by exact Hms. reflexivity.
  - intros Hlate.
    rewrite CallToolRequest_handler_run. cbn [req_name req_arguments].
    change (switch "get_balance" (Some a)) with (handleGetBalance (Some a)).
    rewrite (Hrun _ eq_refl).
    destruct (answer w _ tr (getBalance c (publicKey (keypair wallet)))) as [| ms o].
    + reflexivity.
    + change (withTimeout (SettlesAt ms o) None)
        with (withTimeout (SettlesAt ms o) (Some 10000%N)).
      rewrite withTimeout_late by exact Hlate. reflexivity.
Qed.

(** X19. create_spl_token makes one call, [createMint], paid by the
    wallet and with the wallet's key as mint authority; the wallet
    becomes freeze authority only when [freezeAuthority] is true, and a
    missing [decimals] counts as 9. *)
Theorem create_spl_token_defaults
    (w : World) (st : State) (a : Args.t) (tr : list Event) (wallet : Wallet) :
  connected st = true ->
  Map_get (wallets st) (Args.walletName a) = Some wallet ->
  exists c o,
    connection (ensured st) = Some c
    /\ trace_of (run w (handleCreateSplToken (Some a) st) tr)
       = tr ++ [ Called (createMint c (keypair wallet) (publicKey (keypair wallet))
                           (match Args.freezeAuthority a with
                            | Some true => Some (publicKey (keypair wallet))
                            | _ => None
                            end)
                           (match Args.decimals a with
                            | Some decimals => decimals
                            | None => Number.of_Z 9
                            end))
                   o ].
Proof.
  intros Hconn Hw.
  destruct (connected_ensured st Hconn) as [c Hc]. exists c.
  unfold handleCreateSplToken. exec. rewrite Hw. exec. rewrite run_ensure_then.
  exec. rewrite Hc. exec.
  destruct (Args.freezeAuthority a) as [[|] |], (Args.decimals a) as [decimals |];
    cbn [default from_option id];
    destruct (answer w _ _ _) as [| ms [mint | error]]; exec; cbn [trace_of];
    eexists; (split; reflexivity).
Qed.

(** X20. set_token_authority does not check the authority type: the
    name is looked up in a four-entry object and whatever comes out,
    [undefined] for an unknown name, is handed to [setAuthority].  An
    absent or empty [newAuthority] is not parsed: the authority is set
    to [null], and the answer says "revoked". *)
Theorem set_token_authority_passes_the_type_unchecked
    (w : World) (st : State) (a : Args.t) (tr : list Event)
    (wallet : Wallet) (tokenMintPubkey : PublicKey) :
  connected st = true ->
  Map_get (wallets st) (Args.walletName a) = Some wallet ->
  PublicKey_new (Args.tokenMint a) = Normal tokenMintPubkey ->
  truthy (opt_str (Args.newAuthority a)) = false ->
  exists c o,
    connection (ensured st) = Some c
    /\ trace_of (run w (handleSetTokenAuthority (Some a) st) tr)
       = tr ++ [ Called (setAuthority c (keypair wallet) tokenMintPubkey (keypair wallet)
                           (get_property authorityTypeMap (show (Args.authorityType a)))
                           None)
                   o ]
    /\ (forall signature ms,
           answer w _ tr
             (setAuthority c (keypair wallet) tokenMintPubkey (keypair wallet)
                (get_property authorityTypeMap (show (Args.authorityType a))) None)
           = SettlesAt ms (Fulfilled signature) ->
           exists url,
             run w (handleSetTokenAuthority (Some a) st) tr
             = Finished
                 (Normal (VObj [ ("success", VBool true);
                                 ("signature", VStr signature);
                                 ("authorityType", opt_str (Args.authorityType a));
                                 ("newAuthority", VStr "revoked");
                                 ("explorerUrl", url) ]),
                  ensured st)
                 (tr ++ [ Called (setAuthority c (keypair wallet) tokenMintPubkey
                                    (keypair wallet)
                                    (get_property authorityTypeMap
                                       (show (Args.authorityType a)))
                                    None)
                            (Some (Fulfilled signature)) ]))
    /\ (show (Args.authorityType a) ∉ authorityTypeMap.*1 ->
        forall authority,
          get_property authorityTypeMap (show (Args.authorityType a)) <> Own authority).
Proof.
  intros Hconn Hw Hmint Hnew.
  destruct (connected_ensured st Hconn) as [c Hc]. exists c.
  assert (Hor : or_else (Args.newAuthority a) "revoked" = "revoked").
  { revert Hnew. unfold or_else, truthy, opt_str.
    destruct (Args.newAuthority a) as [s |]; [| reflexivity].
    destruct (String.eqb s ""); [reflexivity | discriminate]. }
  unfold handleSetTokenAuthority.
  repeat (exec; rewrite ?run_ensure_then, ?Hw, ?Hmint, ?Hnew, ?Hc, ?Hor).
  destruct (answer w _ _ _) as [| ms [signature | error]] eqn:Hanswer; exec;
    cbn [trace_of]; eexists.
  all: split; [reflexivity | split; [reflexivity | split]].
  all: try (intros signature' ms' [=]; subst; eexists; reflexivity).
  all: intros Hunknown authority Hown; apply Hunknown;
    unfold get_property in Hown;
    destruct (Map_get authorityTypeMap (show (Args.authorityType a))) eqn:Hget;
      [| destruct (bool_decide _); discriminate];
    revert Hget; unfold authorityTypeMap; cbn [Map_get];
    repeat match goal with
           | |- context [decide (?s = ?x)] =>
               destruct (decide (s = x)) as [<- |];
                 [intros _; apply (bool_decide_unpack _); vm_compute; exact I |]
           end;
    discriminate.
Qed.

(** X21. An account the ledger does not know is not an error for
    get_account_info, which answers [exists: false]; a signature the
    ledger does not know is one for get_transaction, which fails with
    "Transaction not found". *)
Theorem unknown_account_and_unknown_transaction
    (w : World) (st : State) (a : Args.t) (tr : list Event)
    (c : Connection) (pubkey : PublicKey) (t : N) :
  connection (ensured st) = Some c ->
  (PublicKey_new (Args.address a) = Normal pubkey ->
   answer w _ tr (getAccountInfo c pubkey) = SettlesAt t (Fulfilled None) ->
   run w (CallToolRequest_handler
            {| req_name := "get_account_info"; req_arguments := Some a |} st) tr
   = Finished
       (Normal (success_envelope
                  (VObj [ ("address", opt_str (Args.address a));
                          ("exists", VBool false) ])),
        ensured st)
       (tr ++ [Called (getAccountInfo c pubkey) (Some (Fulfilled None))]))
  /\ (answer w _ tr (getTransaction c (Args.signature a)) = SettlesAt t (Fulfilled None) ->
      run w (CallToolRequest_handler
               {| req_name := "get_transaction"; req_arguments := Some a |} st) tr
      = Finished (Normal (error_envelope (Error "Transaction not found")), ensured st)
          (tr ++ [Called (getTransaction c (Args.signature a)) (Some (Fulfilled None))])).
Proof.
  intros Hc. split.
  - intros Hkey Hanswer.
    rewrite CallToolRequest_handler_run. cbn [req_name req_arguments].
    change (switch "get_account_info" (Some a)) with (handleGetAccountInfo (Some a)).
    unfold handleGetAccountInfo.
    repeat (exec; rewrite ?run_ensure_then, ?Hkey, ?Hc, ?Hanswer). reflexivity.
  - intros Hanswer.
    rewrite CallToolRequest_handler_run. cbn [req_name req_arguments].
    change (switch "get_transaction" (Some a)) with (handleGetTransaction (Some a)).
    unfold handleGetTransaction.
    repeat (exec; rewrite ?run_ensure_then, ?Hc, ?Hanswer). reflexivity.
Qed.

(** ** Who signs *)

Ltac name_wallet :=
  unfold named_wallet, wallet_lookups; cbn [Map_get];
  repeat (rewrite decide_False by congruence);
  try (rewrite decide_True by reflexivity).

Ltac in_list H :=
  repeat (apply elem_of_cons in H; destruct H as [-> | H]);
  [.. | apply elem_of_nil in H; contradiction].

Ltac named := eassumption.

Ltac signer_side :=
  unfold signed_call, signed_by; cbn [signing_keys submitted];
  split;
  [ let pair := fresh "pair" in
    let Hin := fresh "Hin" in
    intros pair Hin; in_list Hin;
    eexists; (split; [named | reflexivity])
  | let tx := fresh "tx" in
    let Hin := fresh "Hin" in
    intros tx Hin; in_list Hin;
    (split; [discriminate | eexists; split; [named | reflexivity]]) ].

Lemma switch_signed (tool : string) (a : Args.t) st :
  always (signed_call (named_wallet tool a st)) (fun _ => True) (switch tool (Some a) st).
Proof.
  unfold switch.
  repeat match goal with
         | |- context [String.eqb tool ?s] =>
             destruct (String.eqb_spec tool s) as [-> |]
         end.
  all: name_wallet.
  1, 2: apply (always_mono _ (fun r => any_state st (snd r))); [intros; exact I |].
  3 - 30: apply (always_mono _ (fun r => same_wallets st (snd r))); [intros; exact I |].
  all: match goal with
       | |- always ?Pc (fun r => ?Rel ?s (snd r)) (?m ?s) =>
           change (always_from Pc Rel m s)
       end.
  all: unfold_handlers; cbn [destructure]; chain.
  all: signer_side.
Qed.

(** X22. The server signs only for the wallet the request names: for
    every tool and all arguments, each call that signs (a submission,
    or an spl-token action with its payer and authority) signs with the
    key pair of the wallet bound to the name the request gives, and a
    submitted transaction has that wallet as fee payer and carries a
    blockhash.  A tool that takes no wallet name signs nothing. *)
Theorem only_the_named_wallet_signs
    (tool : string) (w : World) (a : Args.t) (st : State) (tr : list Event) :
  exists events,
    trace_of (run w (CallToolRequest_handler
                       {| req_name := tool; req_arguments := Some a |} st) tr)
    = tr ++ events
    /\ Forall (signed_event (named_wallet tool a st)) events.
Proof.
  destruct (run_always (signed_call (named_wallet tool a st)) (fun r => True)
              (signed_event (named_wallet tool a st)) w
              (CallToolRequest_handler {| req_name := tool; req_arguments := Some a |} st) tr)
    as (events & Htr & Hsigned & _).
  - intros X c g o Hc. exact Hc.
  - intros X e x. exact I.
  - apply (CallToolRequest_handler_always _ (fun _ => True)). apply switch_signed.
  - eauto.
Qed.

(** ** Transaction history *)

Lemma SFcompare_antisym (x y : JSNumber) :
  SFcompare y x = CompOpp <$> SFcompare x y.
Proof.
  destruct x as [sx | sx | | sx mx ex], y as [sy | sy | | sy my ey]; cbn;
    try reflexivity; try (destruct sx; reflexivity); try (destruct sy; reflexivity);
    try (destruct sx, sy; reflexivity).
  destruct sx, sy; cbn; try reflexivity.
  - rewrite (Z.compare_antisym ex ey).
    destruct (ex ?= ey)%Z; cbn; try reflexivity.
    rewrite (Pos.compare_cont_antisym mx my Eq).
    destruct (Pos.compare_cont Eq mx my); reflexivity.
  - rewrite (Z.compare_antisym ex ey).
    destruct (ex ?= ey)%Z; cbn; try reflexivity.
    rewrite (Pos.compare_cont_antisym mx my Eq).
    destruct (Pos.compare_cont Eq mx my); reflexivity.
Qed.

(** [Math.min(x, y)] is never above [y]. *)
Lemma Number_Math_min_bound (x y : JSNumber) :
  Number.gt (Number.Math_min x y) y = false.
Proof.
  unfold Number.gt, Number.Math_min, SFltb.
  pose proof (SFcompare_antisym x y) as Hxy.
  pose proof (SFcompare_antisym y y) as Hyy.
  destruct (SFcompare x y) as [[| |] |] eqn:Hcmp; cbn in Hxy.
  - destruct x as [[|] | | |]; try (rewrite Hxy; reflexivity).
    all: destruct (SFcompare y y) as [[| |] |]; try reflexivity; discriminate.
  - rewrite Hxy. reflexivity.
  - destruct (SFcompare y y) as [[| |] |]; try reflexivity; discriminate.
  - destruct y; reflexivity.
Qed.

Lemma run_extends {R} (w : World) (p : Prog R) (tr : list Event) :
  exists events, trace_of (run w p tr) = tr ++ events.
Proof.
  revert tr. induction p as [r | X e k IH | X c g k IH]; intros tr; cbn [run].
  - exists []. symmetry. apply app_nil_r.
  - destruct (IH (host w X tr e) (tr ++ [Performed e (host w X tr e)])) as (evs & ->).
    rewrite <- app_assoc. eauto.
  - destruct (guarded g (promise_of w tr c)) as [| ms o]; [cbn; eauto |].
    destruct (IH o (tr ++ [Called c (Some o)])) as (evs & ->).
    rewrite <- app_assoc. eauto.
Qed.

(** X23. get_transaction_history asks the ledger for at most 100
    signatures: the limit it hands to [getSignaturesForAddress], its
    first call, is [Math.min(limit, 100)], which is never above 100,
    with 10 standing for a missing limit; [before] is passed on only
    when it is a non-empty string. *)
Theorem transaction_history_limit_is_capped
    (w : World) (st : State) (a : Args.t) (tr : list Event) (wallet : Wallet) :
  connected st = true ->
  Map_get (wallets st) (Args.walletName a) = Some wallet ->
  exists c options o rest,
    connection (ensured st) = Some c
    /\ trace_of (run w (handleGetTransactionHistory (Some a) st) tr)
       = tr ++ Called (getSignaturesForAddress c (publicKey (keypair wallet)) options) o
               :: rest
    /\ opt_limit options
       = Number.Math_min (default (Number.of_Z 10) (Args.limit a)) (Number.of_Z 100)
    /\ Number.gt (opt_limit options) (Number.of_Z 100) = false
    /\ (Args.limit a = None -> opt_limit options = Number.of_Z 10)
    /\ opt_before options
       = (if truthy (opt_str (Args.before a)) then Args.before a else None).
Proof.
  intros Hconn Hw.
  destruct (connected_ensured st Hconn) as [c Hc]. exists c.
  exists {| opt_limit :=
              Number.Math_min (default (Number.of_Z 10) (Args.limit a)) (Number.of_Z 100);
            opt_before :=
              if truthy (opt_str (Args.before a)) then Args.before a else None |}.
  cut (exists o rest,
          trace_of (run w (handleGetTransactionHistory (Some a) st) tr)
          = tr ++ Called (getSignaturesForAddress c (publicKey (keypair wallet))
                            {| opt_limit :=
                                 Number.Math_min (default (Number.of_Z 10) (Args.limit a))
                                   (Number.of_Z 100);
                               opt_before :=
                                 if truthy (opt_str (Args.before a))
                                 then Args.before a else None |}) o
                  :: rest).
  { intros (o & rest & Htrace). exists o, rest. cbn [opt_limit opt_before].
    repeat split; try assumption; try reflexivity; [apply Number_Math_min_bound |].
    intros ->. vm_compute. reflexivity. }
  unfold handleGetTransactionHistory. exec. rewrite Hw. exec. rewrite run_ensure_then.
  exec. rewrite Hc. exec.
  destruct (answer w _ _ _) as [| ms [signatures | error]] eqn:Hanswer.
  - exists None, []. reflexivity.
  - match goal with
    | |- context [trace_of (run w ?p ?t)] => destruct (run_extends w p t) as (rest & ->)
    end.
    rewrite <- app_assoc. cbn [app]. eauto.
  - exists (Some (Rejected error)), []. reflexivity.
Qed.

Lemma run_mapM_each {A B} (w : World) (f : A -> M B) (P : A -> B -> Prop)
    (l : list A) st tr :
  (forall a tr0, exists b tr1,
      run w (f a st) tr0 = Finished (Normal b, st) tr1 /\ P a b) ->
  exists bs tr',
    run w (mapM f l st) tr = Finished (Normal bs, st) tr' /\ Forall2 P l bs.
Proof.
  intros Hf. revert tr. induction l as [| a l IH]; intros tr; cbn [mapM].
  - exists [], tr. split; [reflexivity | constructor].
  - rewrite run_bind. destruct (Hf a tr) as (b & tr1 & -> & Hb).
    rewrite run_bind. destruct (IH tr1) as (bs & tr2 & -> & Hbs).
    exists (b :: bs), tr2. split; [reflexivity | constructor; assumption].
Qed.


(** ** Token information *)

(** X25. The price is optional for get_token_info: when the token is
    in the list but the price service rejects the request, is silent,
    or answers after 5000 ms, the token is still reported as found,
    with price [null]. *)
Theorem get_token_info_without_a_price
    (w : World) (st : State) (a : Args.t) (tr : list Event)
    (response : HttpResponse) (tokens : list TokenEntry) (tokenInfo : TokenEntry)
    (t1 t2 : N) :
  (forall tr', answer w _ tr' (fetch "https://token.jup.ag/strict")
               = SettlesAt t1 (Fulfilled response)) ->
  (t1 < 10000)%N ->
  (forall tr', answer w _ tr' (Response_json response)
               = SettlesAt t2 (Fulfilled (TokenList tokens))) ->
  find (fun entry => strict_eq_str (te_address entry) (Args.tokenMint a)) tokens
  = Some tokenInfo ->
  (forall tr',
      match answer w _ tr'
              (fetch ("https://price.jup.ag/v6/price?ids=" +:+ show (Args.tokenMint a)))
      with
      | Never => True
      | SettlesAt ms (Rejected _) => True
      | SettlesAt ms (Fulfilled _) => (5000 < ms)%N
      end) ->
  exists tr',
    run w (handleGetTokenInfo (Some a) st) tr
    = Finished
        (Normal (VObj [ ("address", te_address tokenInfo);
                        ("name", te_name tokenInfo);
                        ("symbol", te_symbol tokenInfo);
                        ("decimals", te_decimals tokenInfo);
                        ("logoURI", te_logoURI tokenInfo);
                        ("price", VNull);
                        ("found", VBool true) ]),
         st) tr'.
Proof.
  intros Hlist Ht1 Hbody Hfind Hprice.
  unfold handleGetTokenInfo. exec.
  rewrite Hlist, (withTimeout_early t1 10000 (Fulfilled response) Ht1). exec.
  rewrite Hbody. exec. rewrite Hfind. exec.
  match goal with
  | |- context [withTimeout (answer w ?X ?t ?call) (Some 5000%N)] =>
      pose proof (Hprice t) as Hp;
      destruct (answer w X t call) as [| ms [priceResponse | error]]
  end.
  - rewrite withTimeout_never. exec. eauto.
  - rewrite withTimeout_late by exact Hp. exec. eauto.
  - unfold withTimeout, Promise_race. cbn [default from_option id].
    destruct (ms <=? 5000)%N; exec; eauto.
Qed.

(** ** Token accounts *)

(** X26. What get_token_balance reports on success: the raw amount of
    the wallet's associated token account, as a decimal string and not
    scaled by the mint's decimals, and under [decimals] the address of
    the account's mint, not a number of decimals. *)
Theorem get_token_balance_reports_the_mint_as_decimals
    (w : World) (st : State) (a : Args.t) (tr : list Event) (wallet : Wallet)
    (c : Connection) (tokenMintPubkey tokenAccount : PublicKey)
    (accountInfo : TokenAccount) (t : N) :
  connection (ensured st) = Some c ->
  Map_get (wallets st) (Args.walletName a) = Some wallet ->
  PublicKey_new (Args.tokenMint a) = Normal tokenMintPubkey ->
  getAssociatedTokenAddress tokenMintPubkey (publicKey (keypair wallet))
  = Normal tokenAccount ->
  answer w _ tr (getAccount c tokenAccount) = SettlesAt t (Fulfilled accountInfo) ->
  run w (CallToolRequest_handler
           {| req_name := "get_token_balance"; req_arguments := Some a |} st) tr
  = Finished
      (Normal (success_envelope
                 (VObj [ ("wallet", opt_str (Args.walletName a));
                         ("tokenMint", opt_str (Args.tokenMint a));
                         ("balance", VStr (pretty (ta_amount accountInfo)));
                         ("decimals",
                          VStr (PublicKey_toString (ta_mint accountInfo))) ])),
       ensured st)
      (tr ++ [Called (getAccount c tokenAccount) (Some (Fulfilled accountInfo))]).
Proof.
  intros Hc Hw Hmint Hacct Hanswer.
  rewrite CallToolRequest_handler_run. cbn [req_name req_arguments].
  change (switch "get_token_balance" (Some a)) with (handleGetTokenBalance (Some a)).
  unfold handleGetTokenBalance. exec. rewrite Hw. exec.
  rewrite run_ensure_then, run_try_catch.
  repeat (exec; rewrite ?Hmint, ?Hacct, ?Hc, ?Hanswer). reflexivity.
Qed.

(** X27. create_token_account does not look whether the account
    exists: once it has a blockhash it submits one transaction whose
    only instruction creates the wallet's own associated token account
    for the mint, paid by the wallet. *)
Theorem create_token_account_does_not_probe
    (w : World) (st : State) (a : Args.t) (tr : list Event) (wallet : Wallet)
    (c : Connection) (tokenMintPubkey tokenAccount : PublicKey)
    (blockhash : string) (t : N) :
  connection (ensured st) = Some c ->
  Map_get (wallets st) (Args.walletName a) = Some wallet ->
  PublicKey_new (Args.tokenMint a) = Normal tokenMintPubkey ->
  getAssociatedTokenAddress tokenMintPubkey (publicKey (keypair wallet))
  = Normal tokenAccount ->
  answer w _ tr (getLatestBlockhash c) = SettlesAt t (Fulfilled blockhash) ->
  exists o,
    trace_of (run w (handleCreateTokenAccount (Some a) st) tr)
    = tr ++ [ Called (getLatestBlockhash c) (Some (Fulfilled blockhash));
              Called (sendTransaction c
                        (account_creation_transaction wallet tokenAccount
                           (publicKey (keypair wallet)) tokenMintPubkey blockhash)
                        [keypair wallet])
                o ].
Proof.
  intros Hc Hw Hmint Hacct Hbh.
  unfold handleCreateTokenAccount.
  repeat (exec; rewrite ?run_ensure_then, ?Hw, ?Hmint, ?Hacct, ?Hc, ?Hbh).
  match goal with
  | |- context [answer w ?X ?t (sendTransaction ?c0 ?tx ?sgn)] =>
      destruct (answer w X t (sendTransaction c0 tx sgn)) as [| ms [signature | error]]
  end.
  all: exec; cbn [trace_of]; rewrite <- ?app_assoc; cbn [app]; eexists; reflexivity.
Qed.

Lemma listed_balances (includeZeroBalances : bool) (accounts : list ParsedTokenAccount) :
  field "account"
    <$> (snd
           <$> List.filter
                 (fun token : option JSNumber * JSVal =>
                    includeZeroBalances
                    || match fst token with
                       | Some balance => Number.gt balance (Number.of_Z 0)
                       | None => false
                       end)
                 ((fun account =>
                     (pta_uiAmount account,
                      VObj [ ("mint", VStr (pta_mint account));
                             ("balance", match pta_uiAmount account with
                                         | Some balance => VNum balance
                                         | None => VNull
                                         end);
                             ("decimals", VNum (pta_decimals account));
                             ("rawBalance", VStr (pta_amount account));
                             ("account", key_string (pta_pubkey account)) ]))
                    <$> accounts))
  = (fun account => key_string (pta_pubkey account))
      <$> List.filter (fun account => includeZeroBalances || holds_tokens account)
            accounts.
Proof.
  induction accounts as [| account accounts IH]; [reflexivity |].
  cbn [fmap list_fmap List.filter fst]. unfold holds_tokens at 1.
  destruct (includeZeroBalances || _); cbn [fmap list_fmap]; rewrite <- IH; reflexivity.
Qed.

(** X28. get_all_token_balances lists the token accounts of the wallet
    in the order the ledger gives them, leaving out those whose balance
    is zero or [null] unless [includeZeroBalances] is true, and [count]
    is the number of accounts listed. *)
Theorem all_token_balances_leave_out_empty_accounts
    (w : World) (st : State) (a : Args.t) (tr : list Event) (wallet : Wallet)
    (c : Connection) (programId : PublicKey)
    (accounts : list ParsedTokenAccount) (t : N) :
  connection (ensured st) = Some c ->
  Map_get (wallets st) (Args.walletName a) = Some wallet ->
  PublicKey_new TOKEN_PROGRAM_ID = Normal programId ->
  answer w _ tr
    (getParsedTokenAccountsByOwner c (publicKey (keypair wallet)) programId)
  = SettlesAt t (Fulfilled accounts) ->
  exists tokens,
    run w (handleGetAllTokenBalances (Some a) st) tr
    = Finished
        (Normal (VObj [ ("wallet", opt_str (Args.walletName a));
                        ("address", key_string (publicKey (keypair wallet)));
                        ("tokens", VArr tokens);
                        ("count", VNum (length_number tokens)) ]),
         ensured st)
        (tr ++ [ Called (getParsedTokenAccountsByOwner c (publicKey (keypair wallet))
                           programId)
                   (Some (Fulfilled accounts)) ])
    /\ field "account" <$> tokens
       = (fun account => key_string (pta_pubkey account))
           <$> List.filter
                 (fun account =>
                    default false (Args.includeZeroBalances a) || holds_tokens account)
                 accounts.
Proof.
  intros Hc Hw Hprogram Hanswer.
  unfold handleGetAllTokenBalances.
  repeat (exec; rewrite ?run_ensure_then, ?Hw, ?Hprogram, ?Hc, ?Hanswer).
  eexists. split; [reflexivity | apply listed_balances].
Qed.

End Facts.

(** ** The theorems at work on the reference instance *)

Lemma C1_witness :
  exists rs,
    serve Sample.world [Sample.create_alice] initial_state []
    = Finished (rs, Sample.with_alice) [Performed Keypair_generate Sample.alice_key]
    /\ run Sample.world
         (CallToolRequest_handler Sample.create_alice Sample.with_alice)
         [Performed Keypair_generate Sample.alice_key]
       = Finished (Normal (error_envelope (duplicate_wallet (Some "alice"))),
                   Sample.with_alice)
           [Performed Keypair_generate Sample.alice_key].
Proof.
  eexists. split; [reflexivity |].
  eapply (C1_duplicate_name_rejected Sample.world [Sample.create_alice]
            initial_state []).
  - reflexivity.
  - left. reflexivity.
  - reflexivity.
Defined.

Lemma C3_witness :
  currentNetwork Sample.on_mainnet = "mainnet"
  /\ run Sample.world
       (CallToolRequest_handler
          {| req_name := "airdrop_sol";
             req_arguments :=
               Some (Sample.args_of None (Some "nobody") None None None
                       (Some (Number.of_Z 2))) |}
          Sample.on_mainnet) []
     = Finished (Normal (error_envelope airdrop_denied), Sample.on_mainnet) [].
Proof.
  split; [reflexivity |].
  apply (C3_airdrop_denied_on_mainnet Sample.world Sample.on_mainnet
           (Sample.args_of None (Some "nobody") None None None (Some (Number.of_Z 2))) []).
  reflexivity.
Defined.





(** A promise that settles after 3 ms beats a 5 ms deadline, and one
    that settles after 7 s loses against 5 s.  The health check of a
    ledger whose [getVersion] answers after 4999 ms reports the version;
    after 5001 ms, or never, it reports the time-out. *)
Lemma C6_witness :
  withTimeout (SettlesAt 3 (Fulfilled "ok")) (Some 5%N) = SettlesAt 3 (Fulfilled "ok")
  /\ withTimeout (SettlesAt 7000 (Fulfilled "late")) (Some 5000%N)
     = SettlesAt 5000 (Rejected timed_out)
  /\ run (Sample.version_after 4999) (handleHealthCheck Sample.with_alice) []
     = Finished
         (Normal (VObj [ ("status", VStr "healthy");
                         ("checks",
                          health_checks Sample.with_alice "healthy"
                            "2024-05-01T12:00:00.000Z");
                         ("solanaVersion", VStr "1.18.22") ]),
          ensured Sample.with_alice)
         [ Performed Date_toISOString "2024-05-01T12:00:00.000Z";
           Called (getVersion (connection_to (VStr "https://api.devnet.solana.com")))
             (Some (Fulfilled {| solana_core := "1.18.22" |})) ]
  /\ run (Sample.version_after 5001) (handleHealthCheck Sample.with_alice) []
     = Finished
         (Normal (VObj [ ("status", VStr "degraded");
                         ("checks",
                          health_checks Sample.with_alice "unhealthy"
                            "2024-05-01T12:00:00.000Z");
                         ("error", VStr "Operation timed out") ]),
          ensured Sample.with_alice)
         [ Performed Date_toISOString "2024-05-01T12:00:00.000Z";
           Called (getVersion (connection_to (VStr "https://api.devnet.solana.com")))
             (Some (Rejected timed_out)) ]
  /\ trace_of (run Sample.silent_world (handleHealthCheck Sample.with_alice) [])
     = [ Performed Date_toISOString "2024-05-01T12:00:00.000Z";
         Called (getVersion (connection_to (VStr "https://api.devnet.solana.com")))
           (Some (Rejected timed_out)) ].
Proof.
  destruct (C6_withTimeout_races_the_deadline) as (Hrace & _ & Hhealth).
  split; [| split; [| split; [| split]]].
  - apply (proj2 (Hrace string (SettlesAt 3 (Fulfilled "ok")) 5%N)). reflexivity.
  - apply (proj1 (Hrace string (SettlesAt 7000 (Fulfilled "late")) 5000%N)). reflexivity.
  - apply (proj2 (Hhealth (Sample.version_after 4999) Sample.with_alice []
                    (connection_to (VStr "https://api.devnet.solana.com")) eq_refl)).
    reflexivity.
  - apply (proj1 (Hhealth (Sample.version_after 5001) Sample.with_alice []
                    (connection_to (VStr "https://api.devnet.solana.com")) eq_refl)).
    reflexivity.
  - rewrite (Hhealth Sample.silent_world Sample.with_alice []
               (connection_to (VStr "https://api.devnet.solana.com")) eq_refl).
    reflexivity.
Defined.

(** transfer_sol to a string that is not an address. *)
Lemma C7_witness :
  PublicKey_new (Some "0OIl") = Abrupt (Error "Invalid public key input")
  /\ run Sample.world
       (CallToolRequest_handler
          {| req_name := "transfer_sol";
             req_arguments :=
               Some (Sample.args_of None None (Some "alice") (Some "0OIl") None
                       (Some (Number.of_Z 1))) |}
          Sample.with_alice) []
     = Finished (Normal (error_envelope (Error "Invalid public key input")),
                 ensured Sample.with_alice) [].
Proof.
  split; [reflexivity |].
  apply (proj1 (C7_parse_failure_surfaces_outside_try)
           {| au_tool := "transfer_sol";
              au_wallet a := Some (Args.fromWallet a);
              au_parsed a := [Args.toAddress a] |}
           Sample.world
           (Sample.args_of None None (Some "alice") (Some "0OIl") None
              (Some (Number.of_Z 1)))
           Sample.with_alice [] (Error "Invalid public key input")).
  - apply list_elem_of_here.
  - intros n Hn. injection Hn as <-. reflexivity.
  - reflexivity.
Defined.

(** get_token_balance with a mint that is not an address: the parsing
    fails, yet the response is not an error response, and its payload is
    the zero balance. *)
Lemma C7_counterexample :
  PublicKey_new (Some "not-a-mint") = Abrupt (Error "Invalid public key input")
  /\ exists response,
       run Sample.world
         (CallToolRequest_handler
            {| req_name := "get_token_balance";
               req_arguments :=
                 Some (Sample.args_of None (Some "alice") None None (Some "not-a-mint")
                         None) |}
            Sample.with_alice) []
       = Finished (Normal response, ensured Sample.with_alice) []
       /\ isError response = None
       /\ response
          = success_envelope
              (VObj [ ("wallet", VStr "alice");
                      ("tokenMint", VStr "not-a-mint");
                      ("balance", VStr "0");
                      ("error",
                       VStr "Token account not found or error retrieving balance") ]).
Proof.
  split; [reflexivity |].
  eexists. split; [reflexivity | split; reflexivity].
Qed.

Lemma C8_witness :
  ("delete_wallet" ∉ tools)
  /\ run Sample.world
       (CallToolRequest_handler
          {| req_name := "delete_wallet"; req_arguments := None |} Sample.with_alice) []
     = Finished
         (Normal {| content := [ {| type := "text";
                                    text := "Error: Unknown tool: delete_wallet" |} ];
                    isError := Some true |},
          Sample.with_alice) [].
Proof.
  assert (Hname : "delete_wallet" ∉ tools)
    by (apply (bool_decide_unpack _); vm_compute; exact I).
  split; [exact Hname |].
  apply (proj1 (proj2 (C8_dispatch_envelopes Sample.world
                         {| req_name := "delete_wallet"; req_arguments := None |}
                         Sample.with_alice []))).
  exact Hname.
Defined.

(** Burning 1.5 tokens of a mint with 6 decimals: the mint is fetched
    and [burn] is asked for 1500000 smallest units. *)
Lemma C10_witness :
  fetched_mints
    (trace_of
       (run Sample.world
          (handleBurnTokens
             (Some (Sample.args_of None (Some "alice") None None (Some Sample.usdc_mint)
                      (Some (Number.decimal 15 1))))
             Sample.with_alice) []))
  = [Sample.usdc_mint]
  /\ token_amounts
       (trace_of
          (run Sample.world
             (handleBurnTokens
                (Some (Sample.args_of None (Some "alice") None None (Some Sample.usdc_mint)
                         (Some (Number.decimal 15 1))))
                Sample.with_alice) []))
     = [(OpBurn, 1500000%Z)].
Proof.
  apply (proj2 (proj1 (proj2 (proj2 (proj2 (C10_token_amount_units))))
                  Sample.world Sample.with_alice
                  (Sample.args_of None (Some "alice") None None (Some Sample.usdc_mint)
                     (Some (Number.decimal 15 1)))
                  [] Sample.alice
                  Sample.usdc_mint Sample.usdc 1500000%Z 120%N
                  eq_refl eq_refl eq_refl (fun _ _ => eq_refl) eq_refl)
           (substring 0 22 Sample.alice_key +:+ substring 0 22 Sample.usdc_mint)).
  reflexivity.
Defined.

(** Switching to "staging", an identifier outside the registry. *)
Lemma switch_network_falls_back_witness :
  run Sample.world
    (handleSwitchNetwork (Some (network_args "staging")) Sample.with_alice) []
  = Finished (Normal (VObj [ ("success", VBool true);
                             ("network", VStr "staging");
                             ("rpcUrl", VUndefined) ]),
              {| wallets := [(Some "alice", Sample.alice)];
                 currentNetwork := "staging";
                 connection :=
                   Some (connection_to (VStr "https://api.devnet.solana.com"));
                 connectionInitialized := false |}) [].
Proof.
  apply (switch_network_falls_back Sample.world "staging" Sample.with_alice []).
  - apply (bool_decide_unpack _). vm_compute. exact I.
  - apply (bool_decide_unpack _). vm_compute. exact I.
Defined.

(** From mainnet, with the connection already initialized, to testnet. *)
Lemma switch_network_kept_witness :
  connectionInitialized Sample.on_mainnet = true
  /\ exists rs,
       serve Sample.world
         [ switch_network_request "testnet";
           {| req_name := "get_recent_blockhash"; req_arguments := Some Args.empty |} ]
         Sample.on_mainnet []
       = Finished (rs, switched "testnet" Sample.on_mainnet)
           [Called (getLatestBlockhash
                      (connection_to (VStr "https://api.testnet.solana.com")))
              (Some (Fulfilled Sample.some_blockhash))]
       /\ last rs
          = Some (Normal (success_envelope
                            (VObj [ ("blockhash", VStr Sample.some_blockhash);
                                    ("network", VStr "testnet") ]))).
Proof.
  split; [reflexivity |].
  eexists. split.
  - apply (switch_network_kept_once_initialized Sample.world "testnet"
             Sample.on_mainnet []).
    + reflexivity.
    + apply (bool_decide_unpack _). vm_compute. exact I.
  - reflexivity.
Defined.

(** Sending 8.2 SOL from alice to bob moves 8199999999 lamports. *)
Lemma transfer_sol_floor_witness :
  exists tx lamports,
    sent_transactions
      (trace_of
         (run Sample.world
            (handleTransferSol
               (Some (Sample.args_of None None (Some "alice") (Some Sample.bob_key) None
                        (Some (Number.decimal 82 1))))
               Sample.with_alice) []))
    = [tx]
    /\ instructions tx
       = [SystemProgram_transfer Sample.alice_key Sample.bob_key lamports]
    /\ Number.BigInt lamports = Some 8199999999%Z.
Proof.
  apply (transfer_sol_floor_of_binary64_product Sample.world Sample.with_alice
           (Sample.args_of None None (Some "alice") (Some Sample.bob_key) None
              (Some (Number.decimal 82 1)))
           [] Sample.alice Sample.bob_key Sample.some_blockhash 120%N 8199999999%Z
           eq_refl eq_refl eq_refl (fun _ _ => eq_refl)).
  apply list_elem_of_here.
Defined.

(** Switching to "custom" when no endpoint is configured for it: the
    reported endpoint is empty and the connection is built on devnet's. *)
Lemma switch_network_resolves_witness :
  run Sample.world
    (handleSwitchNetwork (Some (network_args "custom")) Sample.with_alice) []
  = Finished (Normal (VObj [ ("success", VBool true);
                             ("network", VStr "custom");
                             ("rpcUrl", VStr "") ]),
              {| wallets := [(Some "alice", Sample.alice)];
                 currentNetwork := "custom";
                 connection :=
                   Some (connection_to (VStr "https://api.devnet.solana.com"));
                 connectionInitialized := false |}) [].
Proof.
  destruct (switch_network_resolves_the_registry Sample.world "custom"
              Sample.with_alice [])
    as (override & builtin & Hrow & Hrun).
  - apply (bool_decide_unpack _). vm_compute. exact I.
  - repeat (apply elem_of_cons in Hrow; destruct Hrow as [Hrow | Hrow];
            [try discriminate Hrow |]).
    + injection Hrow as -> ->. exact Hrun.
    + apply elem_of_nil in Hrow. contradiction.
Defined.

(** ** The further properties at work on the reference instance *)

(** A refused create_wallet and a network switch later, alice is still
    bound to her key pair. *)
Lemma wallet_bindings_witness :
  exists rs st tr,
    serve Sample.world [Sample.create_alice; switch_network_request "testnet"]
      Sample.with_alice []
    = Finished (rs, st) tr
    /\ Map_get (wallets st) (Some "alice") = Some Sample.alice.
Proof.
  do 3 eexists. split; [reflexivity |].
  eapply (wallet_bindings_are_permanent Sample.world
            [Sample.create_alice; switch_network_request "testnet"]
            Sample.with_alice []).
  - reflexivity.
  - reflexivity.
Defined.

Lemma wallet_store_witness :
  exists r st tr,
    run Sample.world
      (CallToolRequest_handler (switch_network_request "testnet") Sample.with_alice) []
    = Finished (r, st) tr
    /\ wallets st = [(Some "alice", Sample.alice)].
Proof.
  do 3 eexists. split; [reflexivity |].
  eapply (wallet_store_is_left_by_other_tools Sample.world
            (switch_network_request "testnet") Sample.with_alice []).
  - discriminate.
  - discriminate.
  - reflexivity.
Defined.

Lemma list_wallets_witness :
  NoDup [Some "alice"]
  /\ run Sample.world
       (CallToolRequest_handler
          {| req_name := "list_wallets"; req_arguments := None |} Sample.with_alice)
       [Performed Keypair_generate Sample.alice_key]
     = Finished
         (Normal (success_envelope
                    (VObj [ ("wallets",
                             VArr [ VObj [ ("name", VStr "alice");
                                           ("address", VStr Sample.alice_key) ] ]);
                            ("count", VNum (Number.of_Z 1)) ])),
          Sample.with_alice)
         [Performed Keypair_generate Sample.alice_key].
Proof.
  eapply (list_wallets_lists_the_keys Sample.world [Sample.create_alice] _
            Sample.with_alice _ None).
  reflexivity.
Defined.

(** get_balance only asks for the balance. *)
Lemma read_only_witness :
  exists events,
    trace_of (run Sample.world
                (CallToolRequest_handler
                   {| req_name := "get_balance";
                      req_arguments :=
                        Some (Sample.args_of None (Some "alice") None None None None) |}
                   Sample.with_alice) [])
    = [] ++ events
    /\ forallb query_event events = true.
Proof.
  destruct (read_only_tools_only_query "get_balance" Sample.world
              (Some (Sample.args_of None (Some "alice") None None None None))
              Sample.with_alice []) as (events & Htrace & Hquery & _).
  - apply (bool_decide_unpack _). vm_compute. exact I.
  - exists events. split; [exact Htrace | exact Hquery].
Defined.

(** The balance of alice on a ledger that never answers anything. *)
Lemma bounded_tools_witness :
  exists response st tr,
    run Sample.dead_world
      (CallToolRequest_handler
         {| req_name := "get_balance";
            req_arguments := Some (Sample.args_of None (Some "alice") None None None None) |}
         Sample.with_alice) []
    = Finished (Normal response, st) tr.
Proof.
  apply (bounded_tools_always_answer "get_balance" Sample.dead_world
           (Some (Sample.args_of None (Some "alice") None None None None))
           Sample.with_alice []).
  apply (bool_decide_unpack _). vm_compute. exact I.
Defined.

(** A transfer from a wallet nobody created. *)
Lemma missing_wallet_witness :
  run Sample.world
    (CallToolRequest_handler
       {| req_name := "transfer_sol";
          req_arguments :=
            Some (Sample.args_of None None (Some "carol") (Some Sample.bob_key) None
                    (Some (Number.of_Z 1))) |}
       Sample.with_alice) []
  = Finished
      (Normal {| content := [ {| type := "text";
                                 text := "Error: Wallet 'carol' not found" |} ];
                 isError := Some true |},
       Sample.with_alice) [].
Proof.
  apply (missing_wallet_is_reported "transfer_sol" Args.fromWallet Sample.world
           (Sample.args_of None None (Some "carol") (Some Sample.bob_key) None
              (Some (Number.of_Z 1)))
           Sample.with_alice []).
  - unfold wallet_lookups.
    repeat first [apply list_elem_of_here | apply list_elem_of_further].
  - reflexivity.
  - discriminate.
Defined.

Lemma missing_arguments_witness :
  run Sample.world
    (CallToolRequest_handler
       {| req_name := "mint_tokens"; req_arguments := None |} Sample.with_alice) []
  = Finished
      (Normal {| content :=
                   [ {| type := "text";
                        text := "Error: Cannot destructure property 'walletName' of 'args' as it is undefined." |} ];
                 isError := Some true |},
       Sample.with_alice) [].
Proof.
  apply (missing_arguments_are_reported "mint_tokens" "walletName" Sample.world
           Sample.with_alice []).
  apply (bool_decide_unpack _). vm_compute. exact I.
Defined.

(** A private key with characters outside the base58 alphabet. *)
Lemma import_wallet_witness :
  run Sample.world
    (CallToolRequest_handler
       {| req_name := "import_wallet";
          req_arguments := Some (wallet_args (Some "bob") (Some "0OIl")) |}
       Sample.with_alice) []
  = Finished
      (Normal {| content :=
                   [ {| type := "text";
                        text := "Error: Invalid private key: Error: Non-base58 character" |} ];
                 isError := Some true |},
       Sample.with_alice) [].
Proof.
  apply (import_wallet_rejects_a_bad_key Sample.world
           (wallet_args (Some "bob") (Some "0OIl")) Sample.with_alice []
           (Error "Non-base58 character")).
  - reflexivity.
  - left. reflexivity.
Defined.

(** alice, created and then imported again as "backup". *)
Lemma exported_key_witness :
  exists rs,
    serve Sample.world
      [ {| req_name := "create_wallet";
           req_arguments := Some (wallet_args (Some "alice") None) |};
        {| req_name := "import_wallet";
           req_arguments := Some (wallet_args (Some "backup") (Some Sample.alice_key)) |} ]
      initial_state []
    = Finished
        (rs,
         {| wallets :=
              [ (Some "alice", {| keypair := Sample.alice_key; name := Some "alice" |});
                (Some "backup", {| keypair := Sample.alice_key; name := Some "backup" |}) ];
            currentNetwork := "devnet";
            connection := None;
            connectionInitialized := false |})
        [Performed Keypair_generate Sample.alice_key].
Proof.
  eexists.
  apply (exported_key_imports_the_same_wallet Sample.world initial_state []
           (Some "alice") (Some "backup")).
  - reflexivity.
  - reflexivity.
  - discriminate.
  - reflexivity.
  - reflexivity.
Defined.

(** Minting to bob, who has no token account: the account is created by
    a transaction of its own before the mint. *)
Lemma mint_tokens_witness :
  exists result,
    run Sample.world (handleMintTokens (Some Sample.mint_to_bob) Sample.with_alice) []
    = Finished (Normal result, ensured Sample.with_alice)
        [ Called (getMint devnet_connection Sample.usdc_mint)
            (Some (Fulfilled Sample.usdc));
          Called (getAccount devnet_connection
                    (substring 0 22 Sample.bob_key +:+ substring 0 22 Sample.usdc_mint))
            (Some (Rejected (ErrorObj "TokenAccountNotFoundError" "")));
          Called (getLatestBlockhash devnet_connection)
            (Some (Fulfilled Sample.some_blockhash));
          Called (sendTransaction devnet_connection
                    (account_creation_transaction Sample.alice
                       (substring 0 22 Sample.bob_key +:+ substring 0 22 Sample.usdc_mint)
                       Sample.bob_key Sample.usdc_mint Sample.some_blockhash)
                    [Sample.alice_key])
            (Some (Fulfilled Sample.some_signature));
          Called (setTimeout_resolve 2000) (Some (Fulfilled tt));
          Called (mintTo devnet_connection Sample.alice_key Sample.usdc_mint
                    (substring 0 22 Sample.bob_key +:+ substring 0 22 Sample.usdc_mint)
                    Sample.alice_key 1500000)
            (Some (Fulfilled Sample.some_signature)) ].
Proof.
  destruct (mint_tokens_creates_the_account_first Sample.world Sample.with_alice
              Sample.mint_to_bob [] Sample.alice Sample.usdc_mint Sample.bob_key
              (substring 0 22 Sample.bob_key +:+ substring 0 22 Sample.usdc_mint)
              Sample.usdc 1500000%Z (ErrorObj "TokenAccountNotFoundError" "")
              Sample.some_blockhash Sample.some_signature
              (Fulfilled Sample.some_signature) 120%N)
    as (c & result & Hc & Hrun & payload & ->).
  - reflexivity.
  - reflexivity.
  - reflexivity.
  - reflexivity.
  - reflexivity.
  - reflexivity.
  - intros tr' c. reflexivity.
  - intros tr' c. reflexivity.
  - intros tr' c. reflexivity.
  - intros tr' c tx sgn. reflexivity.
  - intros tr' c. reflexivity.
  - injection Hc as <-. exists payload. exact Hrun.
Defined.

(** An airdrop to alice on devnet, without an amount. *)
Lemma airdrop_witness :
  exists o,
    trace_of (run Sample.world
                (handleAirdropSol
                   (Some (Sample.args_of None (Some "alice") None None None None))
                   Sample.with_alice) [])
    = [ Called (requestAirdrop devnet_connection Sample.alice_key
                  (Number.Math_floor (Number.mul (Number.of_Z 1) LAMPORTS_PER_SOL)))
          o ].
Proof.
  destruct (airdrop_is_requested_off_mainnet Sample.world Sample.with_alice
              (Sample.args_of None (Some "alice") None None None None) [] Sample.alice)
    as (c & o & Hc & Htrace & _).
  - reflexivity.
  - discriminate.
  - reflexivity.
  - injection Hc as <-. exists o. exact Htrace.
Defined.

(** The balance of alice: 2.5 SOL, answered after 120 ms. *)
Lemma get_balance_witness :
  run Sample.world
    (CallToolRequest_handler
       {| req_name := "get_balance";
          req_arguments := Some (Sample.args_of None (Some "alice") None None None None) |}
       Sample.with_alice) []
  = Finished
      (Normal (success_envelope
                 (VObj [ ("wallet", VStr "alice");
                         ("address", VStr Sample.alice_key);
                         ("balance",
                          VObj [ ("lamports", VNum (Number.of_Z 2500000000));
                                 ("sol",
                                  VNum (Number.div (Number.of_Z 2500000000)
                                          LAMPORTS_PER_SOL)) ]) ])),
       ensured Sample.with_alice)
      [ Called (getBalance devnet_connection Sample.alice_key)
          (Some (Fulfilled (Number.of_Z 2500000000))) ].
Proof.
  destruct (get_balance_within_the_default_deadline Sample.world Sample.with_alice
              (Sample.args_of None (Some "alice") None None None None) [] Sample.alice)
    as (c & Hc & Hearly & _).
  - reflexivity.
  - reflexivity.
  - injection Hc as <-.
    apply (Hearly 120%N (Number.of_Z 2500000000)); reflexivity.
Defined.

Lemma create_spl_token_witness :
  exists o,
    trace_of (run Sample.world
                (handleCreateSplToken
                   (Some (Sample.args_of None (Some "alice") None None None None))
                   Sample.with_alice) [])
    = [ Called (createMint devnet_connection Sample.alice_key Sample.alice_key None
                  (Number.of_Z 9))
          o ].
Proof.
  destruct (create_spl_token_defaults Sample.world Sample.with_alice
              (Sample.args_of None (Some "alice") None None None None) [] Sample.alice)
    as (c & o & Hc & Htrace).
  - reflexivity.
  - reflexivity.
  - injection Hc as <-. exists o. exact Htrace.
Defined.

(** "Minting" is no authority type: [undefined] is handed on. *)
Lemma set_token_authority_witness :
  exists o,
    trace_of (run Sample.world
                (handleSetTokenAuthority (Some Sample.drop_authority) Sample.with_alice) [])
    = [ Called (setAuthority devnet_connection Sample.alice_key Sample.usdc_mint
                  Sample.alice_key Absent None)
          o ].
Proof.
  destruct (set_token_authority_passes_the_type_unchecked Sample.world Sample.with_alice
              Sample.drop_authority [] Sample.alice Sample.usdc_mint)
    as (c & o & Hc & Htrace & _).
  - reflexivity.
  - reflexivity.
  - reflexivity.
  - reflexivity.
  - injection Hc as <-. exists o. exact Htrace.
Defined.

(** bob's address is unknown to the ledger. *)
Lemma unknown_account_witness :
  run Sample.world
    (CallToolRequest_handler
       {| req_name := "get_account_info"; req_arguments := Some Sample.lookup_bob |}
       Sample.with_alice) []
  = Finished
      (Normal (success_envelope
                 (VObj [ ("address", VStr Sample.bob_key); ("exists", VBool false) ])),
       ensured Sample.with_alice)
      [Called (getAccountInfo devnet_connection Sample.bob_key) (Some (Fulfilled None))].
Proof.
  apply (proj1 (unknown_account_and_unknown_transaction Sample.world Sample.with_alice
                  Sample.lookup_bob [] devnet_connection Sample.bob_key 120%N eq_refl)).
  - reflexivity.
  - reflexivity.
Defined.

(** A request for 500 transactions asks the ledger for 100. *)
Lemma transaction_history_limit_witness :
  exists c options o rest,
    trace_of (run Sample.world
                (handleGetTransactionHistory (Some Sample.long_history) Sample.with_alice)
                [])
    = [] ++ Called (getSignaturesForAddress c Sample.alice_key options) o :: rest
    /\ Number.BigInt (opt_limit options) = Some 100%Z.
Proof.
  destruct (transaction_history_limit_is_capped Sample.world Sample.with_alice
              Sample.long_history [] Sample.alice)
    as (c & options & o & rest & _ & Htrace & Hlimit & _).
  - reflexivity.
  - reflexivity.
  - exists c, options, o, rest. split; [exact Htrace |].
    rewrite Hlimit. reflexivity.
Defined.


(** USDC is in the list; its price never comes. *)
Lemma get_token_info_witness :
  exists tr,
    run Sample.priceless_world
      (handleGetTokenInfo
         (Some (Sample.args_of None None None None (Some Sample.usdc_mint) None))
         initial_state) []
    = Finished
        (Normal (VObj [ ("address", VStr Sample.usdc_mint);
                        ("name", VStr "USD Coin");
                        ("symbol", VStr "USDC");
                        ("decimals", VNum (Number.of_Z 6));
                        ("logoURI", VUndefined);
                        ("price", VNull);
                        ("found", VBool true) ]),
         initial_state) tr.
Proof.
  apply (get_token_info_without_a_price Sample.priceless_world initial_state
           (Sample.args_of None None None None (Some Sample.usdc_mint) None) []
           {| response_url := "https://token.jup.ag/strict" |}
           [Sample.usdc_entry] Sample.usdc_entry 120%N 40%N).
  - intros tr'. reflexivity.
  - reflexivity.
  - intros tr'. reflexivity.
  - reflexivity.
  - intros tr'. exact I.
Defined.

(** 2.5 USDC are reported as "2500000", with the mint under [decimals]. *)
Lemma get_token_balance_witness :
  run Sample.funded_world
    (CallToolRequest_handler
       {| req_name := "get_token_balance";
          req_arguments :=
            Some (Sample.args_of None (Some "alice") None None (Some Sample.usdc_mint)
                    None) |}
       Sample.with_alice) []
  = Finished
      (Normal (success_envelope
                 (VObj [ ("wallet", VStr "alice");
                         ("tokenMint", VStr Sample.usdc_mint);
                         ("balance", VStr "2500000");
                         ("decimals", VStr Sample.usdc_mint) ])),
       ensured Sample.with_alice)
      [ Called (getAccount devnet_connection
                  (substring 0 22 Sample.alice_key +:+ substring 0 22 Sample.usdc_mint))
          (Some (Fulfilled Sample.usdc_holding)) ].
Proof.
  apply (get_token_balance_reports_the_mint_as_decimals Sample.funded_world
           Sample.with_alice
           (Sample.args_of None (Some "alice") None None (Some Sample.usdc_mint) None)
           [] Sample.alice devnet_connection Sample.usdc_mint
           (substring 0 22 Sample.alice_key +:+ substring 0 22 Sample.usdc_mint)
           Sample.usdc_holding 120%N).
  - reflexivity.
  - reflexivity.
  - reflexivity.
  - reflexivity.
  - reflexivity.
Defined.

Lemma create_token_account_witness :
  exists o,
    trace_of (run Sample.world
                (handleCreateTokenAccount
                   (Some (Sample.args_of None (Some "alice") None None
                            (Some Sample.usdc_mint) None))
                   Sample.with_alice) [])
    = [ Called (getLatestBlockhash devnet_connection)
          (Some (Fulfilled Sample.some_blockhash));
        Called (sendTransaction devnet_connection
                  (account_creation_transaction Sample.alice
                     (substring 0 22 Sample.alice_key +:+ substring 0 22 Sample.usdc_mint)
                     Sample.alice_key Sample.usdc_mint Sample.some_blockhash)
                  [Sample.alice_key])
          o ].
Proof.
  apply (create_token_account_does_not_probe Sample.world Sample.with_alice
           (Sample.args_of None (Some "alice") None None (Some Sample.usdc_mint) None)
           [] Sample.alice devnet_connection Sample.usdc_mint
           (substring 0 22 Sample.alice_key +:+ substring 0 22 Sample.usdc_mint)
           Sample.some_blockhash 120%N).
  - reflexivity.
  - reflexivity.
  - reflexivity.
  - reflexivity.
  - reflexivity.
Defined.

(** Of alice's two token accounts only the one with a balance is listed. *)
Lemma all_token_balances_witness :
  exists tokens,
    run Sample.portfolio_world
      (handleGetAllTokenBalances
         (Some (Sample.args_of None (Some "alice") None None None None))
         Sample.with_alice) []
    = Finished
        (Normal (VObj [ ("wallet", VStr "alice");
                        ("address", VStr Sample.alice_key);
                        ("tokens", VArr tokens);
                        ("count", VNum (length_number tokens)) ]),
         ensured Sample.with_alice)
        [ Called (getParsedTokenAccountsByOwner devnet_connection Sample.alice_key
                    "TokenkegQfeZyiNwAJbNbGKPFXCWuBvf9Ss623VQ5DA")
            (Some (Fulfilled [Sample.empty_account; Sample.usdc_account])) ]
    /\ field "account" <$> tokens
       = [VStr (substring 0 22 Sample.alice_key +:+ substring 0 22 Sample.usdc_mint)].
Proof.
  apply (all_token_balances_leave_out_empty_accounts Sample.portfolio_world
           Sample.with_alice
           (Sample.args_of None (Some "alice") None None None None)
           [] Sample.alice devnet_connection
           "TokenkegQfeZyiNwAJbNbGKPFXCWuBvf9Ss623VQ5DA"
           [Sample.empty_account; Sample.usdc_account] 120%N).
  - reflexivity.
  - reflexivity.
  - reflexivity.
  - reflexivity.
Defined.
